(** * SideScope agent: a shallow embedding of the agent core and its properties

    The development follows the TypeScript sources module by module:
    - [JS]            the string primitives of the language the code relies on
                      ([trim], [toLowerCase], [includes], [split] on whitespace);
    - [AgentService]  backend/agentService: agent state, [addStep],
                      [shouldStopAgent];
    - [Extractor]     content extraction: [estimateTokens],
                      [buildOptimizedContent];
    - [Cache]         backend/contextCache.ts: the TTL cache and its timers;
    - [Gateway]       backend/aiClient.ts: [retryWithBackoff] and the failure
                      classification of [callAI];
    - [Resolver]      content/smartSelector.ts: [smartFind] and its strategies;
    - [Executor]      content/actionExecutor: [executeClick];
    - [Controller]    ui/components/AgentController.tsx: [runAgentLoop];
    - [Parser]        [parseAgentResponse] with the JSON reader it calls;
    - [Content]       the content script and shared utilities: [simpleHash],
                      [extractContentChunks], [calculateContentQuality],
                      [extractMetadata], [extractSimpleText];
    - [SettingsStore] backend/settingsStore.ts: [loadSettings], [saveSettings];
    - [ApiClient]     backend/aiClient.ts: [buildContextPrompt], [callAI],
                      [validateApiKey];
    - [Actions]       content/actionExecutor: [executeAction] and the other
                      actions;
    - [Bridge]        backend/pageContextBridge.ts:
                      [requestPageContextFromActiveTab];
    - [CacheUse], [ResolverUse], [ControllerUse], [ParserUse]
                      predicates for the properties of the modules above.

    JavaScript numbers that hold counts, lengths and millisecond clocks are
    integers here ([Z]); the scores of the resolver, which come from
    divisions, are IEEE 754 binary64 values ([spec_float]); strings are
    sequences of 8-bit code units ([string]), read as the code units
    U+0000..U+00FF. *)

From Stdlib Require Import ZArith List String Ascii Bool Lia QArith SpecFloat.
From stdpp Require Import gmap strings list pretty.
Import ListNotations.

Local Open Scope string_scope.
Local Open Scope list_scope.
Local Open Scope Z_scope.

(* ===================================================================== *)
(** ** String primitives *)
(* ===================================================================== *)

Module JS.

(** The double-quote character, for messages that quote their argument. *)
Definition dq : string := String "034"%char EmptyString.

Definition code (c : ascii) : N := N_of_ascii c.

(** WhiteSpace and LineTerminator code units below U+0100: TAB, LF, VT, FF,
    CR, SPACE and NBSP.  This is the class of [\s] and of [trim]. *)
Definition isWhiteSpace (c : ascii) : bool :=
  let n := code c in
  ((9 <=? n) && (n <=? 13) || (n =? 32) || (n =? 160))%N.

Fixpoint trimStart (s : string) : string :=
  match s with
  | EmptyString => EmptyString
  | String c r => if isWhiteSpace c then trimStart r else s
  end.

(** [trimEnd] drops the trailing whitespace run: a character is kept when it
    is not whitespace or when something is kept after it. *)
Fixpoint trimEnd (s : string) : string :=
  match s with
  | EmptyString => EmptyString
  | String c r =>
      match trimEnd r with
      | EmptyString => if isWhiteSpace c then EmptyString else String c EmptyString
      | r' => String c r'
      end
  end.

Definition trim (s : string) : string := trimEnd (trimStart s).

(** [toLowerCase] on U+0000..U+00FF: A-Z, and the Latin-1 capitals
    U+00C0..U+00DE except the multiplication sign U+00D7. *)
Definition lowerChar (c : ascii) : ascii :=
  let n := code c in
  if ((65 <=? n) && (n <=? 90))%N then ascii_of_N (n + 32)
  else if ((192 <=? n) && (n <=? 222) && negb (n =? 215))%N then ascii_of_N (n + 32)
  else c.

Fixpoint toLowerCase (s : string) : string :=
  match s with
  | EmptyString => EmptyString
  | String c r => String (lowerChar c) (toLowerCase r)
  end.

Definition startsWith (s p : string) : bool := String.prefix p s.

(** [s.includes(sub)]: [sub] occurs at some position of [s]. *)
Fixpoint includes (s sub : string) : bool :=
  if String.prefix sub s then true
  else match s with
       | EmptyString => false
       | String _ r => includes r sub
       end.

Definition len (s : string) : Z := Z.of_nat (String.length s).

(** [s.split(/\s+/)]: the pieces between maximal whitespace runs; a leading
    or trailing run leaves an empty piece, and the empty string splits into one
    empty piece.  [cur] is the piece being read (reversed), [inws] tells that
    the previous character was whitespace. *)
Fixpoint split_ws_aux (s : string) (cur : list ascii) (inws : bool) : list string :=
  match s with
  | EmptyString => [string_of_list_ascii (rev cur)]
  | String c r =>
      if isWhiteSpace c then
        if inws then split_ws_aux r cur true
        else string_of_list_ascii (rev cur) :: split_ws_aux r [] true
      else split_ws_aux r (c :: cur) false
  end.

Definition split_ws (s : string) : list string := split_ws_aux s [] false.

(** [s] without its first [n] characters. *)
Fixpoint drop (n : nat) (s : string) : string :=
  match n, s with
  | O, _ => s
  | S n', String _ r => drop n' r
  | S _, EmptyString => EmptyString
  end.

(** [c] occurs in [s]. *)
Fixpoint occurs (c : ascii) (s : string) : bool :=
  match s with
  | EmptyString => false
  | String x r => Ascii.eqb c x || occurs c r
  end.

(** JavaScript truthiness of a string: non-empty. *)
Definition truthy (s : string) : bool :=
  match s with EmptyString => false | _ => true end.

End JS.

(* ===================================================================== *)
(** ** shared/types: actions, results, steps, agent state *)
(* ===================================================================== *)

Inductive Direction := Up | Down.

(** [BrowserAction]: optional fields are options. *)
Inductive BrowserAction :=
| ANavigate (url : string)
| AClick (selector : string) (text : option string)
| AType (selector text : string) (clearFirst : option bool)
| AScroll (direction : option Direction) (selector : option string)
| AWait (selector : option string) (timeout : option Z)
| AExtract (selector : string) (attribute : option string)
| AHover (selector : string)
| ASelect (selector value : string)
| APressKey (key : string)
| ADone (summary : string).

Definition isDoneAction (a : BrowserAction) : bool :=
  match a with ADone _ => true | _ => false end.

(** The [data] payloads the executor produces ([data?: unknown]). *)
Inductive ResultData :=
| DataNavigation (url : string)
| DataSummary (summary : string)
| DataText (text : string).

Record ActionResult := mkResult {
  success : bool;
  error : option string;
  data : option ResultData
}.

Definition okResult : ActionResult := mkResult true None None.
Definition failResult (msg : string) : ActionResult := mkResult false (Some msg) None.

Record AgentStep := mkStep {
  step_id : string;
  thought : string;
  action : BrowserAction;
  result : option ActionResult;
  timestamp : Z
}.

Record AgentState := mkState {
  isRunning : bool;
  isPaused : bool;
  currentTask : string;
  steps : list AgentStep;
  stepCount : Z;
  maxSteps : Z;
  startTime : Z;
  state_error : option string
}.

Record AgentConfig := mkConfig {
  cfg_maxSteps : Z;
  stepDelayMs : Z;
  timeoutMs : Z;
  retryCount : Z;
  autoApprove : bool;
  highlightElements : bool
}.

Definition DEFAULT_AGENT_CONFIG : AgentConfig :=
  mkConfig 20 500 60000 2 true true.

(* ===================================================================== *)
(** ** backend/agentService: state operations *)
(* ===================================================================== *)

Module AgentService.

(** [createAgentState(task, config?)]: of the merged configuration only
    [maxSteps] is read, so the partial configuration is represented by its
    optional [maxSteps]; [now] is the value of [Date.now()]. *)
Definition createAgentState (task : string) (config_maxSteps : option Z) (now : Z)
  : AgentState :=
  let mergedMaxSteps :=
    match config_maxSteps with
    | Some m => m
    | None => cfg_maxSteps DEFAULT_AGENT_CONFIG
    end in
  {| isRunning := true;
     isPaused := false;
     currentTask := task;
     steps := [];
     stepCount := 0;
     maxSteps := mergedMaxSteps;
     startTime := now;
     state_error := None |}.

Definition addStep (state : AgentState) (step : AgentStep) : AgentState :=
  {| isRunning := isRunning state;
     isPaused := isPaused state;
     currentTask := currentTask state;
     steps := steps state ++ [step];
     stepCount := stepCount state + 1;
     maxSteps := maxSteps state;
     startTime := startTime state;
     state_error := state_error state |}.




(** The states built by the service: created, then extended step by step. *)
Definition runSteps (s : AgentState) (sts : list AgentStep) : AgentState :=
  fold_left addStep sts s.

End AgentService.

(* ===================================================================== *)
(** ** Content extraction: the token-budget packer *)
(* ===================================================================== *)

Module Extractor.

Inductive ChunkType := Heading | Paragraph | Code | ListChunk | Quote.

Definition ChunkType_eqb (a b : ChunkType) : bool :=
  match a, b with
  | Heading, Heading | Paragraph, Paragraph | Code, Code
  | ListChunk, ListChunk | Quote, Quote => true
  | _, _ => false
  end.

Record ContentChunk := mkChunk {
  chunk_type : ChunkType;
  priority : Z;
  text : string;
  tokens : Z;
  level : option Z
}.

(** [Math.ceil(text.length / 4)] *)
Definition estimateTokens (text : string) : Z := (JS.len text + 3) / 4.

(** The first loop of [buildOptimizedContent]: [for (const chunk of chunks)]
    with the running [totalTokens]; [break] at the first chunk that does not
    fit.  The result is [selectedChunks]. *)
Fixpoint selectChunks (chunks : list ContentChunk) (maxTokens totalTokens : Z)
  : list ContentChunk :=
  match chunks with
  | [] => []
  | chunk :: rest =>
      if totalTokens + tokens chunk <=? maxTokens
      then chunk :: selectChunks rest maxTokens (totalTokens + tokens chunk)
      else []
  end.

Definition nl : string := String "010"%char EmptyString.

(** The second loop: [selectedChunks.forEach], threading [content] and
    [lastType]. *)
Fixpoint renderChunks (selected : list ContentChunk) (lastType : option ChunkType)
    (content : string) : string :=
  match selected with
  | [] => content
  | chunk :: rest =>
      let content1 :=
        match lastType with
        | Some t => if negb (ChunkType_eqb t (chunk_type chunk))
                    then content +:+ nl +:+ nl else content
        | None => content
        end in
      let content2 :=
        match chunk_type chunk with
        | Heading => content1 +:+ nl +:+ "## " +:+ text chunk +:+ nl
        | Code => content1 +:+ nl +:+ "```" +:+ nl +:+ text chunk +:+ nl +:+ "```" +:+ nl
        | Quote => content1 +:+ nl +:+ "> " +:+ text chunk +:+ nl
        | _ => content1 +:+ text chunk +:+ nl
        end in
      renderChunks rest (Some (chunk_type chunk)) content2
  end.

Definition buildOptimizedContent (chunks : list ContentChunk) (maxTokens : Z) : string :=
  JS.trim (renderChunks (selectChunks chunks maxTokens 0) None "").

(** Summed token estimate of a list of chunks. *)
Definition totalTokensOf (cs : list ContentChunk) : Z :=
  fold_right (fun c acc => tokens c + acc) 0 cs.

(** A chunk list for experiments: priorities 90, 80, 75, 75, 70 and token
    costs 100, 120, 90, 30, 60. *)
Definition sampleChunks : list ContentChunk :=
  [ mkChunk Heading 90 "Title" 100 (Some 0);
    mkChunk Paragraph 80 "Intro" 120 None;
    mkChunk Code 75 "x = 1" 90 None;
    mkChunk Code 75 "y" 30 None;
    mkChunk Paragraph 70 "Tail" 60 None ].

End Extractor.
(* ===================================================================== *)
(** ** backend/contextCache.ts: the context cache and its timers *)
(* ===================================================================== *)

(** [PageContext]: the fields the cache and the agent prompt read; the other
    optional fields (selection, screenshot, metadata, chunks, ...) are carried
    along unchanged by the code and are left out. *)
Record PageContext := mkContext {
  url : string;
  title : string;
  mainContentSnippet : option string;
  hash : option string
}.

Module Cache.

Record CachedContext := mkCached {
  context : PageContext;
  cached_timestamp : Z;
  cached_url : string;
  cached_tabId : Z
}.

(** A pending [setTimeout] callback [() => this.delete(url, tabId)], due at
    clock value [due]. *)
Record Timer := mkTimer {
  due : Z;
  timer_url : string;
  timer_tabId : Z
}.

(** The service instance together with the part of the environment it talks
    to: the clock read by [Date.now()] and the timers it has scheduled. *)
Record State := mkCache {
  cache : gmap string CachedContext;
  timers : list Timer;
  clock : Z
}.

Definition defaultTTL : Z := 30000.

Definition empty (now : Z) : State := mkCache ∅ [] now.

(** [`${tabId}:${url}`] *)
Definition getCacheKey (url : string) (tabId : Z) : string :=
  pretty tabId +:+ ":" +:+ url.

(** [x || d] for an optional number: [undefined] and [0] select [d]. *)
Definition orDefault (x : option Z) (d : Z) : Z :=
  match x with
  | Some v => if v =? 0 then d else v
  | None => d
  end.

(** The delay [setTimeout(handler, delay)] waits for.  The browser reads the
    delay as a 32-bit signed integer (a WebIDL [long]): the number wraps
    around modulo 2^32 into [-2^31, 2^31), and a negative delay counts as 0.
    A delay of 2^31 ms (about 24.8 days) or more is therefore not waited
    for. *)
Definition timerDelay (delay : Z) : Z :=
  Z.max 0 ((delay + 2 ^ 31) mod 2 ^ 32 - 2 ^ 31).

(** [set(context, tabId, ttl?)].  The timer is set for [ttl || defaultTTL]
    milliseconds from now. *)
Definition set (context : PageContext) (tabId : Z) (ttl : option Z) (s : State) : State :=
  let key := getCacheKey (url context) tabId in
  {| cache := <[ key := mkCached context (clock s) (url context) tabId ]> (cache s);
     timers := timers s ++
               [mkTimer (clock s + timerDelay (orDefault ttl defaultTTL)) (url context) tabId];
     clock := clock s |}.

(** [delete(url, tabId)] *)
Definition delete (url : string) (tabId : Z) (s : State) : State :=
  {| cache := base.delete (getCacheKey url tabId) (cache s);
     timers := timers s;
     clock := clock s |}.

(** [get(url, tabId, maxAge?)]: the returned context ([None] for [null]) and
    the state afterwards. *)
Definition get (url : string) (tabId : Z) (maxAge : option Z) (s : State)
  : option PageContext * State :=
  let key := getCacheKey url tabId in
  match cache s !! key with
  | None => (None, s)
  | Some cached =>
      let age := clock s - cached_timestamp cached in
      let limit := orDefault maxAge defaultTTL in
      if limit <? age
      then (None, {| cache := base.delete key (cache s);
                     timers := timers s; clock := clock s |})
      else (Some (context cached), s)
  end.

(** [clearTab(tabId)] *)
Definition clearTab (tabId : Z) (s : State) : State :=
  {| cache := filter (fun kv => cached_tabId (snd kv) ≠ tabId) (cache s);
     timers := timers s;
     clock := clock s |}.

(** [clearAll()] *)
Definition clearAll (s : State) : State :=
  {| cache := ∅; timers := timers s; clock := clock s |}.

(** [hasChanged(url, tabId, newHash)]: calls [get], so it may evict. *)
Definition hasChanged (url : string) (tabId : Z) (newHash : string) (s : State)
  : bool * State :=
  match get url tabId None s with
  | (None, s') => (true, s')
  | (Some cached, s') =>
      match hash cached with
      | None => (true, s')
      | Some h => if JS.truthy h then (negb (String.eqb h newHash), s') else (true, s')
      end
  end.

(** Running the callbacks of the timers that are due. *)
Definition fire (t : Timer) (s : State) : State := delete (timer_url t) (timer_tabId t) s.

(** Whether the callback of [t] has run when the service is called next, at
    clock value [now].  A timer whose time has passed has run.  For a timer
    that is due at [now] itself, the millisecond of the call, either the
    callback or the call comes first: [onTime] says that the callback did. *)
Definition isDue (onTime : bool) (now : Z) (t : Timer) : bool :=
  if onTime then due t <=? now else due t <? now.

(** The clock moves forward by [dt] milliseconds and the event loop runs the
    timers that are due, in the order they were scheduled; the others stay
    pending.  Between two calls of the service, time passes only this way. *)
Definition advance (onTime : bool) (dt : Z) (s : State) : State :=
  let now := clock s + Z.max 0 dt in
  let dueNow := List.filter (isDue onTime now) (timers s) in
  let later := List.filter (fun t => negb (isDue onTime now t)) (timers s) in
  fold_left (fun st t => fire t st) dueNow
            {| cache := cache s; timers := later; clock := now |}.

(** The calls a client can make, and time passing. *)
Inductive Op :=
| OSet (context : PageContext) (tabId : Z) (ttl : option Z)
| OGet (url : string) (tabId : Z) (maxAge : option Z)
| ODelete (url : string) (tabId : Z)
| OClearTab (tabId : Z)
| OClearAll
| OHasChanged (url : string) (tabId : Z) (newHash : string)
| OAdvance (onTime : bool) (dt : Z).

Definition step (o : Op) (s : State) : State :=
  match o with
  | OSet c t ttl => set c t ttl s
  | OGet u t m => snd (get u t m s)
  | ODelete u t => delete u t s
  | OClearTab t => clearTab t s
  | OClearAll => clearAll s
  | OHasChanged u t h => snd (hasChanged u t h s)
  | OAdvance onTime dt => advance onTime dt s
  end.

Definition run (ops : list Op) (s : State) : State :=
  fold_left (fun st o => step o st) ops s.

(** [o] does not store anything under [key]. *)
Definition storesNot (key : string) (o : Op) : Prop :=
  match o with
  | OSet c t _ => getCacheKey (url c) t ≠ key
  | _ => True
  end.

(** The key a timer deletes when it runs. *)
Definition timerKey (t : Timer) : string := getCacheKey (timer_url t) (timer_tabId t).

(** The invariant behind the TTL: while the entry stored by a [set] is still
    there, the timer of that [set] is still pending and its time has not
    passed. *)
Definition guarded (key : string) (t0 : Timer) (st : State) : Prop :=
  cache st !! key = None \/ (In t0 (timers st) /\ clock st <= due t0).

(** An observation for experiments. *)
Definition sampleContext : PageContext :=
  mkContext "https://example.com/" "Example" (Some "hello") (Some "h1").


End Cache.
(* ===================================================================== *)
(** ** backend/aiClient.ts: retry with backoff and failure classification *)
(* ===================================================================== *)

Module Gateway.

(** A thrown value: [isErrorObject] is [error instanceof Error]. *)
Record JsError := mkError {
  isErrorObject : bool;
  name : string;
  message : string
}.

(** [new Error(msg)] *)
Definition Error (msg : string) : JsError := mkError true "Error" msg.

(** What [fetch] rejects with when its signal is aborted, and when the
    network fails. *)
Definition AbortError : JsError := mkError true "AbortError" "signal is aborted without reason".
Definition NetworkError : JsError := mkError true "TypeError" "Failed to fetch".

Inductive Outcome (T : Type) :=
| Resolved (v : T)
| Rejected (e : JsError).
Arguments Resolved {T} v.
Arguments Rejected {T} e.

(** What [retryWithBackoff] does besides computing: calls of [fn] and sleeps. *)
Inductive Event :=
| Call (attempt : Z)
| Sleep (delay : Z).

(** The guard "Don't retry on user cancellation or auth errors". *)
Definition neverRetried (error : JsError) : bool :=
  isErrorObject error
  && (String.eqb (name error) "AbortError"
      || JS.includes (message error) "401"
      || JS.includes (message error) "403").

Section Retry.
Context {T : Type}.

(** The [for] loop of [retryWithBackoff], from [attempt] on, with
    [iterations] iterations left; [fn k] is the outcome of the call made in
    iteration [k].  After the loop: [throw lastError || new Error(...)]. *)
Fixpoint attempts (iterations : nat) (fn : Z -> Outcome T)
    (maxRetries baseDelay attempt : Z) (lastError : option JsError)
  : Outcome T * list Event :=
  match iterations with
  | O =>
      (Rejected (match lastError with
                 | Some e => e
                 | None => Error "Max retries exceeded"
                 end), [])
  | S rest =>
      match fn attempt with
      | Resolved v => (Resolved v, [Call attempt])
      | Rejected error =>
          if neverRetried error then (Rejected error, [Call attempt])
          else
            let pause :=
              if attempt <? maxRetries - 1
              then [Sleep (baseDelay * 2 ^ attempt)] else [] in
            let '(r, trace) :=
              attempts rest fn maxRetries baseDelay (attempt + 1) (Some error) in
            (r, Call attempt :: pause ++ trace)
      end
  end.

(** [retryWithBackoff(fn, maxRetries, baseDelay)]: [attempt] runs from 0 while
    [attempt < maxRetries]. *)
Definition retryWithBackoff (fn : Z -> Outcome T) (maxRetries baseDelay : Z)
  : Outcome T * list Event :=
  attempts (Z.to_nat maxRetries) fn maxRetries baseDelay 0 None.

End Retry.


Definition isResolved {T} (o : Outcome T) : bool :=
  match o with Resolved _ => true | Rejected _ => false end.

(** The outcome ends the loop in the iteration that produced it. *)
Definition final {T} (o : Outcome T) : bool :=
  match o with Resolved _ => true | Rejected e => neverRetried e end.

(** *** The request of [callAI] *)

Record AIProvider := mkProvider {
  provider_id : string;
  provider_name : string;
  baseUrl : string;
  requiresApiKey : bool
}.

Definition DEFAULT_PROVIDERS : list AIProvider :=
  [ mkProvider "jarvis" "Jarvis" "https://ai.jarvisbazar.com/v1/chat/completions" true;
    mkProvider "openrouter" "OpenRouter" "https://openrouter.ai/api/v1/chat/completions" true;
    mkProvider "openai" "OpenAI" "https://api.openai.com/v1/chat/completions" true;
    mkProvider "gemini" "Gemini"
      "https://generativelanguage.googleapis.com/v1beta/openai/chat/completions" true;
    mkProvider "moonshot" "Moonshot AI (Global)" "https://api.moonshot.ai/v1/chat/completions" true;
    mkProvider "moonshot-cn" "Moonshot AI (China)" "https://api.moonshot.cn/v1/chat/completions" true ].

(** What one [fetch] brings: a rejection, or a response with its status, its
    body as text, and its body as JSON reduced to what [parseRegularResponse]
    reads: [None] when [choices[0].message] is missing, else the content. *)
Inductive FetchResult :=
| FetchRejected (e : JsError)
| FetchResponse (status : Z) (text : string) (choice : option string).

(** [res.ok] *)
Definition ok (status : Z) : bool := (200 <=? status) && (status <=? 299).

(** The function handed to [retryWithBackoff] by [callAI], applied to what
    [fetch] brought.  A response always has a body here, so a streaming
    request ends in [handleStreamingResponse]. *)
Definition request (providerName : string) (stream : bool) (res : FetchResult)
  : Outcome string :=
  match res with
  | FetchRejected e => Rejected e
  | FetchResponse status text choice =>
      if negb (ok status) then
        if status =? 401 then
          Rejected (Error ("Authentication failed: Invalid API key for " +:+ providerName))
        else if status =? 403 then
          Rejected (Error ("Access forbidden: Please check your API key permissions for "
                           +:+ providerName))
        else if status =? 429 then
          Rejected (Error ("Rate limit exceeded for " +:+ providerName
                           +:+ ". Please try again later."))
        else if 500 <=? status then
          Rejected (Error (providerName +:+ " server error (" +:+ pretty status
                           +:+ "). Please try again."))
        else
          Rejected (Error ("AI API error (" +:+ providerName +:+ "): " +:+ pretty status
                           +:+ " " +:+ String.substring 0 200 text))
      else if stream then
        Rejected (Error "Streaming not yet implemented in this context")
      else
        match choice with
        | None => Rejected (Error "AI API: no choices[0].message in response")
        | Some content => Resolved content
        end
  end.

(** Step 9 of [callAI]: the request under [retryWithBackoff(..., 3, 1000)];
    [fetches k] is what the [k]-th [fetch] brings.  An [AbortError] that comes
    out is reported as a cancellation. *)
Definition callAI (providerName : string) (stream : bool) (fetches : Z -> FetchResult)
  : Outcome string * list Event :=
  let '(r, trace) :=
    retryWithBackoff (fun k => request providerName stream (fetches k)) 3 1000 in
  match r with
  | Rejected error =>
      if isErrorObject error && String.eqb (name error) "AbortError"
      then (Rejected (Error "Request cancelled by user"), trace)
      else (r, trace)
  | Resolved _ => (r, trace)
  end.


End Gateway.
(* ===================================================================== *)
(** ** content/smartSelector.ts: the element resolver *)
(* ===================================================================== *)

Module Resolver.

(** What the resolver reads of a DOM element: its identity, tag name
    (upper case, as [tagName] gives it), attributes, text content, whether
    [offsetParent] is non-null, three computed style properties, and the size
    of its bounding client rectangle. *)
Record Element := mkElement {
  node : nat;
  tagName : string;
  attributes : list (string * string);
  textContent : string;
  offsetParent : bool;
  display : string;
  visibility : string;
  opacity : string;
  width : Q;
  height : Q
}.

(** The document, through the two queries the resolver makes.
    [querySelector] gives [None] when it throws (the selector is not valid);
    [querySelectorAll] lists the matches in document order. *)
Record Document := mkDocument {
  querySelector : string -> option (option Element);
  querySelectorAll : string -> list Element
}.

(** JavaScript numbers are IEEE 754 binary64 values: 53 bits of mantissa,
    exponents below 1024.  Their arithmetic is the one the Standard Library
    specifies ([SpecFloat]), every operation rounding to the nearest value,
    ties to even. *)
Definition Number : Type := spec_float.

Definition ofZ (z : Z) : Number := binary_normalize 53 1024 z 0 false.
Definition add (x y : Number) : Number := SFadd 53 1024 x y.
Definition mul (x y : Number) : Number := SFmul 53 1024 x y.
Definition div (x y : Number) : Number := SFdiv 53 1024 x y.

(** [x < y] and [x <= y] *)
Definition lt (x y : Number) : bool := SFltb x y.

Record ElementMatch := mkMatch {
  element : Element;
  score : Number;
  method : string
}.

Definition getAttribute (el : Element) (name : string) : option string :=
  option_map snd (List.find (fun kv => String.eqb (fst kv) name) (attributes el)).

(** [x || ''] *)
Definition orEmpty (x : option string) : string :=
  match x with Some s => s | None => "" end.

Definition Qeqb (a b : Q) : bool := Qeq_bool a b.
Definition Qltb (a b : Q) : bool := negb (Qle_bool b a).

(** [isVisible(element)] *)
Definition isVisible (el : Element) : bool :=
  if negb (offsetParent el)
     && negb (String.eqb (tagName el) "BODY") && negb (String.eqb (tagName el) "HTML")
  then false
  else if String.eqb (display el) "none" || String.eqb (visibility el) "hidden"
          || String.eqb (opacity el) "0"
  then false
  else if Qeqb (width el) 0 || Qeqb (height el) 0
  then false
  else true.

(** [/^[a-z]+$/i.test(selector)] *)
Definition isLetter (c : ascii) : bool :=
  let n := JS.code c in
  ((65 <=? n) && (n <=? 90) || (97 <=? n) && (n <=? 122))%N.

Fixpoint allLetters (s : string) : bool :=
  match s with
  | EmptyString => true
  | String c r => isLetter c && allLetters r
  end.

Definition looksLikeTagName (selector : string) : bool :=
  JS.truthy selector && allLetters selector.

(** [tryCSS(selector)] *)
Definition tryCSS (d : Document) (selector : string) : option Element :=
  if JS.startsWith selector "." || JS.startsWith selector "#"
     || JS.includes selector "[" || JS.includes selector ">"
     || looksLikeTagName selector
  then match querySelector d selector with
       | Some found => found
       | None => None
       end
  else None.

(** [calculateMatchScore(search, target)] *)
Definition wordsOverlap (targetWords : list string) (sw : string) : bool :=
  existsb (fun tw => JS.includes tw sw || JS.includes sw tw) targetWords.

Definition matchedWords (searchWords targetWords : list string) : nat :=
  length (List.filter (wordsOverlap targetWords) searchWords).

(** [s.length] as a number. *)
Definition lengthOf (s : string) : Number := ofZ (JS.len s).

Definition calculateMatchScore (search target : string) : Number :=
  if String.eqb search target then ofZ 100
  else if JS.includes target search
  then add (ofZ 80) (mul (div (lengthOf search) (lengthOf target)) (ofZ 20))
  else if JS.includes search target
  then add (ofZ 60) (mul (div (lengthOf target) (lengthOf search)) (ofZ 20))
  else
    let searchWords := JS.split_ws search in
    let targetWords := JS.split_ws target in
    mul (div (ofZ (Z.of_nat (matchedWords searchWords targetWords)))
             (ofZ (Z.of_nat (length searchWords))))
        (ofZ 50).

(** The selector list of [findByText]. *)
Definition quoted (s : string) : string := JS.dq +:+ s +:+ JS.dq.

Definition textSelector : string :=
  "a, button, [role=" +:+ quoted "button" +:+ "], [role=" +:+ quoted "link"
  +:+ "], input[type=" +:+ quoted "submit" +:+ "], input[type=" +:+ quoted "button"
  +:+ "], [onclick], [tabindex], h1, h2, h3, h4, h5, h6, "
  +:+ "p, span, div, li, td, th, label".

(** The text an element is compared by in [findByText]. *)
Definition elText (el : Element) : string :=
  JS.trim (JS.toLowerCase (textContent el)).

(** The [for] loop of [findByText] over [elements], with the current
    [bestMatch]. *)
Fixpoint findByText_loop (elements : list Element) (normalizedText : string)
    (exact visible : bool) (bestMatch : option ElementMatch) : option Element :=
  match elements with
  | [] => option_map element bestMatch
  | el :: rest =>
      if visible && negb (isVisible el)
      then findByText_loop rest normalizedText exact visible bestMatch
      else if exact then
        if String.eqb (elText el) normalizedText then Some el
        else findByText_loop rest normalizedText exact visible bestMatch
      else if JS.includes (elText el) normalizedText
              || JS.includes normalizedText (elText el)
      then
        let score := calculateMatchScore normalizedText (elText el) in
        match bestMatch with
        | None =>
            findByText_loop rest normalizedText exact visible
              (Some (mkMatch el score "text"))
        | Some best =>
            if lt (Resolver.score best) score
            then findByText_loop rest normalizedText exact visible
                   (Some (mkMatch el score "text"))
            else findByText_loop rest normalizedText exact visible bestMatch
        end
      else findByText_loop rest normalizedText exact visible bestMatch
  end.

Definition findByText (d : Document) (text : string) (exact visible : bool)
  : option Element :=
  let normalizedText := JS.trim (JS.toLowerCase text) in
  findByText_loop (querySelectorAll d textSelector) normalizedText exact visible None.

(** The loop shared by [findByAriaLabel], [findByPlaceholder] and
    [findByTitle]: the first element, visible if asked, whose attribute
    contains the text. *)
Definition findByAttribute (d : Document) (attribute : string) (text : string)
    (visible : bool) : option Element :=
  let normalizedText := JS.toLowerCase text in
  let normalizedText := JS.trim normalizedText in
  List.find
    (fun el =>
       negb (visible && negb (isVisible el))
       && JS.includes (JS.toLowerCase (orEmpty (getAttribute el attribute))) normalizedText)
    (querySelectorAll d ("[" +:+ attribute +:+ "]")).

Definition findByAriaLabel (d : Document) (text : string) (visible : bool) :=
  findByAttribute d "aria-label" text visible.

Definition findByPlaceholder (d : Document) (text : string) (visible : bool) :=
  findByAttribute d "placeholder" text visible.

Definition findByTitle (d : Document) (text : string) (visible : bool) :=
  findByAttribute d "title" text visible.

(** [findByDataAttribute(text, visible)] *)
Definition findByDataAttribute (d : Document) (text : string) (visible : bool)
  : option Element :=
  let normalizedText := JS.trim (JS.toLowerCase text) in
  List.find
    (fun el =>
       negb (visible && negb (isVisible el))
       && existsb (fun attr =>
                     JS.startsWith (fst attr) "data-"
                     && JS.includes (JS.toLowerCase (snd attr)) normalizedText)
                  (attributes el))
    (querySelectorAll d "*").

(** [findByRoleAndText(text, visible)]: role by role, the first element,
    visible if asked, whose text contains the text. *)
Definition roles : list string := ["button"; "link"; "tab"; "menuitem"; "option"].

Fixpoint findByRoleAndText_loop (d : Document) (roles : list string)
    (normalizedText : string) (visible : bool) : option Element :=
  match roles with
  | [] => None
  | role :: rest =>
      match List.find
              (fun el =>
                 negb (visible && negb (isVisible el))
                 && JS.includes (JS.toLowerCase (textContent el)) normalizedText)
              (querySelectorAll d ("[role=" +:+ quoted role +:+ "]")) with
      | Some el => Some el
      | None => findByRoleAndText_loop d rest normalizedText visible
      end
  end.

Definition findByRoleAndText (d : Document) (text : string) (visible : bool)
  : option Element :=
  findByRoleAndText_loop d roles (JS.trim (JS.toLowerCase text)) visible.

(** The eight strategies of [smartFind], in order. *)
Definition strategies (d : Document) (selector : string) (visible : bool)
  : list (option Element) :=
  [ tryCSS d selector;
    findByText d selector true visible;
    findByText d selector false visible;
    findByAriaLabel d selector visible;
    findByPlaceholder d selector visible;
    findByTitle d selector visible;
    findByDataAttribute d selector visible;
    findByRoleAndText d selector visible ].

(** The loop over the strategies: the first result that is an element and
    passes [!visible || isVisible(element)]. *)
Fixpoint firstAccepted (visible : bool) (results : list (option Element))
  : option Element :=
  match results with
  | [] => None
  | Some element :: rest =>
      if negb visible || isVisible element then Some element
      else firstAccepted visible rest
  | None :: rest => firstAccepted visible rest
  end.

(** [smartFind(selector, options)]; [visible] is [options.visible], with
    default [true]. *)
Definition smartFind (d : Document) (selector : string) (visible : option bool)
  : option Element :=
  let visible := match visible with Some v => v | None => true end in
  firstAccepted visible (strategies d selector visible).

(** An element is a candidate of the fuzzy text search for [normalizedText]. *)
Definition fuzzyCandidate (normalizedText : string) (visible : bool) (el : Element) : bool :=
  negb (visible && negb (isVisible el))
  && (JS.includes (elText el) normalizedText || JS.includes normalizedText (elText el)).






(** *** A small document for experiments

    The elements in document order, with a selector engine that knows the
    selectors the resolver uses and, for [querySelector], [#id] and tag
    names. *)

Definition hasAttribute (el : Element) (name : string) : bool :=
  match getAttribute el name with Some _ => true | None => false end.

Definition attributeIs (el : Element) (name value : string) : bool :=
  match getAttribute el name with Some v => String.eqb v value | None => false end.

Definition textTags : list string :=
  ["A"; "BUTTON"; "H1"; "H2"; "H3"; "H4"; "H5"; "H6";
   "P"; "SPAN"; "DIV"; "LI"; "TD"; "TH"; "LABEL"].

Definition matchesTextSelector (el : Element) : bool :=
  existsb (String.eqb (tagName el)) textTags
  || attributeIs el "role" "button" || attributeIs el "role" "link"
  || String.eqb (tagName el) "INPUT"
     && (attributeIs el "type" "submit" || attributeIs el "type" "button")
  || hasAttribute el "onclick" || hasAttribute el "tabindex".

Definition sampleMatches (selector : string) (el : Element) : bool :=
  if String.eqb selector textSelector then matchesTextSelector el
  else if String.eqb selector "*" then true
  else if String.eqb selector "[aria-label]" then hasAttribute el "aria-label"
  else if String.eqb selector "[placeholder]" then hasAttribute el "placeholder"
  else if String.eqb selector "[title]" then hasAttribute el "title"
  else existsb (fun role => String.eqb selector ("[role=" +:+ quoted role +:+ "]")
                            && attributeIs el "role" role) roles.

Definition sampleQuery (els : list Element) (selector : string) : option (option Element) :=
  match selector with
  | String "#" id => Some (List.find (fun el => attributeIs el "id" id) els)
  | _ => if looksLikeTagName selector
         then Some (List.find
                      (fun el => String.eqb (JS.toLowerCase (tagName el))
                                            (JS.toLowerCase selector)) els)
         else None
  end.

Definition sampleDocument (els : list Element) : Document :=
  mkDocument (sampleQuery els) (fun selector => List.filter (sampleMatches selector) els).

Definition shown (n : nat) (tag : string) (attrs : list (string * string)) (text : string)
  : Element :=
  mkElement n tag attrs text true "block" "visible" "1" 120 24.

Definition hidden (n : nat) (tag : string) (attrs : list (string * string)) (text : string)
  : Element :=
  mkElement n tag attrs text true "none" "visible" "1" 0 0.

(** A page with a hidden and a shown "Submit order" button, a link and a
    search field. *)
Definition samplePage : list Element :=
  [ hidden 1 "BUTTON" [("id", "ghost")] "Submit order";
    shown 2 "A" [("href", "/help")] "  Help and Support ";
    shown 3 "BUTTON" [("id", "send")] "Submit order now";
    shown 4 "BUTTON" [] "Submit order";
    shown 5 "INPUT" [("placeholder", "Search the site")] "" ].

End Resolver.
(* ===================================================================== *)
(** ** content/actionExecutor: clicking *)
(* ===================================================================== *)

Module Executor.

(** The page as an action sees it: the document when the action starts; the
    documents the mutation observer of [waitForElement] is called on before
    its timeout, in order; and the document when the timeout fires.  The last
    two depend on the timeout. *)
Record Page := mkPage {
  current : Resolver.Document;
  duringWait : Z -> list Resolver.Document;
  atTimeout : Z -> Resolver.Document
}.

(** What a handler does to the page. *)
Inductive Effect :=
| Highlight (el : Resolver.Element)
| ScrollIntoView (el : Resolver.Element)
| Pause (ms : Z)
| Click (el : Resolver.Element).

(** The observer callback: the first observed document in which [smartFind]
    finds the target resolves the promise. *)
Fixpoint firstFound (selector : string) (docs : list Resolver.Document)
  : option Resolver.Element :=
  match docs with
  | [] => None
  | d :: rest =>
      match Resolver.smartFind d selector None with
      | Some el => Some el
      | None => firstFound selector rest
      end
  end.

(** [waitForElement(selector, timeout)] *)
Definition waitForElement (p : Page) (selector : string) (timeout : Z)
  : option Resolver.Element :=
  match Resolver.smartFind (current p) selector None with
  | Some element => Some element
  | None =>
      match firstFound selector (duringWait p timeout) with
      | Some el => Some el
      | None => Resolver.smartFind (atTimeout p timeout) selector None
      end
  end.

(** [executeClick(selector, text?)]: the result and what was done to the
    page. *)
Definition executeClick (p : Page) (selector : string) (text : option string)
  : ActionResult * list Effect :=
  let searchTerm :=
    match text with
    | Some t => if JS.truthy t then t else selector
    | None => selector
    end in
  let element :=
    match Resolver.smartFind (current p) searchTerm None with
    | Some el => Some el
    | None => waitForElement p searchTerm 3000
    end in
  match element with
  | None => (failResult ("Element not found: " +:+ JS.dq +:+ searchTerm +:+ JS.dq), [])
  | Some el => (okResult, [Highlight el; ScrollIntoView el; Pause 300; Click el])
  end.

(** [executeNavigate(url)] *)
Definition executeNavigate (url : string) : ActionResult :=
  mkResult true None
    (Some (DataNavigation (if JS.startsWith url "http" then url else "https://" +:+ url))).

(** [executeAction(action)], with the handlers for typing, scrolling,
    waiting, extracting, hovering, selecting and key presses gathered in
    [others]. *)
Definition executeAction (others : BrowserAction -> ActionResult) (p : Page)
    (action : BrowserAction) : ActionResult :=
  match action with
  | ANavigate url => executeNavigate url
  | AClick selector text => fst (executeClick p selector text)
  | ADone summary => mkResult true None (Some (DataSummary summary))
  | _ => others action
  end.

(** A page that never changes. *)
Definition still (d : Resolver.Document) : Page :=
  mkPage d (fun _ => []) (fun _ => d).

(** A page with nothing to submit. *)
Definition helpPage : Page :=
  still (Resolver.sampleDocument
           [Resolver.shown 2 "A" [("href", "/help")] "  Help and Support "]).

End Executor.
(* ===================================================================== *)
(** ** ui/components/AgentController.tsx: the run loop *)
(* ===================================================================== *)

Module Controller.

(** What comes back for [RUN_AGENT_STEP]: [chrome.runtime.lastError], an
    [ERROR] message, an [AGENT_STEP], or a message of another type. *)
Inductive StepReply :=
| StepLastError (message : string)
| StepError (message : string)
| StepAgentStep (step : AgentStep)
| StepOther.

(** How [chrome.tabs.query] and [chrome.tabs.update] go for a navigation. *)
Inductive NavReply :=
| NavUpdated
| NavNoTab
| NavThrows (message : string).

(** What comes back for [EXECUTE_AGENT_ACTION]. *)
Inductive ExecReply :=
| ExecLastError (message : string)
| ExecError (message : string)
| ExecResult (payload : ActionResult).

(** What comes back for [GET_PAGE_CONTEXT]: a [PAGE_CONTEXT] message, a
    message of another type, or nothing.  The callback is called without a
    response when the message was not answered (no receiver, or the receiver
    went away); the loop does not look at [chrome.runtime.lastError] there. *)
Inductive ContextReply :=
| ContextPage (payload : PageContext)
| ContextOther
| ContextLost.

(** The message of the [TypeError] thrown by [contextResponse.type] when
    [contextResponse] is [undefined]. *)
Definition lostReplyMessage : string :=
  "Cannot read properties of undefined (reading 'type')".

(** What the content script answers to the background page. *)
Inductive ContentReply :=
| ContentThrows (message : string)
| ContentResult (result : ActionResult).

(** The background handler of [EXECUTE_AGENT_ACTION]. *)
Definition relayAction (activeTab : bool) (reply : ContentReply) : ExecReply :=
  if negb activeTab then ExecError "No active tab"
  else match reply with
       | ContentResult result => ExecResult result
       | ContentThrows message => ExecError ("Action failed: " +:+ message)
       end.

(** The surroundings of one iteration: the clock and the stop flag
    ([abortRef.current]) when the loop condition is evaluated, and the replies
    the iteration gets if it asks. *)
Record Round := mkRound {
  now : Z;
  abortRequested : bool;
  stepReply : StepReply;
  navReply : NavReply;
  execReply : ExecReply;
  contextReply : ContextReply
}.

(** What the loop does to the outside. *)
Inductive Event :=
| RunAgentStep (task : string) (pageContext : PageContext) (previousSteps : list AgentStep)
| TabsUpdate (url : string)
| ExecuteAgentAction (payload : BrowserAction)
| Sleep (ms : Z)
| GetPageContext.

Inductive Exit :=
| Aborted
| MaxSteps
| Done
| Errored (message : string)
| OutOfFuel.

(** The variables of [runAgentLoop] and the component state it sets. *)
Record Run := mkRun {
  agentState : AgentState;
  errorShown : option string;
  currentSteps : list AgentStep;
  currentContext : PageContext;
  events : list Event
}.

Definition emit (es : list Event) (run : Run) : Run :=
  mkRun (agentState run) (errorShown run) (currentSteps run) (currentContext run)
        (events run ++ es).

Definition withResult (step : AgentStep) (r : ActionResult) : AgentStep :=
  mkStep (step_id step) (thought step) (action step) (Some r) (timestamp step).

(** [setAgentState(prev => ({...prev, steps, stepCount: steps.length, isRunning}))] *)
Definition setSteps (st : AgentState) (steps : list AgentStep) (running : bool) : AgentState :=
  mkState running (isPaused st) (currentTask st) steps (Z.of_nat (length steps))
          (maxSteps st) (startTime st) (state_error st).

Definition setRunning (st : AgentState) (running : bool) : AgentState :=
  mkState running (isPaused st) (currentTask st) (steps st) (stepCount st)
          (maxSteps st) (startTime st) (state_error st).

(** The [catch] block, for [new Error(message)]. *)
Definition caught (message : string) (run : Run) : Run :=
  let st := agentState run in
  mkRun (mkState false (isPaused st) (currentTask st) (steps st) (stepCount st)
                 (maxSteps st) (startTime st) (Some message))
        (Some (if JS.truthy message then message else "Error"))
        (currentSteps run) (currentContext run) (events run).

(** Recording an executed step, then "Step 3": sleep and refresh the page
    context.  When the refresh brings no response, reading its type throws:
    the [catch] block ends the run, the step being recorded already. *)
Definition record (step : AgentStep) (actionResult : ActionResult) (r : Round) (run : Run)
  : Run * option Exit :=
  let steps' := currentSteps run ++ [withResult step actionResult] in
  let refreshed (context : PageContext) :=
    mkRun (setSteps (agentState run) steps' (isRunning (agentState run)))
          (errorShown run)
          steps'
          context
          (events run ++ [Sleep (stepDelayMs DEFAULT_AGENT_CONFIG); GetPageContext]) in
  match contextReply r with
  | ContextPage payload => (refreshed payload, None)
  | ContextOther => (refreshed (currentContext run), None)
  | ContextLost =>
      (caught lostReplyMessage (refreshed (currentContext run)),
       Some (Errored lostReplyMessage))
  end.

(** The body of the [while] loop: the run afterwards, and the exit if the
    body leaves the loop. *)
Definition body (task : string) (r : Round) (run : Run) : Run * option Exit :=
  let run := emit [RunAgentStep task (currentContext run) (currentSteps run)] run in
  match stepReply r with
  | StepLastError message => (caught message run, Some (Errored message))
  | StepError message => (caught message run, Some (Errored message))
  | StepOther =>
      (caught "Unexpected response type" run, Some (Errored "Unexpected response type"))
  | StepAgentStep step =>
      match action step with
      | ADone _ =>
          let steps' := currentSteps run ++ [withResult step okResult] in
          (mkRun (setSteps (agentState run) steps' false) (errorShown run) steps'
                 (currentContext run) (events run),
           Some Done)
      | ANavigate url =>
          let url := if JS.startsWith url "http" then url else "https://" +:+ url in
          match navReply r with
          | NavUpdated => record step okResult r (emit [TabsUpdate url; Sleep 2000] run)
          | NavNoTab => record step (failResult "No active tab found") r run
          | NavThrows message => record step (failResult message) r run
          end
      | other =>
          let run := emit [ExecuteAgentAction other] run in
          match execReply r with
          | ExecLastError message => (caught message run, Some (Errored message))
          | ExecError message => record step (failResult message) r run
          | ExecResult payload => record step payload r run
          end
      end
  end.

(** The [while] loop from iteration [i] on. *)
Fixpoint loop (fuel : nat) (task : string) (env : nat -> Round) (i : nat) (run : Run)
  : Run * Exit * nat :=
  match fuel with
  | O => (run, OutOfFuel, i)
  | S fuel' =>
      if abortRequested (env i) then (run, Aborted, i)
      else if negb (Z.of_nat (length (currentSteps run))
                    <? cfg_maxSteps DEFAULT_AGENT_CONFIG)
      then (run, MaxSteps, i)
      else match body task (env i) run with
           | (run', Some exit) => (run', exit, i)
           | (run', None) => loop fuel' task env (S i) run'
           end
  end.

(** [runAgentLoop()]: nothing happens for a blank task or without a page
    context.  Otherwise the result is the run at the end, how the loop was
    left, and in which iteration.  [startNow] is the clock at the start. *)
Definition runAgentLoop (task : string) (pageContext : option PageContext) (startNow : Z)
    (env : nat -> Round) : option (Run * Exit * nat) :=
  match pageContext with
  | None => None
  | Some pageContext =>
      if negb (JS.truthy (JS.trim task)) then None
      else
        let initialState :=
          mkState true false task [] 0 (cfg_maxSteps DEFAULT_AGENT_CONFIG) startNow None in
        let '(run, exit, i) :=
          loop (S (Z.to_nat (cfg_maxSteps DEFAULT_AGENT_CONFIG))) task env 0
               (mkRun initialState None [] pageContext []) in
        Some (mkRun (setRunning (agentState run) false) (errorShown run)
                    (currentSteps run) (currentContext run) (events run),
              exit, i)
  end.

(** [handleStop] acts on the flag the loop reads and on the shown state. *)
Definition handleStop (st : AgentState) : AgentState := setRunning st false.

(** *** Reading a run *)

(** The number of times the model was asked. *)
Definition modelCalls (es : list Event) : nat :=
  length (List.filter (fun e => match e with RunAgentStep _ _ _ => true | _ => false end) es).

(** The error of a refresh of the page context that brings no response. *)
Definition refreshError (r : Round) : option string :=
  match contextReply r with
  | ContextLost => Some lostReplyMessage
  | _ => None
  end.

(** The error that ends an iteration, if its replies bring one: the decision
    request fails, answers an error or something that is not a step; the
    dispatch of the action fails; or, after the step is executed and recorded,
    the refresh of the page context brings no response. *)
Definition roundError (r : Round) : option string :=
  match stepReply r with
  | StepLastError message => Some message
  | StepError message => Some message
  | StepOther => Some "Unexpected response type"
  | StepAgentStep step =>
      match action step with
      | ADone _ => None
      | ANavigate _ => refreshError r
      | _ => match execReply r with
             | ExecLastError message => Some message
             | _ => refreshError r
             end
      end
  end.

(** Whether an iteration with these replies records a step: the model
    answered a step, and the step is [done], a navigation, or an action whose
    dispatch brought a result or an [ERROR] message. *)
Definition recordsStep (r : Round) : bool :=
  match stepReply r with
  | StepAgentStep step =>
      match action step with
      | ADone _ | ANavigate _ => true
      | _ => match execReply r with
             | ExecLastError _ => false
             | _ => true
             end
      end
  | _ => false
  end.

Definition decidesDone (r : Round) : bool :=
  match stepReply r with
  | StepAgentStep step => isDoneAction (action step)
  | _ => false
  end.



(** The shown state follows the recorded steps. *)
Definition inStep (run : Run) : Prop :=
  steps (agentState run) = currentSteps run
  /\ stepCount (agentState run) = Z.of_nat (length (currentSteps run)).

(** *** Rounds for experiments *)

Definition sampleStep (a : BrowserAction) : AgentStep := mkStep "s" "thinking" a None 0.

Definition quietRound (t : Z) (reply : StepReply) : Round :=
  mkRound t false reply NavUpdated (ExecResult okResult) ContextOther.

End Controller.
(* ===================================================================== *)
(** ** backend/agentService: reading the model's reply *)
(* ===================================================================== *)

Module Parser.

(** *** JSON values

    Strings inside a parsed value are sequences of 16-bit code units, since an
    escape can name any of them.  A number is kept as
    its decimal reading, [(-1)^negative * mantissa * 10^exponent]. *)
#[warnings="-register-all"]
Inductive JValue :=
| JNull
| JBool (b : bool)
| JNumber (negative : bool) (mantissa : N) (exponent : Z)
| JString (s : list N)
| JArray (items : list JValue)
| JObject (members : list (list N * JValue)).

(** The code units of a string literal. *)
Definition units (s : string) : list N := map JS.code (list_ascii_of_string s).

Fixpoint units_eqb (a b : list N) : bool :=
  match a, b with
  | [], [] => true
  | x :: a', y :: b' => (x =? y)%N && units_eqb a' b'
  | _, _ => false
  end.

(** *** [JSON.parse]: tokens *)

Inductive Token :=
| LBrace | RBrace | LBracket | RBracket | Colon | Comma
| Scalar (v : JValue).

(** Where the reader is inside the text: between tokens, inside a string
    (after a backslash, inside a [\u] escape), inside a number (each state of
    the number grammar), or inside one of the words [true], [false],
    [null]. *)
Inductive Mode :=
| Between
| InString (acc : list N)
| Escaped (acc : list N)
| Hex (acc : list N) (remaining : nat) (value : N)
| AfterMinus
| AfterZero (neg : bool)
| IntDigits (neg : bool) (m : N)
| AfterPoint (neg : bool) (m : N)
| FracDigits (neg : bool) (m : N) (places : Z)
| AfterE (neg : bool) (m : N) (places : Z)
| AfterESign (neg : bool) (m : N) (places : Z) (eneg : bool)
| ExpDigits (neg : bool) (m : N) (places : Z) (eneg : bool) (e : N)
| Word (rest : list ascii) (v : JValue).

Definition digit (c : ascii) : option N :=
  let n := JS.code c in
  if ((48 <=? n) && (n <=? 57))%N then Some (n - 48)%N else None.

Definition hexDigit (c : ascii) : option N :=
  let n := JS.code c in
  if ((48 <=? n) && (n <=? 57))%N then Some (n - 48)%N
  else if ((65 <=? n) && (n <=? 70))%N then Some (n - 55)%N
  else if ((97 <=? n) && (n <=? 102))%N then Some (n - 87)%N
  else None.

(** JSON whitespace: space, TAB, LF, CR. *)
Definition isJsonSpace (c : ascii) : bool :=
  let n := JS.code c in ((n =? 32) || (n =? 9) || (n =? 10) || (n =? 13))%N.

Definition isE (c : ascii) : bool := Ascii.eqb c "e" || Ascii.eqb c "E".

Definition number (neg : bool) (m : N) (exponent : Z) : Token :=
  Scalar (JNumber neg m exponent).

Definition signed (eneg : bool) (e : N) : Z :=
  if eneg then - Z.of_N e else Z.of_N e.

(** A character met between tokens. *)
Definition between (c : ascii) (out : list Token) : option (Mode * list Token) :=
  if isJsonSpace c then Some (Between, out)
  else if Ascii.eqb c "{" then Some (Between, LBrace :: out)
  else if Ascii.eqb c "}" then Some (Between, RBrace :: out)
  else if Ascii.eqb c "[" then Some (Between, LBracket :: out)
  else if Ascii.eqb c "]" then Some (Between, RBracket :: out)
  else if Ascii.eqb c ":" then Some (Between, Colon :: out)
  else if Ascii.eqb c "," then Some (Between, Comma :: out)
  else if Ascii.eqb c "034" then Some (InString [], out)
  else if Ascii.eqb c "-" then Some (AfterMinus, out)
  else if Ascii.eqb c "0" then Some (AfterZero false, out)
  else if Ascii.eqb c "t" then Some (Word ["r"; "u"; "e"]%char (JBool true), out)
  else if Ascii.eqb c "f" then Some (Word ["a"; "l"; "s"; "e"]%char (JBool false), out)
  else if Ascii.eqb c "n" then Some (Word ["u"; "l"; "l"]%char JNull, out)
  else match digit c with
       | Some d => Some (IntDigits false d, out)
       | None => None
       end.

(** One character; [out] holds the tokens read so far, last first.  [None]
    is a [SyntaxError]. *)
Definition lexStep (mode : Mode) (c : ascii) (out : list Token)
  : option (Mode * list Token) :=
  match mode with
  | Between => between c out
  | InString acc =>
      if Ascii.eqb c "034" then Some (Between, Scalar (JString (rev acc)) :: out)
      else if Ascii.eqb c "\" then Some (Escaped acc, out)
      else if (JS.code c <? 32)%N then None
      else Some (InString (JS.code c :: acc), out)
  | Escaped acc =>
      if Ascii.eqb c "034" then Some (InString (34%N :: acc), out)
      else if Ascii.eqb c "\" then Some (InString (92%N :: acc), out)
      else if Ascii.eqb c "/" then Some (InString (47%N :: acc), out)
      else if Ascii.eqb c "b" then Some (InString (8%N :: acc), out)
      else if Ascii.eqb c "f" then Some (InString (12%N :: acc), out)
      else if Ascii.eqb c "n" then Some (InString (10%N :: acc), out)
      else if Ascii.eqb c "r" then Some (InString (13%N :: acc), out)
      else if Ascii.eqb c "t" then Some (InString (9%N :: acc), out)
      else if Ascii.eqb c "u" then Some (Hex acc 4 0%N, out)
      else None
  | Hex acc remaining value =>
      match hexDigit c, remaining with
      | Some d, 1%nat => Some (InString ((value * 16 + d)%N :: acc), out)
      | Some d, S k => Some (Hex acc k (value * 16 + d)%N, out)
      | _, _ => None
      end
  | AfterMinus =>
      if Ascii.eqb c "0" then Some (AfterZero true, out)
      else match digit c with
           | Some d => Some (IntDigits true d, out)
           | None => None
           end
  | AfterZero neg =>
      if Ascii.eqb c "." then Some (AfterPoint neg 0%N, out)
      else if isE c then Some (AfterE neg 0%N 0, out)
      else between c (number neg 0 0 :: out)
  | IntDigits neg m =>
      match digit c with
      | Some d => Some (IntDigits neg (m * 10 + d)%N, out)
      | None =>
          if Ascii.eqb c "." then Some (AfterPoint neg m, out)
          else if isE c then Some (AfterE neg m 0, out)
          else between c (number neg m 0 :: out)
      end
  | AfterPoint neg m =>
      match digit c with
      | Some d => Some (FracDigits neg (m * 10 + d)%N 1, out)
      | None => None
      end
  | FracDigits neg m places =>
      match digit c with
      | Some d => Some (FracDigits neg (m * 10 + d)%N (places + 1), out)
      | None =>
          if isE c then Some (AfterE neg m places, out)
          else between c (number neg m (- places) :: out)
      end
  | AfterE neg m places =>
      if Ascii.eqb c "+" then Some (AfterESign neg m places false, out)
      else if Ascii.eqb c "-" then Some (AfterESign neg m places true, out)
      else match digit c with
           | Some d => Some (ExpDigits neg m places false d, out)
           | None => None
           end
  | AfterESign neg m places eneg =>
      match digit c with
      | Some d => Some (ExpDigits neg m places eneg d, out)
      | None => None
      end
  | ExpDigits neg m places eneg e =>
      match digit c with
      | Some d => Some (ExpDigits neg m places eneg (e * 10 + d)%N, out)
      | None => between c (number neg m (signed eneg e - places) :: out)
      end
  | Word rest v =>
      match rest with
      | [] => None
      | [x] => if Ascii.eqb c x then Some (Between, Scalar v :: out) else None
      | x :: rest' => if Ascii.eqb c x then Some (Word rest' v, out) else None
      end
  end.

(** The end of the text. *)
Definition lexEnd (mode : Mode) (out : list Token) : option (list Token) :=
  match mode with
  | Between => Some out
  | AfterZero neg => Some (number neg 0 0 :: out)
  | IntDigits neg m => Some (number neg m 0 :: out)
  | FracDigits neg m places => Some (number neg m (- places) :: out)
  | ExpDigits neg m places eneg e => Some (number neg m (signed eneg e - places) :: out)
  | _ => None
  end.

Fixpoint lexFrom (mode : Mode) (out : list Token) (s : string) : option (list Token) :=
  match s with
  | EmptyString => lexEnd mode out
  | String c r =>
      match lexStep mode c out with
      | Some (mode', out') => lexFrom mode' out' r
      | None => None
      end
  end.

Definition lex (s : string) : option (list Token) :=
  option_map (@rev Token) (lexFrom Between [] s).

(** *** [JSON.parse]: structure *)

(** An array or object that is open, with what it holds so far (last
    first); an open object also holds the key whose value is being read. *)
Inductive Frame :=
| InArray (items : list JValue)
| InObject (members : list (list N * JValue)) (key : list N).

Inductive PState :=
| Value (stack : list Frame)
| ArrayOpen (stack : list Frame)
| ArrayNext (items : list JValue) (stack : list Frame)
| ObjectOpen (stack : list Frame)
| ObjectNext (members : list (list N * JValue)) (stack : list Frame)
| Key (members : list (list N * JValue)) (stack : list Frame)
| AfterKey (members : list (list N * JValue)) (key : list N) (stack : list Frame)
| Finished (v : JValue).

(** A value is complete: it goes to the innermost open array or object, or
    it is the result. *)
Definition reduce (v : JValue) (stack : list Frame) : PState :=
  match stack with
  | [] => Finished v
  | InArray items :: rest => ArrayNext (v :: items) rest
  | InObject members key :: rest => ObjectNext ((key, v) :: members) rest
  end.

Definition startValue (t : Token) (stack : list Frame) : option PState :=
  match t with
  | Scalar v => Some (reduce v stack)
  | LBracket => Some (ArrayOpen stack)
  | LBrace => Some (ObjectOpen stack)
  | _ => None
  end.

Definition parseStep (st : PState) (t : Token) : option PState :=
  match st with
  | Value stack => startValue t stack
  | ArrayOpen stack =>
      match t with
      | RBracket => Some (reduce (JArray []) stack)
      | _ => startValue t (InArray [] :: stack)
      end
  | ArrayNext items stack =>
      match t with
      | Comma => Some (Value (InArray items :: stack))
      | RBracket => Some (reduce (JArray (rev items)) stack)
      | _ => None
      end
  | ObjectOpen stack =>
      match t with
      | RBrace => Some (reduce (JObject []) stack)
      | Scalar (JString key) => Some (AfterKey [] key stack)
      | _ => None
      end
  | ObjectNext members stack =>
      match t with
      | Comma => Some (Key members stack)
      | RBrace => Some (reduce (JObject (rev members)) stack)
      | _ => None
      end
  | Key members stack =>
      match t with
      | Scalar (JString key) => Some (AfterKey members key stack)
      | _ => None
      end
  | AfterKey members key stack =>
      match t with
      | Colon => Some (Value (InObject members key :: stack))
      | _ => None
      end
  | Finished _ => None
  end.

Fixpoint parseFrom (st : PState) (ts : list Token) : option JValue :=
  match ts with
  | [] => match st with Finished v => Some v | _ => None end
  | t :: rest =>
      match parseStep st t with
      | Some st' => parseFrom st' rest
      | None => None
      end
  end.

(** [JSON.parse(text)]; [None] is a [SyntaxError]. *)
Definition JSON_parse (text : string) : option JValue :=
  match lex text with
  | Some ts => parseFrom (Value []) ts
  | None => None
  end.

(** *** Reading a parsed value the way the code does *)

(** [value.name] for a value that is neither null nor undefined: the member
    of an object (the last one of that name), else undefined ([None]). *)
Definition prop (v : JValue) (name : string) : option JValue :=
  match v with
  | JObject members =>
      option_map snd
        (List.find (fun kv => units_eqb (fst kv) (units name)) (rev members))
  | _ => None
  end.

(** A number literal whose value rounds to zero as a double: zero, or at
    most [2^-1075] in magnitude. *)
Definition roundsToZero (mantissa : N) (exponent : Z) : bool :=
  (mantissa =? 0)%N
  || ((exponent <? 0) && (Z.of_N mantissa * 2 ^ 1075 <=? 10 ^ (- exponent))).

(** Truthiness; [None] is undefined. *)
Definition truthy (v : option JValue) : bool :=
  match v with
  | None => false
  | Some JNull => false
  | Some (JBool b) => b
  | Some (JNumber _ m e) => negb (roundsToZero m e)
  | Some (JString s) => match s with [] => false | _ => true end
  | Some (JArray _) => true
  | Some (JObject _) => true
  end.

(** [x === true] and [x === 'done'] *)
Definition isTrue (v : option JValue) : bool :=
  match v with Some (JBool true) => true | _ => false end.

Definition isString (v : option JValue) (s : string) : bool :=
  match v with Some (JString u) => units_eqb u (units s) | _ => false end.

(** *** The two matches of [parseAgentResponse] *)

Definition fence : string := "```".

(** The text before the first fence in [s], if there is a fence. *)
Fixpoint untilFence (s : string) : option string :=
  if String.prefix fence s then Some ""
  else match s with
       | EmptyString => None
       | String c r => option_map (String c) (untilFence r)
       end.

(** [(?:json)?] *)
Definition skipJson (s : string) : string :=
  if String.prefix "json" s then JS.drop 4 s else s.

(** The match of [/```(?:json)?\s*([\s\S]*?)```/] that starts at the
    beginning of [s]: its group 1.  After the opening fence the greedy
    [(?:json)?] and [\s*] take what they can, and the lazy group runs to the
    next fence.  Backtracking into the first two cannot help: what they took
    holds no backquote, so no fence starts inside it. *)
Definition fencedAtStart (s : string) : option string :=
  if String.prefix fence s
  then untilFence (JS.trimStart (skipJson (JS.drop 3 s)))
  else None.

(** [response.match(/```(?:json)?\s*([\s\S]*?)```/)]: group 1 of the leftmost
    match. *)
Fixpoint matchFence (s : string) : option string :=
  match fencedAtStart s with
  | Some group => Some group
  | None => match s with
            | EmptyString => None
            | String _ r => matchFence r
            end
  end.

(** The suffix of [s] that starts at its first opening brace. *)
Fixpoint fromFirstBrace (s : string) : option string :=
  match s with
  | EmptyString => None
  | String c r => if Ascii.eqb c "{" then Some s else fromFirstBrace r
  end.

(** The prefix of [s] that ends at its last closing brace. *)
Fixpoint uptoLastBrace (s : string) : option string :=
  match s with
  | EmptyString => None
  | String c r =>
      match uptoLastBrace r with
      | Some t => Some (String c t)
      | None => if Ascii.eqb c "}" then Some (String c EmptyString) else None
      end
  end.

(** [jsonStr.match(/\{[\s\S]*\}/)]: the match itself, from the first
    opening brace to the last closing brace after it (greedy).  When no
    closing brace follows the first opening brace, none follows a later one
    either, and there is no match. *)
Definition matchObject (s : string) : option string :=
  match fromFirstBrace s with
  | Some t => uptoLastBrace t
  | None => None
  end.

(** The text handed to [JSON.parse]. *)
Definition jsonStr (response : string) : string :=
  let jsonStr := JS.trim response in
  let jsonStr :=
    match matchFence response with
    | Some group => JS.trim group
    | None => jsonStr
    end in
  match matchObject jsonStr with
  | Some object => object
  | None => jsonStr
  end.

(** [AgentResponse]; the action is what was parsed, without any check
    ([parsed.action as BrowserAction]). *)
Record AgentResponse := mkResponse {
  thought : JValue;
  action : JValue;
  done : bool
}.

(** What the [try] block makes of the parsed value; reading a property of
    [null] throws. *)
Definition decide (parsed : JValue) : option AgentResponse :=
  match parsed with
  | JNull => None
  | _ =>
      let thought := prop parsed "thought" in
      let action := prop parsed "action" in
      if negb (truthy thought) || negb (truthy action) then None
      else match thought, action with
           | Some thought, Some action =>
               Some (mkResponse thought action
                       (isTrue (prop parsed "done")
                        || isString (prop action "type") "done"))
           | _, _ => None
           end
  end.

(** [parseAgentResponse(response)]; [None] is [null]. *)
Definition parseAgentResponse (response : string) : option AgentResponse :=
  match JSON_parse (jsonStr response) with
  | Some parsed => decide parsed
  | None => None
  end.

(** *** The requirement in the words of the specification

    "The parser must locate the first well-formed [{...}] object": the
    leftmost opening brace from which some stretch of the reply reads as a JSON
    object, and that object. *)





(** *** Replies for experiments *)

Definition q : string := JS.dq.

(** [{"thought":"press it","action":{"type":"click","selector":"Submit"}}],
    and the same without its outer braces. *)
Definition clickInner : string :=
  q +:+ "thought" +:+ q +:+ ":" +:+ q +:+ "press it" +:+ q +:+ ","
  +:+ q +:+ "action" +:+ q +:+ ":{" +:+ q +:+ "type" +:+ q +:+ ":" +:+ q +:+ "click" +:+ q
  +:+ "," +:+ q +:+ "selector" +:+ q +:+ ":" +:+ q +:+ "Submit" +:+ q +:+ "}".

Definition clickReply : string := "{" +:+ clickInner +:+ "}".



Definition clickAction : JValue :=
  JObject [(units "type", JString (units "click"));
           (units "selector", JString (units "Submit"))].


Definition nl : string := String "010"%char EmptyString.



End Parser.
(* ===================================================================== *)
(** ** backend/contextCache.ts: what a client of the cache observes *)
(* ===================================================================== *)

Module CacheUse.

(** The delay [set] hands to [setTimeout], and the age limit of [get]. *)
Definition delay (ttl : option Z) : Z := Cache.orDefault ttl Cache.defaultTTL.

(** The delay is one [setTimeout] waits for as given: 1 to 2^31 - 1 ms. *)
Definition inRange (ttl : option Z) : Prop := 0 < delay ttl < 2 ^ 31.

(** A timer set for [delay] has not run [dt] milliseconds later: its time has
    not come, or it is due this very millisecond and the call comes first. *)
Definition pending (onTime : bool) (dt delay : Z) : bool :=
  if onTime then dt <? delay else dt <=? delay.

Definition limit (maxAge : option Z) : Z := Cache.orDefault maxAge Cache.defaultTTL.

(** No pending timer deletes the entry under [key]. *)
Definition noTimerFor (key : string) (s : Cache.State) : Prop :=
  Forall (fun t => Cache.timerKey t <> key) (Cache.timers s).

(** Every entry sits under the key of its own url and tab. *)
Definition wellKeyed (s : Cache.State) : Prop :=
  forall k c, Cache.cache s !! k = Some c ->
              k = Cache.getCacheKey (Cache.cached_url c) (Cache.cached_tabId c).

(** [cached.hash] is there, is not empty and equals [newHash]. *)
Definition sameHash (cached : PageContext) (newHash : string) : bool :=
  match hash cached with
  | Some h => JS.truthy h && String.eqb h newHash
  | None => false
  end.

End CacheUse.
(* ===================================================================== *)
(** ** content/smartSelector.ts: what the strategies look at *)
(* ===================================================================== *)

Module ResolverUse.
Import Resolver.

(** [text.toLowerCase().trim()], the form in which every text strategy reads
    the target. *)
Definition normalize (text : string) : string := JS.trim (JS.toLowerCase text).

(** The element passes the visibility filter of a strategy loop. *)
Definition considered (visible : bool) (el : Element) : bool :=
  negb (visible && negb (isVisible el)).

(** The test of the exact text strategy. *)
Definition exactMatch (normalizedText : string) (visible : bool) (el : Element) : bool :=
  considered visible el && String.eqb (elText el) normalizedText.

(** The test of the attribute strategies. *)
Definition attributeMatch (attribute normalizedText : string) (visible : bool)
    (el : Element) : bool :=
  considered visible el
  && JS.includes (JS.toLowerCase (orEmpty (getAttribute el attribute))) normalizedText.

End ResolverUse.
(* ===================================================================== *)
(** ** ui/components/AgentController.tsx: what a run records and sends *)
(* ===================================================================== *)

Module ControllerUse.
Import Controller.

(** [step.result] is set. *)
Definition hasResult (step : AgentStep) : bool :=
  match result step with Some _ => true | None => false end.

(** [step.action.type === 'done'] *)
Definition isDoneStep (step : AgentStep) : bool := isDoneAction (action step).

(** The requests to the model among the messages of a run, in order. *)
Definition isRequest (e : Event) : bool :=
  match e with RunAgentStep _ _ _ => true | _ => false end.

Definition requests (es : list Event) : list Event := List.filter isRequest es.

(** The page context the loop holds when iteration [j] starts: the one it
    was started with, or the payload of the latest [PAGE_CONTEXT] answer to
    the refresh of an earlier iteration. *)
Fixpoint contextAt (pageContext : PageContext) (env : nat -> Round) (j : nat)
  : PageContext :=
  match j with
  | O => pageContext
  | S j' =>
      match contextReply (env j') with
      | ContextPage payload => payload
      | _ => contextAt pageContext env j'
      end
  end.

(** The request of iteration [j] in a run that ends with the steps [final]:
    it carries the task, the page context held then, and the first [j] steps,
    which are the steps recorded by the [j] iterations before it. *)
Definition requestAt (task : string) (pageContext : PageContext) (env : nat -> Round)
    (final : list AgentStep) (j : nat) : Event :=
  RunAgentStep task (contextAt pageContext env j) (firstn j final).

(** What can be said of the other messages: a tab update carries a url that
    starts with "http"; a dispatch to the content script carries neither a
    navigation nor [done]. *)
Definition wellFormed (e : Event) : Prop :=
  match e with
  | TabsUpdate url => JS.startsWith url "http" = true
  | ExecuteAgentAction payload =>
      match payload with
      | ANavigate _ | ADone _ => False
      | _ => True
      end
  | RunAgentStep _ _ _ | Sleep _ | GetPageContext => True
  end.

(** The loop invariants: before each iteration every recorded step has a
    result and none is a [done]; every message sent so far is well formed;
    the requests sent so far are those of the iterations so far. *)
Definition recorded (run : Run) : Prop :=
  Forall (fun step => hasResult step = true /\ isDoneStep step = false) (currentSteps run).

Definition sentWell (run : Run) : Prop := Forall wellFormed (events run).

Definition asked (task : string) (pageContext : PageContext) (env : nat -> Round)
    (n : nat) (run : Run) : Prop :=
  requests (events run)
  = map (requestAt task pageContext env (currentSteps run)) (seq 0 n).

(** Replies for experiments: a navigation, then [done]. *)
Definition navigateThenDone : nat -> Round :=
  fun i => quietRound 0
             (StepAgentStep
                (sampleStep (if Nat.eqb i 0 then ANavigate "example.com" else ADone "ok"))).

End ControllerUse.
(* ===================================================================== *)
(** ** Content script and content extraction: hash, chunks, quality, metadata *)
(* ===================================================================== *)

Module Content.
Import Extractor.

(** *** [simpleHash] *)

(** [ToInt32]: the signed 32-bit integer congruent to [x] modulo [2^32]. *)
Definition toInt32 (x : Z) : Z := (x + 2 ^ 31) mod 2 ^ 32 - 2 ^ 31.

(** [hash << 5] *)
Definition shiftLeft5 (hash : Z) : Z := toInt32 (toInt32 hash * 2 ^ 5).

(** The body of the loop: [hash = ((hash << 5) - hash) + char;
    hash = hash & hash]. *)
Definition hashStep (hash : Z) (char : ascii) : Z :=
  toInt32 (shiftLeft5 hash - hash + Z.of_N (JS.code char)).

Fixpoint hashLoop (str : string) (hash : Z) : Z :=
  match str with
  | EmptyString => hash
  | String char rest => hashLoop rest (hashStep hash char)
  end.

(** The value of [hash] after the loop. *)
Definition hashNumber (str : string) : Z := hashLoop str 0.

(** [n.toString(36)] for an integer [n]: the digits [0-9a-z], most
    significant first, after a minus sign for a negative number. *)
Definition digit36 (d : Z) : ascii :=
  if d <? 10 then ascii_of_N (Z.to_N (48 + d)) else ascii_of_N (Z.to_N (87 + d)).

Fixpoint digits36 (fuel : nat) (n : Z) (acc : string) : string :=
  match fuel with
  | O => acc
  | S fuel' =>
      if n =? 0 then acc
      else digits36 fuel' (n / 36) (String (digit36 (n mod 36)) acc)
  end.

Definition toString36 (n : Z) : string :=
  if n =? 0 then "0"
  else if n <? 0 then "-" +:+ digits36 (S (Z.to_nat (Z.log2 (- n)))) (- n) ""
  else digits36 (S (Z.to_nat (Z.log2 n))) n "".

Definition simpleHash (str : string) : string := toString36 (hashNumber str).

(** The polynomial the hash computes: the code units as the digits of a
    number in base 31, first character most significant. *)
Fixpoint polynomial31 (str : string) : Z :=
  match str with
  | EmptyString => 0
  | String char rest =>
      Z.of_N (JS.code char) * 31 ^ Z.of_nat (String.length rest) + polynomial31 rest
  end.

(** *** [extractContentChunks] *)

(** [parseInt(heading.tagName[1])]: the value of the digit in second place of
    the tag name; [None] is NaN. *)
Definition headingLevel (heading : Resolver.Element) : option Z :=
  match Resolver.tagName heading with
  | String _ (String c _) => option_map Z.of_N (Parser.digit c)
  | _ => None
  end.

(** [el.textContent?.trim() || ''] *)
Definition trimmedText (el : Resolver.Element) : string :=
  JS.trim (Resolver.textContent el).

(** [text && text.length > n] *)
Definition longerThan (n : Z) (text : string) : bool :=
  JS.truthy text && (n <? JS.len text).

(** The [forEach] over the headings.  A heading that is pushed with a level
    that is NaN would get the priority NaN, which a [ContentChunk] here cannot
    hold: the result is [None] then. *)
Fixpoint headingChunks (headings : list Resolver.Element) : option (list ContentChunk) :=
  match headings with
  | [] => Some []
  | heading :: rest =>
      let text := trimmedText heading in
      if longerThan 2 text then
        match headingLevel heading, headingChunks rest with
        | Some level, Some more =>
            Some (mkChunk Heading (90 - level * 10) text (estimateTokens text) (Some level)
                  :: more)
        | _, _ => None
        end
      else headingChunks rest
  end.

(** The [forEach] over the paragraphs, from index [index] on. *)
Fixpoint paragraphChunks (paragraphs : list Resolver.Element) (index : Z)
  : list ContentChunk :=
  match paragraphs with
  | [] => []
  | p :: rest =>
      let text := trimmedText p in
      if longerThan 30 text then
        mkChunk Paragraph (Z.max 40 (70 - index / 3 * 5)) text (estimateTokens text) None
        :: paragraphChunks rest (index + 1)
      else paragraphChunks rest (index + 1)
  end.

(** The [forEach] over the code blocks, the lists and the quotes. *)
Fixpoint plainChunks (type : ChunkType) (priority minLength : Z)
    (els : list Resolver.Element) : list ContentChunk :=
  match els with
  | [] => []
  | el :: rest =>
      let text := trimmedText el in
      if longerThan minLength text then
        mkChunk type priority text (estimateTokens text) None
        :: plainChunks type priority minLength rest
      else plainChunks type priority minLength rest
  end.

(** [chunks] before the sort. *)
Definition pushedChunks (doc : Resolver.Document) : option (list ContentChunk) :=
  match headingChunks (Resolver.querySelectorAll doc "h1, h2, h3, h4, h5, h6") with
  | Some headings =>
      Some (headings
            ++ paragraphChunks (Resolver.querySelectorAll doc "p") 0
            ++ plainChunks Code 75 10 (Resolver.querySelectorAll doc "pre, code")
            ++ plainChunks ListChunk 60 20 (Resolver.querySelectorAll doc "ul, ol")
            ++ plainChunks Quote 55 20 (Resolver.querySelectorAll doc "blockquote"))
  | None => None
  end.

(** [chunks.sort((a, b) => b.priority - a.priority)].  The sort of an array
    is stable, which fixes its result: decreasing priority, and the given order
    among chunks of equal priority.  Insertion from the right computes it: a
    chunk goes in front of the first chunk whose priority is not higher. *)
Fixpoint insertByPriority (chunk : ContentChunk) (sorted : list ContentChunk)
  : list ContentChunk :=
  match sorted with
  | [] => [chunk]
  | next :: rest =>
      if priority next <=? priority chunk then chunk :: sorted
      else next :: insertByPriority chunk rest
  end.

Definition sortByPriority (chunks : list ContentChunk) : list ContentChunk :=
  fold_right insertByPriority [] chunks.

(** [array.slice(0, end)]: a negative [end] counts from the end of the
    array. *)
Definition sliceFromStart {A} (array : list A) (e : Z) : list A :=
  if e <? 0 then firstn (Z.to_nat (Z.max 0 (Z.of_nat (length array) + e))) array
  else firstn (Z.to_nat e) array.

(** [extractContentChunks(maxChunks = 50)] *)
Definition extractContentChunks (doc : Resolver.Document) (maxChunks : option Z)
  : option (list ContentChunk) :=
  let maxChunks := match maxChunks with Some n => n | None => 50 end in
  match pushedChunks doc with
  | Some chunks => Some (sliceFromStart (sortByPriority chunks) maxChunks)
  | None => None
  end.

(** Priorities do not increase along the list. *)
Fixpoint descending (chunks : list ContentChunk) : Prop :=
  match chunks with
  | [] => True
  | chunk :: rest =>
      Forall (fun later => priority later <= priority chunk) rest /\ descending rest
  end.

(** The chunks of priority [p], in their order. *)
Definition ofPriority (p : Z) (chunks : list ContentChunk) : list ContentChunk :=
  List.filter (fun chunk => priority chunk =? p) chunks.

(** What every pushed chunk satisfies, by its type. *)
Definition wellMade (chunk : ContentChunk) : Prop :=
  text chunk = JS.trim (text chunk)
  /\ tokens chunk = estimateTokens (text chunk)
  /\ 1 <= tokens chunk
  /\ match chunk_type chunk with
     | Heading => 2 < JS.len (text chunk)
                  /\ exists l, level chunk = Some l /\ 0 <= l <= 9
                               /\ priority chunk = 90 - l * 10
     | Paragraph => 30 < JS.len (text chunk) /\ level chunk = None
                    /\ 40 <= priority chunk <= 70
     | Code => 10 < JS.len (text chunk) /\ level chunk = None /\ priority chunk = 75
     | ListChunk => 20 < JS.len (text chunk) /\ level chunk = None /\ priority chunk = 60
     | Quote => 20 < JS.len (text chunk) /\ level chunk = None /\ priority chunk = 55
     end.

(** A page for experiments: two headings, two paragraphs and a code block. *)
Definition sampleOutline : list Resolver.Element :=
  [ Resolver.shown 1 "H1" [] " Getting started ";
    Resolver.shown 2 "P" [] "This guide walks through the installation step by step.";
    Resolver.shown 3 "H2" [] "Install";
    Resolver.shown 4 "PRE" [] "npm install sidescope";
    Resolver.shown 5 "P" [] "Too short." ].

Definition outlineMatches (selector : string) (el : Resolver.Element) : bool :=
  if String.eqb selector "h1, h2, h3, h4, h5, h6"
  then existsb (String.eqb (Resolver.tagName el)) ["H1"; "H2"; "H3"; "H4"; "H5"; "H6"]
  else if String.eqb selector "p" then String.eqb (Resolver.tagName el) "P"
  else if String.eqb selector "pre, code"
  then existsb (String.eqb (Resolver.tagName el)) ["PRE"; "CODE"]
  else if String.eqb selector "ul, ol"
  then existsb (String.eqb (Resolver.tagName el)) ["UL"; "OL"]
  else if String.eqb selector "blockquote" then String.eqb (Resolver.tagName el) "BLOCKQUOTE"
  else false.

Definition sampleDoc : Resolver.Document :=
  Resolver.mkDocument (fun _ => Some None)
    (fun selector => List.filter (outlineMatches selector) sampleOutline).

(** *** The page as the content script reads it *)

Record Page := mkPage {
  document : Resolver.Document;
  (** [document.body.textContent] *)
  bodyTextContent : string;
  (** [document.body.innerText] *)
  bodyInnerText : option string;
  (** [document.documentElement.lang] *)
  documentLang : string
}.

(** [document.querySelector(selector)] for a selector that is valid: the
    first match in document order. *)
Definition first (doc : Resolver.Document) (selector : string) : option Resolver.Element :=
  match Resolver.querySelectorAll doc selector with
  | el :: _ => Some el
  | [] => None
  end.

(** [document.querySelectorAll(selector).length] *)
Definition count (doc : Resolver.Document) (selector : string) : Z :=
  Z.of_nat (length (Resolver.querySelectorAll doc selector)).

Definition mainSelector : string :=
  "main, article, [role=" +:+ Resolver.quoted "main" +:+ "], .main-content, #main-content".

(** *** [calculateContentQuality] *)

Definition navSelector : string :=
  "nav, [role=" +:+ Resolver.quoted "navigation" +:+ "], .nav, .menu".

(** [adSelectors] of the content script. *)
Definition adSelectors : list string :=
  [ "[class*=" +:+ Resolver.quoted "ad-" +:+ "]";
    "[id*=" +:+ Resolver.quoted "ad-" +:+ "]";
    "[class*=" +:+ Resolver.quoted "advertisement" +:+ "]";
    ".banner"; ".sidebar"; ".widget" ].

(** [adSelectors] of the extraction utilities: one more. *)
Definition adSelectorsOfUtilities : list string :=
  adSelectors ++ ["[class*=" +:+ Resolver.quoted "sponsor" +:+ "]"].

Record ContentQuality := mkQuality {
  score : Z;
  readability : Z;
  density : Z;
  hasMainContent : bool;
  hasNavigation : bool;
  hasAds : bool
}.

(** [if (condition) x += amount] *)
Definition addIf (condition : bool) (amount x : Z) : Z :=
  if condition then x + amount else x.

(** [Math.min(100, Math.max(0, x))] *)
Definition clamp (x : Z) : Z := Z.min 100 (Z.max 0 x).

(** The function body, for a list of ad selectors. *)
Definition qualityWith (selectors : list string) (page : Page) : ContentQuality :=
  let doc := document page in
  let score := 50 in
  let readability := 50 in
  let density := 50 in
  let hasMainContent :=
    match first doc mainSelector with
    | Some mainContent => 200 <? JS.len (Resolver.textContent mainContent)
    | None => false
    end in
  let hasNavigation := 0 <? count doc navSelector in
  let adCount := fold_left (fun adCount selector => adCount + count doc selector) selectors 0 in
  let hasAds := 2 <? adCount in
  let score := addIf hasMainContent 20 score in
  let score := addIf (negb hasAds) 15 score in
  let score := addIf hasNavigation 5 score in
  let readability := addIf (3 <? count doc "p") 20 readability in
  let readability := addIf (2 <? count doc "h1, h2, h3, h4, h5, h6") 15 readability in
  let readability := addIf (0 <? count doc "ul, ol") 10 readability in
  let textLength := JS.len (bodyTextContent page) in
  let wordCount := Z.of_nat (length (JS.split_ws (bodyTextContent page))) in
  let avgWordLength := (inject_Z textLength / inject_Z (Z.max wordCount 1))%Q in
  let density := addIf (Resolver.Qltb 4 avgWordLength) 20 density in
  let density := addIf (300 <? wordCount) 15 density in
  let density := addIf (0 <? count doc "code, pre") 15 density in
  {| score := clamp score;
     readability := clamp readability;
     density := clamp density;
     hasMainContent := hasMainContent;
     hasNavigation := hasNavigation;
     hasAds := hasAds |}.

(** [calculateContentQuality()] of the content script, and
    [calculateContentQuality(doc)] of the extraction utilities. *)
Definition calculateContentQuality (page : Page) : ContentQuality :=
  qualityWith adSelectors page.

Definition calculateContentQualityOfUtilities (page : Page) : ContentQuality :=
  qualityWith adSelectorsOfUtilities page.

(** *** [extractMetadata] *)

Inductive ContentType := Article | Documentation | Forum | Ecommerce | App | Unknown.

Record ContentMetadata := mkMetadata {
  author : option string;
  publishDate : option string;
  description : option string;
  keywords : option (list string);
  contentType : ContentType;
  language : option string;
  readingTime : Z;
  imageCount : Z
}.

Definition metaSelector (name : string) : string :=
  "meta[property=" +:+ Resolver.quoted name +:+ "], meta[name="
  +:+ Resolver.quoted name +:+ "]".

(** [x || undefined] for an optional string. *)
Definition nonEmpty (x : option string) : option string :=
  match x with
  | Some s => if JS.truthy s then Some s else None
  | None => None
  end.

(** [a || b] for two optional strings. *)
Definition orElse (a b : option string) : option string :=
  match nonEmpty a with
  | Some s => Some s
  | None => b
  end.

Definition getMetaContent (doc : Resolver.Document) (name : string) : option string :=
  match first doc (metaSelector name) with
  | Some meta => nonEmpty (Resolver.getAttribute meta "content")
  | None => None
  end.

(** [s.split(sep)] for a separator of one character; [cur] is the piece
    being read, reversed. *)
Fixpoint splitOn (sep : ascii) (s : string) (cur : list ascii) : list string :=
  match s with
  | EmptyString => [string_of_list_ascii (rev cur)]
  | String c r =>
      if Ascii.eqb c sep then string_of_list_ascii (rev cur) :: splitOn sep r []
      else splitOn sep r (c :: cur)
  end.

(** [keywordsStr.split(',').map(k => k.trim()).filter(Boolean)] *)
Definition parseKeywords (keywordsStr : string) : list string :=
  List.filter JS.truthy (map JS.trim (splitOn "," keywordsStr [])).

(** [!!doc.querySelector(selector)] *)
Definition has (doc : Resolver.Document) (selector : string) : bool :=
  match first doc selector with Some _ => true | None => false end.

Definition detectType (doc : Resolver.Document) : ContentType :=
  let ogType := getMetaContent doc "og:type" in
  if match ogType with Some t => String.eqb t "article" | None => false end then Article
  else if has doc ("[itemtype*=" +:+ Resolver.quoted "Product" +:+ "]")
          || has doc ".price, .product" then Ecommerce
  else if has doc ("[class*=" +:+ Resolver.quoted "forum" +:+ "], [class*="
                   +:+ Resolver.quoted "discussion" +:+ "], [class*="
                   +:+ Resolver.quoted "comment" +:+ "]") then Forum
  else if has doc "pre code"
          || has doc (".documentation, [class*=" +:+ Resolver.quoted "docs" +:+ "]")
  then Documentation
  else if has doc ("[role=" +:+ Resolver.quoted "application" +:+ "], [data-app]") then App
  else Unknown.

(** [extractMetadata()] of the content script. *)
Definition extractMetadata (page : Page) : ContentMetadata :=
  let doc := document page in
  let wordCount := Z.of_nat (length (JS.split_ws (bodyTextContent page))) in
  {| author := orElse (getMetaContent doc "author") (getMetaContent doc "og:author");
     description :=
       orElse (getMetaContent doc "description") (getMetaContent doc "og:description");
     publishDate :=
       orElse (getMetaContent doc "article:published_time") (getMetaContent doc "date");
     language := orElse (Some (documentLang page)) (getMetaContent doc "og:locale");
     keywords :=
       match getMetaContent doc "keywords" with
       | Some keywordsStr => Some (parseKeywords keywordsStr)
       | None => None
       end;
     contentType := detectType doc;
     readingTime := (wordCount + 199) / 200;
     imageCount := count doc "img" |}.

(** *** [extractSimpleText] and the fallback extraction of the bridge *)

Inductive Quality := Fast | Balanced | Thorough.

(** The body shared by [extractSimpleText] and by the function that
    [extractContentDirectly] injects: the main content if it is long enough,
    else the inner text of the body, cut at [limit] characters. *)
Definition textUpTo (limit : Z) (page : Page) : string :=
  let fallback :=
    match bodyInnerText page with
    | Some innerText =>
        let cut := String.substring 0 (Z.to_nat limit) (JS.trim innerText) in
        if JS.truthy cut then cut else "(No content found)"
    | None => "(No content found)"
    end in
  match first (document page) mainSelector with
  | Some mainContent =>
      if JS.truthy (Resolver.textContent mainContent)
         && (200 <? JS.len (JS.trim (Resolver.textContent mainContent)))
      then String.substring 0 (Z.to_nat limit) (JS.trim (Resolver.textContent mainContent))
      else fallback
  | None => fallback
  end.

Definition extractSimpleText (page : Page) : string := textUpTo 8000 page.

(** The injected function of [extractContentDirectly], called with [qual]. *)
Definition injectedExtraction (qual : Quality) (page : Page) : string :=
  textUpTo (match qual with Thorough => 8000 | _ => 6000 end) page.

(** A page with keywords, for experiments. *)
Definition sampleMeta : list Resolver.Element :=
  [ Resolver.shown 1 "META" [("name", "keywords"); ("content", " rocq , proofs,, agents ,")] "";
    Resolver.shown 2 "META" [("property", "og:type"); ("content", "article")] "";
    Resolver.shown 3 "META" [("name", "author"); ("content", "")] "" ].

Definition metaMatches (selector : string) (el : Resolver.Element) : bool :=
  match Resolver.getAttribute el "name", Resolver.getAttribute el "property" with
  | Some n, _ => String.eqb selector (metaSelector n)
  | None, Some p => String.eqb selector (metaSelector p)
  | None, None => false
  end.

Definition samplePage : Page :=
  mkPage (Resolver.mkDocument (fun _ => Some None)
            (fun selector => List.filter (metaMatches selector) sampleMeta))
         "A short page about proofs" (Some "  A short page about proofs ") "en".

End Content.
(* ===================================================================== *)
(** ** backend/settingsStore.ts: defaults, load and save *)
(* ===================================================================== *)

Module SettingsStore.

Record AIModel := mkModel {
  model_id : string;
  providerId : string;
  backendName : string;
  displayName : string;
  enabled : bool;
  temperature : option Q;
  thinkingEnabled : option bool;
  thinkingBudget : option Z
}.

Record ProviderConfig := mkConfig {
  apiKey : string;
  customBaseUrl : option string
}.

Inductive Theme := Light | Dark | System.

Record ContextPreferences := mkPreferences {
  includeUrl : bool;
  includeTitle : bool;
  includeSelection : bool;
  includeContent : bool;
  includeHtml : bool;
  includeScreenshot : bool;
  includeMetadata : bool;
  includeImageOCR : bool;
  quality : Content.Quality;
  maxTokens : Z;
  useCache : bool;
  cacheTTL : Z;
  maxImagesForOCR : Z
}.

Record ExtensionSettings := mkSettings {
  providers : gmap string ProviderConfig;
  models : list AIModel;
  activeModelId : string;
  theme : option Theme;
  contextPreferences : option ContextPreferences;
  customSystemPrompt : option string
}.

Definition model (id providerId backendName displayName : string) (enabled : bool)
  : AIModel :=
  mkModel id providerId backendName displayName enabled None None None.

Definition DEFAULT_MODELS : list AIModel :=
  [ model "jarvis-claude-sonnet" "jarvis" "claude-4-5-sonnet" "Claude 4.5 Sonnet (Jarvis)" true;
    model "openrouter-sonnet" "openrouter" "anthropic/claude-3.5-sonnet" "Claude 3.5 Sonnet"
          false;
    model "openrouter-gpt4o" "openrouter" "openai/gpt-4o" "GPT-4o" false;
    model "openai-gpt4o" "openai" "gpt-4o" "GPT-4o (OpenAI)" false;
    model "gemini-flash" "gemini" "gemini-2.0-flash" "Gemini 2.0 Flash" false ].

Definition DEFAULT_PROVIDER_CONFIGS : gmap string ProviderConfig :=
  <[ "jarvis" := mkConfig "" None ]>
    (<[ "openrouter" := mkConfig "" None ]>
       (<[ "openai" := mkConfig "" None ]>
          (<[ "gemini" := mkConfig "" None ]> ∅))).

Definition defaultPreferences : ContextPreferences :=
  {| includeUrl := true;
     includeTitle := true;
     includeSelection := true;
     includeContent := true;
     includeHtml := false;
     includeScreenshot := false;
     includeMetadata := true;
     includeImageOCR := true;
     quality := Content.Balanced;
     maxTokens := 8000;
     useCache := true;
     cacheTTL := 30;
     maxImagesForOCR := 3 |}.

(** [getDefaultSettings()] *)
Definition getDefaultSettings : ExtensionSettings :=
  {| providers := DEFAULT_PROVIDER_CONFIGS;
     models := DEFAULT_MODELS;
     activeModelId := "jarvis-claude-sonnet";
     theme := Some System;
     contextPreferences := Some defaultPreferences;
     customSystemPrompt := Some "" |}.

(** What sits in [chrome.storage.local] under the settings key: an object
    with some of the keys of [ExtensionSettings]
    ([Partial<ExtensionSettings>]).  A key is present when its field is
    [Some]. *)
Record SavedSettings := mkSaved {
  saved_providers : option (gmap string ProviderConfig);
  saved_models : option (list AIModel);
  saved_activeModelId : option string;
  saved_theme : option Theme;
  saved_contextPreferences : option ContextPreferences;
  saved_customSystemPrompt : option string
}.

(** The storage area, read at the settings key: [None] when nothing is
    stored there. *)
Definition Storage := option SavedSettings.

Definition present {A} (x : option A) : nat :=
  match x with Some _ => 1 | None => 0 end.

(** [Object.keys(saved).length] *)
Definition keyCount (saved : SavedSettings) : nat :=
  present (saved_providers saved) + present (saved_models saved)
  + present (saved_activeModelId saved) + present (saved_theme saved)
  + present (saved_contextPreferences saved) + present (saved_customSystemPrompt saved).

(** [{ ...base, ...over }] for two provider configurations. *)
Definition spread (base over : ProviderConfig) : ProviderConfig :=
  {| apiKey := apiKey over;
     customBaseUrl := match customBaseUrl over with
                      | Some url => Some url
                      | None => customBaseUrl base
                      end |}.

(** The body of [for (const pid in saved.providers)]. *)
Definition mergeProvider (pid : string) (config : ProviderConfig)
    (providers : gmap string ProviderConfig) : gmap string ProviderConfig :=
  match providers !! pid with
  | Some base => <[ pid := spread base config ]> providers
  | None => <[ pid := config ]> providers
  end.

(** [loadSettings()] on what the storage holds. *)
Definition loadSettings (stored : Storage) : ExtensionSettings :=
  let defaults := getDefaultSettings in
  match stored with
  | None => defaults
  | Some saved =>
      if Nat.eqb (keyCount saved) 0 then defaults
      else
        let providers :=
          match saved_providers saved with
          | Some savedProviders => map_fold mergeProvider (providers defaults) savedProviders
          | None => providers defaults
          end in
        let models :=
          match saved_models saved with
          | Some savedModels =>
              if (0 <? length savedModels)%nat then savedModels else models defaults
          | None => models defaults
          end in
        let activeModelId :=
          match saved_activeModelId saved with
          | Some id =>
              if JS.truthy id && existsb (fun m => String.eqb (model_id m) id) models
              then id else activeModelId defaults
          | None => activeModelId defaults
          end in
        let theme :=
          match saved_theme saved with
          | Some t => Some t
          | None => theme defaults
          end in
        {| providers := providers;
           models := models;
           activeModelId := activeModelId;
           theme := theme;
           contextPreferences := None;
           customSystemPrompt := None |}
  end.

(** [saveSettings(settings)]: the object is stored as it is. *)
Definition saveSettings (settings : ExtensionSettings) (stored : Storage) : Storage :=
  Some {| saved_providers := Some (providers settings);
          saved_models := Some (models settings);
          saved_activeModelId := Some (activeModelId settings);
          saved_theme := theme settings;
          saved_contextPreferences := contextPreferences settings;
          saved_customSystemPrompt := customSystemPrompt settings |}.

(** [clearSettings()] *)
Definition clearSettings (stored : Storage) : Storage := None.

(** Settings for experiments: a key for OpenAI, GPT-4o chosen, a custom
    prompt. *)
Definition sampleSettings : ExtensionSettings :=
  {| providers := <[ "openai" := mkConfig "sk-test" None ]> DEFAULT_PROVIDER_CONFIGS;
     models := [ model "openai-gpt4o" "openai" "gpt-4o" "GPT-4o (OpenAI)" true ];
     activeModelId := "openai-gpt4o";
     theme := Some Dark;
     contextPreferences := Some defaultPreferences;
     customSystemPrompt := Some "Answer in French." |}.

End SettingsStore.
(* ===================================================================== *)
(** ** backend/aiClient.ts: the request of [callAI], [validateApiKey] *)
(* ===================================================================== *)

Module ApiClient.
Import SettingsStore.

Inductive Role := User | Assistant | SystemRole.

(** [ChatMessage]: the fields [callAI] reads; an attachment is
    [{type: 'image', content}]. *)
Record ChatMessage := mkMessage {
  msg_id : string;
  role : Role;
  content : string;
  createdAt : Z;
  attachments : option (list string)
}.

(** A message as it goes into the request body: its content is a string, or
    a list of text and image parts. *)
Inductive Part :=
| TextPart (text : string)
| ImageUrl (url : string).

Inductive ApiContent :=
| Plain (content : string)
| Parts (parts : list Part).

Record ApiMessage := mkApiMessage {
  api_role : Role;
  api_content : ApiContent
}.

(** The page context of a request: the context the agent and the cache use,
    with the two further fields the prompt reads. *)
Record RequestContext := mkRequestContext {
  page : PageContext;
  selectionText : option string;
  htmlSource : option string
}.

Record AIRequestPayload := mkRequest {
  messages : list ChatMessage;
  pageContext : option RequestContext;
  requestPreferences : option ContextPreferences;
  stream : bool
}.

Definition nl : string := String "010"%char EmptyString.

(** [x && x.length > n] for an optional string. *)
Definition longerThan (n : Z) (x : option string) : bool :=
  match x with
  | Some s => JS.truthy s && (n <? JS.len s)
  | None => false
  end.

(** [s.substring(0, max) + (s.length > max ? '... (truncated)' : '')] *)
Definition truncated (max : Z) (s : string) : string :=
  String.substring 0 (Z.to_nat max) s
  +:+ (if max <? JS.len s then "... (truncated)" else "").

Section Prompt.

(** The closing paragraph of the context prompt, on mathematical formulas: a
    constant of the source, with characters beyond U+00FF. *)
Variable mathNote : string.

(** [customSystemPrompt && customSystemPrompt.trim()] holds, and the
    trimmed prompt. *)
Definition usablePrompt (customSystemPrompt : option string) : option string :=
  match customSystemPrompt with
  | Some prompt =>
      if JS.truthy prompt && JS.truthy (JS.trim prompt) then Some (JS.trim prompt) else None
  | None => None
  end.

(** [buildContextPrompt(pageContext, preferences, customSystemPrompt?)] *)
Definition buildContextPrompt (pageContext : RequestContext)
    (preferences : ContextPreferences) (customSystemPrompt : option string) : string :=
  let contextPrompt := "" in
  let contextPrompt :=
    match usablePrompt customSystemPrompt with
    | Some prompt => contextPrompt +:+ prompt +:+ nl +:+ nl
    | None => contextPrompt
    end in
  let contextPrompt :=
    contextPrompt
    +:+ "You are a helpful assistant with access to the current webpage. "
    +:+ "Use this context to answer questions:" +:+ nl +:+ nl in
  let contextPrompt :=
    if includeUrl preferences && JS.truthy (url (page pageContext))
    then contextPrompt +:+ "**Page URL:** " +:+ url (page pageContext) +:+ nl
    else contextPrompt in
  let contextPrompt :=
    if includeTitle preferences && JS.truthy (title (page pageContext))
    then contextPrompt +:+ "**Page Title:** " +:+ title (page pageContext) +:+ nl
    else contextPrompt in
  let contextPrompt :=
    match selectionText pageContext with
    | Some selection =>
        if includeSelection preferences && JS.truthy selection
        then contextPrompt +:+ "**Selected Text:** " +:+ selection +:+ nl
        else contextPrompt
    | None => contextPrompt
    end in
  let contextPrompt :=
    match mainContentSnippet (page pageContext) with
    | Some snippet =>
        if includeContent preferences && longerThan 100 (Some snippet)
        then contextPrompt +:+ nl +:+ "**Page Text Content:**" +:+ nl
             +:+ truncated 8000 snippet +:+ nl
        else contextPrompt
    | None => contextPrompt
    end in
  let contextPrompt :=
    match htmlSource pageContext with
    | Some html =>
        if includeHtml preferences && longerThan 100 (Some html)
        then contextPrompt +:+ nl +:+ "**Page HTML Structure (cleaned):**" +:+ nl
             +:+ "```html" +:+ nl +:+ truncated 6000 html +:+ nl +:+ "```" +:+ nl
        else contextPrompt
    | None => contextPrompt
    end in
  let contextPrompt :=
    contextPrompt +:+ nl +:+ "Use the above page content"
    +:+ (if includeHtml preferences then " and HTML structure" else "")
    +:+ " to provide accurate, contextual answers." in
  let contextPrompt :=
    if includeHtml preferences
    then contextPrompt
         +:+ " The HTML shows the page structure including classes, IDs, "
         +:+ "and data attributes that may be helpful."
    else contextPrompt in
  contextPrompt +:+ mathNote.

(** Step 4: one message of the request. *)
Definition toApi (m : ChatMessage) : ApiMessage :=
  match attachments m with
  | Some (first :: rest) =>
      mkApiMessage (role m)
        (Parts (TextPart (if JS.truthy (content m) then content m else " ")
                :: map ImageUrl (first :: rest)))
  | _ => mkApiMessage (role m) (Plain (content m))
  end.

(** Step 5: the system message put in front, if any. *)
Definition systemMessage (request : AIRequestPayload) (settings : ExtensionSettings)
  : list ApiMessage :=
  match pageContext request, requestPreferences request with
  | Some context, Some preferences =>
      [mkApiMessage SystemRole
         (Plain (buildContextPrompt context preferences (customSystemPrompt settings)))]
  | Some context, None =>
      [mkApiMessage SystemRole
         (Plain (buildContextPrompt context defaultPreferences (customSystemPrompt settings)))]
  | None, _ =>
      match usablePrompt (customSystemPrompt settings) with
      | Some prompt => [mkApiMessage SystemRole (Plain prompt)]
      | None => []
      end
  end.

(** Step 6: the request body before [JSON.stringify]; a key that is not set
    is [None] ([stream] is set only when true). *)
Record RequestBody := mkBody {
  body_model : string;
  body_messages : list ApiMessage;
  body_temperature : option Q;
  body_thinking_budget : option Z;
  body_stream : bool
}.

(** What [fetch] is called with. *)
Record Prepared := mkPrepared {
  target : string;
  headers : list (string * string);
  body : RequestBody
}.

(** [x || d] for an optional non-empty string. *)
Definition orString (x : option string) (d : string) : string :=
  match x with
  | Some s => if JS.truthy s then s else d
  | None => d
  end.

(** Steps 1 to 8 of [callAI]: the error thrown, or the request.  Every
    provider of [DEFAULT_PROVIDERS] takes the key in the [Authorization]
    header. *)
Definition prepare (offline : bool) (stored : Storage) (request : AIRequestPayload)
  : Gateway.JsError + (Gateway.AIProvider * Prepared) :=
  if offline then
    inl (Gateway.Error "You are offline. Please check your internet connection.")
  else
    let settings := loadSettings stored in
    match List.find (fun m => String.eqb (model_id m) (activeModelId settings))
                    (models settings) with
    | None =>
        inl (Gateway.Error
               ("No active model selected (ID: " +:+ activeModelId settings
                +:+ "). Please go to Settings and select a model."))
    | Some activeModel =>
        if negb (enabled activeModel) then
          inl (Gateway.Error
                 ("Model " +:+ JS.dq +:+ displayName activeModel +:+ JS.dq
                  +:+ " is disabled. Please enable it or select another model."))
        else
          match List.find (fun p => String.eqb (Gateway.provider_id p) (providerId activeModel))
                          Gateway.DEFAULT_PROVIDERS with
          | None =>
              inl (Gateway.Error
                     ("Provider " +:+ JS.dq +:+ providerId activeModel +:+ JS.dq
                      +:+ " not found."))
          | Some provider =>
              let providerConfig := providers settings !! Gateway.provider_id provider in
              let apiKey := option_map apiKey providerConfig in
              let baseUrl :=
                orString (match providerConfig with
                          | Some config => customBaseUrl config
                          | None => None
                          end)
                         (Gateway.baseUrl provider) in
              if Gateway.requiresApiKey provider && negb (JS.truthy (orString apiKey ""))
              then
                inl (Gateway.Error
                       ("API key for " +:+ JS.dq +:+ Gateway.provider_name provider +:+ JS.dq
                        +:+ " is not configured. Please go to Settings and add your API key."))
              else
                inr (provider,
                     {| target := baseUrl;
                        headers :=
                          ("Content-Type", "application/json")
                          :: (if JS.truthy (orString apiKey "")
                              then [("Authorization", "Bearer " +:+ orString apiKey "")]
                              else []);
                        body :=
                          {| body_model := backendName activeModel;
                             body_messages :=
                               systemMessage request settings ++ map toApi (messages request);
                             body_temperature := temperature activeModel;
                             body_thinking_budget :=
                               match thinkingEnabled activeModel with
                               | Some true =>
                                   Some (Cache.orDefault (thinkingBudget activeModel) 10000)
                               | _ => None
                               end;
                             body_stream := stream request |} |})
          end
    end.

(** [callAI(request)]: the outcome, the request if one was made, and the
    calls and sleeps of the retry loop; [fetches k] is what the [k]-th [fetch]
    brings. *)
Definition callAI (offline : bool) (stored : Storage) (request : AIRequestPayload)
    (fetches : Z -> Gateway.FetchResult)
  : Gateway.Outcome string * option Prepared * list Gateway.Event :=
  match prepare offline stored request with
  | inl error => (Gateway.Rejected error, None, [])
  | inr (provider, prepared) =>
      let '(outcome, trace) :=
        Gateway.callAI (Gateway.provider_name provider) (stream request) fetches in
      (outcome, Some prepared, trace)
  end.

End Prompt.

(** *** [validateApiKey] *)

(** The model named in the test request. *)
Definition testModel (providerId : string) : string :=
  if String.eqb providerId "gemini" then "gemini-2.0-flash"
  else if String.eqb providerId "moonshot" || String.eqb providerId "moonshot-cn"
  then "kimi-k2.5"
  else if String.eqb providerId "jarvis" then "claude-4-5-sonnet"
  else if String.eqb providerId "openrouter" then "openai/gpt-4o-mini"
  else "gpt-4o-mini".

Record TestRequest := mkTest {
  test_target : string;
  test_authorization : string;
  test_model : string
}.

Record Validation := mkValidation {
  valid : bool;
  validation_error : option string
}.

(** [validateApiKey(providerId, apiKey)]: the answer, and the test request if
    one was made; [response] is what its [fetch] brings. *)
Definition validateApiKey (providerId apiKey : string) (response : Gateway.FetchResult)
  : Validation * option TestRequest :=
  match List.find (fun p => String.eqb (Gateway.provider_id p) providerId)
                  Gateway.DEFAULT_PROVIDERS with
  | None => (mkValidation false (Some "Provider not found"), None)
  | Some provider =>
      if negb (JS.truthy apiKey) || (JS.len (JS.trim apiKey) =? 0)
      then (mkValidation false (Some "API key is empty"), None)
      else
        let sent := Some (mkTest (Gateway.baseUrl provider) ("Bearer " +:+ apiKey)
                                 (testModel providerId)) in
        match response with
        | Gateway.FetchRejected error =>
            (mkValidation false
               (Some (if Gateway.isErrorObject error then Gateway.message error
                      else "Unknown error during validation")),
             sent)
        | Gateway.FetchResponse status text _ =>
            if (status =? 401) || (status =? 403)
            then (mkValidation false (Some "Invalid API key"), sent)
            else if Gateway.ok status || (status =? 400)
            then (mkValidation true None, sent)
            else (mkValidation false
                    (Some ("Validation failed: " +:+ pretty status +:+ " "
                           +:+ String.substring 0 100 text)),
                  sent)
        end
  end.

(** A request for experiments. *)
Definition hello : AIRequestPayload :=
  mkRequest [mkMessage "m1" User "hi" 0 None] None None false.

End ApiClient.
(* ===================================================================== *)
(** ** content/actionExecutor: every handler *)
(* ===================================================================== *)

Module Actions.

(** An [<option>] of a select element. *)
Record SelectOption := mkOption {
  option_value : string;
  option_text : string
}.

(** What the handlers ask of the DOM beyond the resolver: whether an element
    is an [HTMLInputElement] or [HTMLTextAreaElement], whether it is an
    [<input type="file">], the first [input] or [textarea] inside it, its
    options if it is an [HTMLSelectElement], and the element that has the
    focus. *)
Record Controls := mkControls {
  isInputField : Resolver.Element -> bool;
  isFileInput : Resolver.Element -> bool;
  innerInput : Resolver.Element -> option Resolver.Element;
  selectOptions : Resolver.Element -> option (list SelectOption);
  activeElement : option Resolver.Element
}.

(** How a handler ends: it returns a result, or it throws. *)
Inductive Completion :=
| Returned (result : ActionResult)
| Thrown (message : string).

(** The [catch] block of [executeAction], for an [Error] with [message]. *)
Definition settle (completion : Completion) : ActionResult :=
  match completion with
  | Returned result => result
  | Thrown message => failResult message
  end.

(** The message of the [InvalidStateError] thrown when the value of a file
    input is set to anything but the empty string. *)
Definition fileInputMessage : string :=
  "Failed to set the 'value' property on 'HTMLInputElement': This input element "
  +:+ "accepts a filename, which may only be programmatically set to the empty string.".

(** What a handler does to the page, in order. *)
Inductive Effect :=
| Highlight (el : Resolver.Element)
| ScrollIntoView (el : Resolver.Element)
| Pause (ms : Z)
| Click (el : Resolver.Element)
| Focus (el : Resolver.Element)
| SetValue (el : Resolver.Element) (value : string)
| Dispatch (el : Resolver.Element) (event : string)
| ScrollBy (top : Z)
| KeyDown (el : Resolver.Element) (key : string).

Definition ofClick (e : Executor.Effect) : Effect :=
  match e with
  | Executor.Highlight el => Highlight el
  | Executor.ScrollIntoView el => ScrollIntoView el
  | Executor.Pause ms => Pause ms
  | Executor.Click el => Click el
  end.

Definition notFound (what target : string) : ActionResult :=
  failResult (what +:+ JS.dq +:+ target +:+ JS.dq).

(** [smartFind(selector)], and if it finds nothing
    [await waitForElement(selector, 3000)]. *)
Definition findOrWait (p : Executor.Page) (selector : string) : option Resolver.Element :=
  match Resolver.smartFind (Executor.current p) selector None with
  | Some el => Some el
  | None => Executor.waitForElement p selector 3000
  end.

(** [executeType(selector, text, clearFirst?)].  A file input lets its value
    be set to the empty string only: [element.value = text] throws for any
    other text, after the element was highlighted, focused and, if asked,
    cleared. *)
Definition executeType (c : Controls) (p : Executor.Page) (selector text : string)
    (clearFirst : option bool) : Completion * list Effect :=
  match findOrWait p selector with
  | None => (Returned (notFound "Input not found: " selector), [])
  | Some found =>
      let element :=
        if isInputField c found then Some found else innerInput c found in
      match element with
      | None => (Returned (failResult "Element is not an input field"), [])
      | Some element =>
          let start :=
            [Highlight element; Focus element]
            ++ (match clearFirst with
                | Some true => [SetValue element ""]
                | _ => []
                end) in
          if isFileInput c element && JS.truthy text
          then (Thrown fileInputMessage, start)
          else (Returned okResult,
                start ++ [SetValue element text; Dispatch element "input";
                          Dispatch element "change"])
      end
  end.

(** [executeScroll(direction?, selector?)] *)
Definition executeScroll (p : Executor.Page) (direction : option Direction)
    (selector : option string) : ActionResult * list Effect :=
  let scrollPage :=
    let amount := match direction with Some Up => -400 | _ => 400 end in
    (okResult, [ScrollBy amount]) in
  match selector with
  | Some selector =>
      if JS.truthy selector then
        match Resolver.smartFind (Executor.current p) selector None with
        | Some element => (okResult, [Highlight element; ScrollIntoView element])
        | None => (notFound "Element not found: " selector, [])
        end
      else scrollPage
  | None => scrollPage
  end.

(** [executeWait(selector?, timeout?)] *)
Definition executeWait (p : Executor.Page) (selector : option string) (timeout : option Z)
  : ActionResult * list Effect :=
  let waitTime := Cache.orDefault timeout 2000 in
  let sleep := (okResult, [Pause waitTime]) in
  match selector with
  | Some selector =>
      if JS.truthy selector then
        match Executor.waitForElement p selector waitTime with
        | Some _ => (okResult, [])
        | None => (notFound "Element did not appear: " selector, [])
        end
      else sleep
  | None => sleep
  end.

(** [executeExtract(selector, attribute?)] *)
Definition executeExtract (p : Executor.Page) (selector : string) (attribute : option string)
  : ActionResult * list Effect :=
  match Resolver.smartFind (Executor.current p) selector None with
  | None => (notFound "Element not found: " selector, [])
  | Some element =>
      let fromText := JS.trim (Resolver.textContent element) in
      let data :=
        match attribute with
        | Some attribute =>
            if JS.truthy attribute
            then Resolver.orEmpty (Resolver.getAttribute element attribute)
            else fromText
        | None => fromText
        end in
      (mkResult true None (Some (DataText data)), [Highlight element])
  end.

(** [executeHover(selector)] *)
Definition executeHover (p : Executor.Page) (selector : string)
  : ActionResult * list Effect :=
  match Resolver.smartFind (Executor.current p) selector None with
  | None => (notFound "Element not found: " selector, [])
  | Some element =>
      (okResult,
       [Highlight element; Dispatch element "mouseenter"; Dispatch element "mouseover"])
  end.

(** The test of the option loop of [executeSelect]. *)
Definition optionMatches (value : string) (o : SelectOption) : bool :=
  String.eqb (option_value o) value
  || JS.includes (JS.toLowerCase (option_text o)) (JS.toLowerCase value).

(** [executeSelect(selector, value)] *)
Definition executeSelect (c : Controls) (p : Executor.Page) (selector value : string)
  : ActionResult * list Effect :=
  match Resolver.smartFind (Executor.current p) selector None with
  | None => (notFound "Element not found: " selector, [])
  | Some element =>
      match selectOptions c element with
      | None => (failResult "Element is not a select dropdown", [])
      | Some options =>
          match List.find (optionMatches value) options with
          | Some o =>
              (okResult,
               [Highlight element; SetValue element (option_value o);
                Dispatch element "change"])
          | None => (notFound "Option not found: " value, [Highlight element])
          end
      end
  end.

(** [executePressKey(key)] *)
Definition executePressKey (c : Controls) (key : string) : ActionResult * list Effect :=
  (okResult,
   match activeElement c with
   | Some element => [KeyDown element key]
   | None => []
   end).

(** [executeAction(action)] with what it does to the page.  Typing is the one
    handler that can throw; the [catch] block turns the exception into a
    failed result. *)
Definition executeAction (c : Controls) (p : Executor.Page) (action : BrowserAction)
  : ActionResult * list Effect :=
  match action with
  | ANavigate url => (Executor.executeNavigate url, [])
  | AClick selector text =>
      let '(result, effects) := Executor.executeClick p selector text in
      (result, map ofClick effects)
  | AType selector text clearFirst =>
      let '(completion, effects) := executeType c p selector text clearFirst in
      (settle completion, effects)
  | AScroll direction selector => executeScroll p direction selector
  | AWait selector timeout => executeWait p selector timeout
  | AExtract selector attribute => executeExtract p selector attribute
  | AHover selector => executeHover p selector
  | ASelect selector value => executeSelect c p selector value
  | APressKey key => executePressKey c key
  | ADone summary => (mkResult true None (Some (DataSummary summary)), [])
  end.

(** The element an action is aimed at, and the words in front of it in the
    message when it is not found. *)
Definition target (action : BrowserAction) : option (string * string) :=
  match action with
  | AClick selector text =>
      Some ("Element not found: ",
            match text with
            | Some t => if JS.truthy t then t else selector
            | None => selector
            end)
  | AType selector _ _ => Some ("Input not found: ", selector)
  | AScroll _ (Some selector) =>
      if JS.truthy selector then Some ("Element not found: ", selector) else None
  | AWait (Some selector) _ =>
      if JS.truthy selector then Some ("Element did not appear: ", selector) else None
  | AExtract selector _ => Some ("Element not found: ", selector)
  | AHover selector => Some ("Element not found: ", selector)
  | ASelect selector _ => Some ("Element not found: ", selector)
  | _ => None
  end.

(** The action looks at the page as it is when it starts, and never
    waits. *)
Definition looksOnce (action : BrowserAction) : bool :=
  match action with
  | AClick _ _ | AType _ _ _ => false
  | AWait (Some selector) _ => negb (JS.truthy selector)
  | _ => true
  end.

(** The target is nowhere: not in the document at the start, in none of the
    documents seen while waiting, not in the document at the timeout. *)
Definition nowhere (p : Executor.Page) (selector : string) : Prop :=
  Resolver.smartFind (Executor.current p) selector None = None
  /\ forall timeout,
       Resolver.smartFind (Executor.atTimeout p timeout) selector None = None
       /\ forall d, In d (Executor.duringWait p timeout) ->
                    Resolver.smartFind d selector None = None.

(** Controls for experiments: no input fields, no selects, no focus. *)
Definition bare : Controls :=
  mkControls (fun _ => false) (fun _ => false) (fun _ => None) (fun _ => None) None.

(** A page with a file input, and controls that know it. *)
Definition uploadField : Resolver.Element :=
  Resolver.shown 3 "INPUT" [("type", "file"); ("aria-label", "Attachment")] "".

Definition uploadPage : Executor.Page :=
  Executor.still (Resolver.sampleDocument [uploadField]).

Definition uploadControls : Controls :=
  mkControls (fun _ => true) (fun _ => true) (fun _ => None) (fun _ => None) None.

End Actions.
(* ===================================================================== *)
(** ** backend/pageContextBridge.ts: page context through the cache *)
(* ===================================================================== *)

Module Bridge.

(** [chrome.tabs.Tab]: the fields the bridge reads. *)
Record Tab := mkTab {
  tab_id : option Z;
  tab_url : option string;
  tab_title : option string
}.

(** What [chrome.tabs.sendMessage] brings within the 5 seconds of the race:
    the response of the content script (possibly null), or a rejection (no
    content script, or the timeout). *)
Inductive ScriptReply :=
| Replied (response : option PageContext)
| NoReply.

(** What [chrome.scripting.executeScript] brings: the result of the injected
    function in the first frame, or a rejection. *)
Inductive Injection :=
| Injected (result : option string)
| InjectionFailed.

(** The browser around one call: the active tab, the reply of the content
    script, the outcome of the injection, and what [chrome.tabs.get] gives
    ([None] when it rejects). *)
Record Browser := mkBrowser {
  activeTab : option Tab;
  scriptReply : ScriptReply;
  injection : Injection;
  tabsGet : option Tab
}.

(** What the bridge asks of the tab. *)
Inductive Event :=
| SendMessage (tabId : Z) (quality : Content.Quality) (includeHtml : bool)
| ExecuteScript (tabId : Z) (quality : Content.Quality).

Definition orEmpty (x : option string) : string := ApiClient.orString x "".

(** A context with a url, a title and a text only. *)
Definition plain (url title text : string) : PageContext :=
  mkContext url title (Some text) None.

(** [getBasicPageContext()] *)
Definition getBasicPageContext (b : Browser) : option PageContext :=
  match activeTab b with
  | Some tab =>
      Some (plain (orEmpty (tab_url tab)) (orEmpty (tab_title tab))
                  "(Loading page content...)")
  | None => None
  end.

(** [extractContentDirectly(tabId, quality)]; [None] when it throws, which it
    does when [chrome.tabs.get] rejects. *)
Definition extractContentDirectly (b : Browser) : option PageContext :=
  match tabsGet b with
  | None => None
  | Some tab =>
      match injection b with
      | Injected result =>
          Some (plain (orEmpty (tab_url tab)) (orEmpty (tab_title tab))
                      (ApiClient.orString result "(Could not extract content)"))
      | InjectionFailed =>
          Some (plain (orEmpty (tab_url tab)) (orEmpty (tab_title tab))
                  "(Could not access page content - extension may not have permission)")
      end
  end.

(** [x && x.length > 100] and [!x || x.length < 100] for the text of a
    context. *)
Definition usable (context : PageContext) : bool :=
  ApiClient.longerThan 100 (mainContentSnippet context).

Definition tooShort (context : PageContext) : bool :=
  match mainContentSnippet context with
  | Some text => negb (JS.truthy text) || (JS.len text <? 100)
  | None => true
  end.

(** The middle of [requestPageContextFromActiveTab]: the content script is
    asked, and the direct extraction stands in when it brings nothing usable.
    [None] when the direct extraction throws. *)
Definition fetchContext (b : Browser) (tabId : Z) (quality : Content.Quality)
    (includeHtml : bool) : option PageContext * list Event :=
  let asked := [SendMessage tabId quality includeHtml] in
  let context :=
    match scriptReply b with
    | Replied (Some response) => if usable response then Some response else None
    | _ => None
    end in
  match context with
  | Some context =>
      if tooShort context
      then (extractContentDirectly b, asked ++ [ExecuteScript tabId quality])
      else (Some context, asked)
  | None => (extractContentDirectly b, asked ++ [ExecuteScript tabId quality])
  end.

Definition isInternal (url : string) : bool :=
  JS.startsWith url "chrome://" || JS.startsWith url "chrome-extension://".

(** [requestPageContextFromActiveTab({forceRefresh, quality, includeHtml})],
    for [includeScreenshot: false], its default and its value in every call of
    the extension: the context returned ([None] for undefined), the cache
    afterwards, and what was asked of the tab. *)
Definition requestPageContextFromActiveTab (forceRefresh : bool)
    (quality : Content.Quality) (includeHtml : bool) (b : Browser) (s : Cache.State)
  : option PageContext * Cache.State * list Event :=
  match activeTab b with
  | None => (None, s, [])
  | Some tab =>
      match tab_id tab with
      | None => (None, s, [])
      | Some tabId =>
          if tabId =? 0 then (None, s, [])
          else
            let url := orEmpty (tab_url tab) in
            if isInternal url then
              (Some (plain url (ApiClient.orString (tab_title tab) "Chrome Internal Page")
                           "(Cannot access content from chrome internal pages)"),
               s, [])
            else
              let '(cached, s) :=
                if forceRefresh then (None, s) else Cache.get url tabId (Some 30000) s in
              match cached with
              | Some cached => (Some cached, s, [])
              | None =>
                  match fetchContext b tabId quality includeHtml with
                  | (Some context, events) =>
                      (Some context, Cache.set context tabId (Some 30000) s, events)
                  | (None, events) =>
                      (Some (plain (orEmpty (tab_url tab)) (orEmpty (tab_title tab))
                                   "(Could not access page content)"),
                       s, events)
                  end
              end
      end
  end.

(** [clearContextCache()] *)
Definition clearContextCache (s : Cache.State) : Cache.State := Cache.clearAll s.

(** A browser for experiments: tab 7 on example.com, whose content script
    answers with a long text. *)
Definition longText : string :=
  "This page explains, at some length, how the side panel gathers the text of "
  +:+ "the page in front of it before it asks the model anything at all.".

Definition sampleReply : PageContext :=
  mkContext "https://example.com/" "Example" (Some longText) (Some "h1").

Definition sampleBrowser : Browser :=
  mkBrowser (Some (mkTab (Some 7) (Some "https://example.com/") (Some "Example")))
            (Replied (Some sampleReply)) InjectionFailed None.

End Bridge.
(* ===================================================================== *)
(** ** Predicates on what the reader has seen *)
(* ===================================================================== *)

Module ParserUse.
Import Parser.

Definition isObjectValue (v : JValue) : bool :=
  match v with JObject _ => true | _ => false end.

(** A token that is not an opening brace (a scalar token never holds an
    object; the predicate says so, to be kept along the reader). *)
Definition braceFree (t : Token) : bool :=
  match t with
  | LBrace => false
  | Scalar v => negb (isObjectValue v)
  | _ => true
  end.

Definition wordFree (mode : Mode) : bool :=
  match mode with
  | Word _ v => negb (isObjectValue v)
  | _ => true
  end.

(** Only arrays are open. *)
Definition inArrays (stack : list Frame) : bool :=
  forallb (fun f => match f with InArray _ => true | InObject _ _ => false end) stack.

(** A state of the reader in which no object is open or finished. *)
Definition objectFree (st : PState) : bool :=
  match st with
  | Value stack | ArrayOpen stack | ArrayNext _ stack => inArrays stack
  | Finished v => negb (isObjectValue v)
  | _ => false
  end.


End ParserUse.

(* ===================================================================== *)
(** * Properties *)
(* ===================================================================== *)

(* ===================================================================== *)
(** ** Properties of the agent state *)
(* ===================================================================== *)

Section AgentStateFacts.
Import AgentService.

Lemma runSteps_snoc s sts st :
  runSteps s (sts ++ [st]) = addStep (runSteps s sts) st.
Proof. unfold runSteps. now rewrite fold_left_app. Qed.

Lemma runSteps_steps s sts : steps (runSteps s sts) = steps s ++ sts.
Proof.
  revert s. induction sts as [|st sts IH]; intros s; simpl.
  - now rewrite app_nil_r.
  - rewrite IH. simpl. now rewrite <- app_assoc.
Qed.

Lemma runSteps_stepCount s sts :
  stepCount (runSteps s sts) = stepCount s + Z.of_nat (length sts).
Proof.
  revert s. induction sts as [|st sts IH]; intros s.
  - simpl. lia.
  - change (runSteps s (st :: sts)) with (runSteps (addStep s st) sts).
    rewrite IH. cbn [addStep stepCount length]. lia.
Qed.

End AgentStateFacts.

(** C9.  [createAgentState] starts with no steps and a zero counter; [addStep]
    appends exactly the given step and adds exactly one to the counter,
    whatever the step's result is; so the difference between the counter and
    the number of steps never changes, every state built from a created one
    has [stepCount = length steps], and the counter never decreases.  The run
    loop records an executed step the same way, whatever the action's result:
    one more step, and a counter equal to the new number of steps. *)
Theorem C9_stepCount_matches_steps :
  (forall task cfg now,
      steps (AgentService.createAgentState task cfg now) = []
      /\ stepCount (AgentService.createAgentState task cfg now) = 0)
  /\ (forall s st,
      steps (AgentService.addStep s st) = steps s ++ [st]
      /\ stepCount (AgentService.addStep s st) = stepCount s + 1
      /\ stepCount (AgentService.addStep s st)
           - Z.of_nat (length (steps (AgentService.addStep s st)))
         = stepCount s - Z.of_nat (length (steps s)))
  /\ (forall task cfg now sts,
      let s := AgentService.runSteps (AgentService.createAgentState task cfg now) sts in
      steps s = sts /\ stepCount s = Z.of_nat (length (steps s)))
  /\ (forall s sts sts',
      stepCount (AgentService.runSteps s sts)
        <= stepCount (AgentService.runSteps s (sts ++ sts')))
  /\ (forall step actionResult r run,
      let run' := fst (Controller.record step actionResult r run) in
      Controller.currentSteps run'
      = Controller.currentSteps run ++ [Controller.withResult step actionResult]
      /\ steps (Controller.agentState run') = Controller.currentSteps run'
      /\ stepCount (Controller.agentState run')
         = Z.of_nat (length (Controller.currentSteps run)) + 1
      /\ stepCount (Controller.agentState run')
         = Z.of_nat (length (steps (Controller.agentState run')))).
Proof.
  split; [|split; [|split; [|split]]].
  - intros; split; reflexivity.
  - intros s st. cbn. rewrite length_app. cbn. repeat split; lia.
  - intros task cfg now sts s. subst s.
    rewrite runSteps_stepCount, runSteps_steps. cbn. split; [reflexivity | lia].
  - intros s sts sts'. rewrite !runSteps_stepCount, length_app. lia.
  - intros step actionResult r run run'. subst run'. unfold Controller.record.
    destruct (Controller.contextReply r); cbn;
      rewrite length_app; cbn; repeat split; lia.
Qed.
(* ===================================================================== *)
(** ** Properties of the token-budget packer *)
(* ===================================================================== *)

Section PackerFacts.
Import Extractor.

Lemma totalTokensOf_cons c cs :
  totalTokensOf (c :: cs) = tokens c + totalTokensOf cs.
Proof. reflexivity. Qed.

(** The selection is a prefix of the input, and the chunk after it, if any,
    is the one that failed the test. *)
Lemma selectChunks_prefix chunks maxTokens t :
  exists rest,
    chunks = selectChunks chunks maxTokens t ++ rest
    /\ match rest with
       | [] => True
       | c :: _ =>
           maxTokens < t + totalTokensOf (selectChunks chunks maxTokens t) + tokens c
       end.
Proof.
  revert t. induction chunks as [|c cs IH]; intros t; cbn.
  - exists []. split; [reflexivity | exact I].
  - destruct (Z.leb_spec (t + tokens c) maxTokens) as [Hfit|Hover].
    + destruct (IH (t + tokens c)) as [rest [Heq Hnext]].
      exists rest. split.
      * cbn. now rewrite <- Heq.
      * destruct rest; [exact I|]. rewrite totalTokensOf_cons. lia.
    + exists (c :: cs). split; [reflexivity|]. cbn. lia.
Qed.

(** Every chunk was accepted with the running total within the budget. *)
Lemma selectChunks_running chunks maxTokens t k :
  (1 <= k <= length (selectChunks chunks maxTokens t))%nat ->
  t + totalTokensOf (firstn k (selectChunks chunks maxTokens t)) <= maxTokens.
Proof.
  revert t k. induction chunks as [|c cs IH]; intros t k Hk; cbn in Hk; [lia|].
  cbn [selectChunks].
  destruct (Z.leb_spec (t + tokens c) maxTokens) as [Hfit|Hover]; cbn in Hk; [|lia].
  destruct k as [|k]; [lia|].
  rewrite firstn_cons, totalTokensOf_cons.
  destruct k as [|k].
  { rewrite firstn_O. change (totalTokensOf []) with 0. lia. }
  specialize (IH (t + tokens c) (S k) ltac:(lia)). lia.
Qed.

End PackerFacts.

Example packer_budget_300 :
  map Extractor.priority (Extractor.selectChunks Extractor.sampleChunks 300 0) = [90; 80]
  /\ Extractor.totalTokensOf (Extractor.selectChunks Extractor.sampleChunks 300 0) = 220.
Proof. split; reflexivity. Qed.

(** C6.  For every chunk list and every budget [maxTokens], the chunks
    chosen by [buildOptimizedContent] are a prefix of the given list (given
    order, nothing skipped, nothing taken after the first chunk that does not
    fit); the chunk right after the prefix, if there is one, would push the
    total over the budget; every chunk was appended with the running total
    within the budget; so the summed token estimate of a non-empty selection
    is at most [maxTokens], and so is that of the empty selection when the
    budget is not negative; and the returned text is built from exactly this
    selection. *)
Theorem C6_packer_greedy_prefix (chunks : list Extractor.ContentChunk) (maxTokens : Z) :
  let selected := Extractor.selectChunks chunks maxTokens 0 in
  (exists rest,
      chunks = selected ++ rest
      /\ match rest with
         | [] => True
         | c :: _ => maxTokens < Extractor.totalTokensOf selected + Extractor.tokens c
         end)
  /\ (forall k, (1 <= k <= length selected)%nat ->
                Extractor.totalTokensOf (firstn k selected) <= maxTokens)
  /\ (selected <> [] -> Extractor.totalTokensOf selected <= maxTokens)
  /\ (0 <= maxTokens -> Extractor.totalTokensOf selected <= maxTokens)
  /\ Extractor.buildOptimizedContent chunks maxTokens
     = JS.trim (Extractor.renderChunks selected None "").
Proof.
  intros selected.
  assert (Hfull : selected <> [] -> Extractor.totalTokensOf selected <= maxTokens).
  { intros Hne.
    pose proof (selectChunks_running chunks maxTokens 0 (length selected)) as H.
    fold selected in H. rewrite firstn_all in H.
    destruct selected; [congruence|]. cbn [length] in H. lia. }
  split; [|split; [|split; [|split]]].
  - destruct (selectChunks_prefix chunks maxTokens 0) as [rest [Heq Hnext]].
    exists rest. split; [exact Heq|]. destruct rest; [exact I | exact Hnext].
  - intros k Hk.
    pose proof (selectChunks_running chunks maxTokens 0 k Hk) as H. exact H.
  - exact Hfull.
  - intros Hbudget. destruct selected as [|c cs] eqn:Hsel; [exact Hbudget|].
    apply Hfull. discriminate.
  - reflexivity.
Qed.

(** The packer on the sample: budget 300 keeps the first two chunks (220
    tokens); the third (90 tokens) does not fit and the later 30-token chunk is
    not taken in its place. *)
Lemma C6_packer_witness :
  0 <= 300
  /\ Extractor.selectChunks Extractor.sampleChunks 300 0
     = firstn 2 Extractor.sampleChunks
  /\ Extractor.totalTokensOf (Extractor.selectChunks Extractor.sampleChunks 300 0) <= 300.
Proof.
  split; [lia|]. split; [reflexivity|].
  exact (proj1 (proj2 (proj2 (proj2
    (C6_packer_greedy_prefix Extractor.sampleChunks 300)))) ltac:(lia)).
Defined.
(* ===================================================================== *)
(** ** Properties of the context cache *)
(* ===================================================================== *)

Section CacheFacts.
Import Cache.

Lemma orDefault_positive ttl d : 0 < ttl -> orDefault (Some ttl) d = ttl.
Proof. intros H. cbn. destruct (Z.eqb_spec ttl 0); [lia | reflexivity]. Qed.

(** The timer never waits longer than asked, and waits as asked for a delay
    below 2^31. *)
Lemma timerDelay_nonneg d : 0 <= timerDelay d.
Proof. unfold timerDelay. lia. Qed.

Lemma timerDelay_le d : 0 <= d -> timerDelay d <= d.
Proof.
  intros H. unfold timerDelay.
  pose proof (Z.mod_le (d + 2 ^ 31) (2 ^ 32) ltac:(lia) ltac:(lia)). lia.
Qed.

Lemma timerDelay_in_range d : 0 <= d < 2 ^ 31 -> timerDelay d = d.
Proof.
  intros H. unfold timerDelay. rewrite Z.mod_small by lia. lia.
Qed.

(** From 2^31 to 2^32 - 1 the timer does not wait at all. *)
Lemma timerDelay_overflow d : 2 ^ 31 <= d < 2 ^ 32 -> timerDelay d = 0.
Proof.
  intros H. unfold timerDelay.
  replace (d + 2 ^ 31) with (d - 2 ^ 31 + 1 * 2 ^ 32) by lia.
  rewrite Z.mod_add by lia. rewrite Z.mod_small by lia. lia.
Qed.

(** Firing timers only deletes: it leaves timers and clock alone. *)
Lemma fire_all_frame l st :
  timers (fold_left (fun st t => fire t st) l st) = timers st
  /\ clock (fold_left (fun st t => fire t st) l st) = clock st.
Proof.
  revert st. induction l as [|t l IH]; intros st; cbn; [easy|].
  destruct (IH (fire t st)) as [Ht Hc]. rewrite Ht, Hc. easy.
Qed.

Lemma fire_all_absent l st k :
  cache st !! k = None ->
  cache (fold_left (fun st t => fire t st) l st) !! k = None.
Proof.
  revert st. induction l as [|t l IH]; intros st H; cbn; [exact H|].
  apply IH. cbn. rewrite lookup_delete. case_decide; [reflexivity | exact H].
Qed.

Lemma fire_all_deletes l st t :
  In t l -> cache (fold_left (fun st t => fire t st) l st) !! timerKey t = None.
Proof.
  revert st. induction l as [|t' l IH]; intros st Hin; [destruct Hin|].
  destruct Hin as [->|Hin]; cbn.
  - apply fire_all_absent. cbn. apply lookup_delete_eq.
  - now apply IH.
Qed.

Lemma fire_all_other l st k :
  (forall t, In t l -> timerKey t <> k) ->
  cache (fold_left (fun st t => fire t st) l st) !! k = cache st !! k.
Proof.
  revert st. induction l as [|t l IH]; intros st H; cbn; [reflexivity|].
  rewrite IH by (intros t' Ht'; apply H; now right).
  cbn. apply lookup_delete_ne. apply H. now left.
Qed.



Lemma isDue_false onTime now t : isDue onTime now t = false -> now <= due t.
Proof.
  unfold isDue. destruct onTime; intros H; [apply Z.leb_gt in H | apply Z.ltb_ge in H]; lia.
Qed.

Lemma isDue_true onTime now t : isDue onTime now t = true -> due t <= now.
Proof.
  unfold isDue. destruct onTime; intros H; [apply Z.leb_le in H | apply Z.ltb_lt in H]; lia.
Qed.

Lemma advance_clock onTime dt s : clock (advance onTime dt s) = clock s + Z.max 0 dt.
Proof. unfold advance. now rewrite (proj2 (fire_all_frame _ _)). Qed.

Lemma advance_timers onTime dt s :
  timers (advance onTime dt s)
  = List.filter (fun t => negb (isDue onTime (clock s + Z.max 0 dt) t)) (timers s).
Proof. unfold advance. now rewrite (proj1 (fire_all_frame _ _)). Qed.

Lemma advance_absent onTime dt s k :
  cache s !! k = None -> cache (advance onTime dt s) !! k = None.
Proof. intros H. unfold advance. now apply fire_all_absent. Qed.

(** A pending timer that is due runs. *)
Lemma advance_fires onTime dt s t :
  In t (timers s) -> isDue onTime (clock s + Z.max 0 dt) t = true ->
  cache (advance onTime dt s) !! timerKey t = None.
Proof.
  intros Hin Hdue. unfold advance. apply fire_all_deletes.
  apply filter_In. split; [exact Hin | exact Hdue].
Qed.

(** A timer that is not due stays pending. *)
Lemma advance_keeps onTime dt s t :
  In t (timers s) -> isDue onTime (clock s + Z.max 0 dt) t = false ->
  In t (timers (advance onTime dt s)).
Proof.
  intros Hin Hlt. rewrite advance_timers. apply filter_In. split; [exact Hin|].
  now rewrite Hlt.
Qed.

(** No timer for [k] is due: the entry under [k] is left alone. *)
Lemma advance_other onTime dt s k :
  (forall t, In t (timers s) -> timerKey t = k ->
             isDue onTime (clock s + Z.max 0 dt) t = false) ->
  cache (advance onTime dt s) !! k = cache s !! k.
Proof.
  intros H. unfold advance. rewrite fire_all_other; [reflexivity|].
  intros t Ht Hk. apply filter_In in Ht as [Hin Hdue].
  specialize (H t Hin Hk). congruence.
Qed.

Lemma get_frame u t m s :
  timers (snd (get u t m s)) = timers s /\ clock (snd (get u t m s)) = clock s.
Proof.
  unfold get. destruct (cache s !! getCacheKey u t); [|easy].
  destruct (_ <? _); easy.
Qed.

Lemma get_absent u t m s k :
  cache s !! k = None -> cache (snd (get u t m s)) !! k = None.
Proof.
  intros H. unfold get. destruct (cache s !! getCacheKey u t); [|exact H].
  destruct (_ <? _); [|exact H]. cbn.
  rewrite lookup_delete. case_decide; [reflexivity | exact H].
Qed.

Lemma hasChanged_snd u t h s : snd (hasChanged u t h s) = snd (get u t None s).
Proof.
  unfold hasChanged. destruct (get u t None s) as [[c|] s']; [|reflexivity].
  destruct (hash c) as [x|]; [|reflexivity]. now destruct (JS.truthy x).
Qed.

Lemma step_guarded key t0 o st :
  timerKey t0 = key -> storesNot key o -> guarded key t0 st -> guarded key t0 (step o st).
Proof.
  intros Hkey Hst Hinv. destruct o as [c t ttl|u t m|u t|t| |u t h|onTime dt]; cbn [step].
  - destruct Hinv as [Hnone|[Hin Hlt]].
    + left. cbn. cbn in Hst. now rewrite lookup_insert_ne.
    + right. cbn. split; [apply in_or_app; now left | exact Hlt].
  - destruct (get_frame u t m st) as [Ht Hc].
    destruct Hinv as [Hnone|[Hin Hlt]].
    + left. now apply get_absent.
    + right. now rewrite Ht, Hc.
  - destruct Hinv as [Hnone|Hp]; [left | right; exact Hp].
    cbn. rewrite lookup_delete. case_decide; [reflexivity | exact Hnone].
  - destruct Hinv as [Hnone|Hp]; [left | right; exact Hp].
    cbn. apply map_lookup_filter_None. now left.
  - left. cbn. apply lookup_empty.
  - rewrite hasChanged_snd. destruct (get_frame u t None st) as [Ht Hc].
    destruct Hinv as [Hnone|[Hin Hlt]].
    + left. now apply get_absent.
    + right. now rewrite Ht, Hc.
  - destruct Hinv as [Hnone|[Hin Hlt]].
    + left. now apply advance_absent.
    + destruct (isDue onTime (clock st + Z.max 0 dt) t0) eqn:Hdue.
      * left. rewrite <- Hkey. now apply advance_fires.
      * right. split; [now apply advance_keeps|].
        rewrite advance_clock. now apply isDue_false in Hdue.
Qed.

Lemma run_guarded key t0 ops st :
  timerKey t0 = key -> Forall (storesNot key) ops ->
  guarded key t0 st -> guarded key t0 (run ops st).
Proof.
  intros Hkey Hops. revert st.
  induction Hops as [|o ops Ho Hops IH]; intros st Hinv; [exact Hinv|].
  cbn. apply IH. now apply step_guarded.
Qed.

End CacheFacts.

Example cache_scenario_ttl_1000 :
  fst (Cache.get "https://example.com/" 7 None
         (Cache.advance true 1500
            (Cache.set Cache.sampleContext 7 (Some 1000) (Cache.empty 0))))
  = None.
Proof. vm_compute. reflexivity. Qed.

(** Without the timer, [get] alone keeps serving the entry: its limit is the
    default TTL, not the TTL given to [set]. *)
Example cache_get_limit_is_default :
  let s := Cache.set Cache.sampleContext 7 (Some 1000) (Cache.empty 0) in
  fst (Cache.get "https://example.com/" 7 None
         (Cache.mkCache (Cache.cache s) (Cache.timers s) 1500))
  = Some Cache.sampleContext.
Proof. vm_compute. reflexivity. Qed.

(** C2, as stated, fails for a TTL of 0: [set] turns it into the default TTL
    (and so does [get] with no [maxAge]), so one millisecond later, when the
    age 1 exceeds the TTL 0 given to [set], [get] still returns the
    observation. *)
Lemma C2_counterexample_ttl_zero :
  let s1 := Cache.set Cache.sampleContext 7 (Some 0) (Cache.empty 0) in
  let s2 := Cache.advance true 1 s1 in
  0 < Cache.clock s2 - Cache.clock s1
  /\ fst (Cache.get (url Cache.sampleContext) 7 None s2) = Some Cache.sampleContext.
Proof. vm_compute. split; reflexivity. Qed.

(** C2 (amended). After [set(observation, tabId, ttl)] with [ttl > 0], let the
    clients make any calls that do not store under the same key again, and let
    time pass, timers running when they are due.  Once the age of the entry
    exceeds [ttl], [get(url, tabId)] with no [maxAge] returns null and the
    entry is absent afterwards. *)
Theorem C2_get_after_ttl_returns_null
    (s : Cache.State) (observation : PageContext) (tabId ttl : Z) (ops : list Cache.Op) :
  0 < ttl ->
  Forall (Cache.storesNot (Cache.getCacheKey (url observation) tabId)) ops ->
  ttl < Cache.clock (Cache.run ops (Cache.set observation tabId (Some ttl) s))
        - Cache.clock (Cache.set observation tabId (Some ttl) s) ->
  Cache.get (url observation) tabId None
            (Cache.run ops (Cache.set observation tabId (Some ttl) s))
  = (None, Cache.run ops (Cache.set observation tabId (Some ttl) s))
  /\ Cache.cache (Cache.run ops (Cache.set observation tabId (Some ttl) s))
       !! Cache.getCacheKey (url observation) tabId = None.
Proof.
  intros Httl Hops Hage.
  set (key := Cache.getCacheKey (url observation) tabId) in *.
  set (s1 := Cache.set observation tabId (Some ttl) s) in *.
  set (t0 := Cache.mkTimer (Cache.clock s + Cache.timerDelay ttl) (url observation) tabId).
  pose proof (timerDelay_nonneg ttl) as Hwait.
  pose proof (timerDelay_le ttl ltac:(lia)) as Hearly.
  assert (Hinv : Cache.guarded key t0 (Cache.run ops s1)).
  { apply run_guarded; [reflexivity | exact Hops |].
    right. split.
    - subst s1. unfold Cache.set. cbn [Cache.timers]. apply in_or_app. right.
      rewrite orDefault_positive by exact Httl. now left.
    - subst s1 t0. cbn [Cache.set Cache.clock Cache.due]. lia. }
  assert (Hnone : Cache.cache (Cache.run ops s1) !! key = None).
  { destruct Hinv as [Hnone|[_ Hlt]]; [exact Hnone|].
    subst s1 t0. cbn [Cache.set Cache.clock Cache.due] in Hlt, Hage. lia. }
  split; [|exact Hnone].
  unfold Cache.get. fold key. now rewrite Hnone.
Qed.

(** The scenario of the specification: TTL 1000 ms, read at age 1500 ms. *)
Lemma C2_witness_ttl_1000_age_1500 :
  Cache.get (url Cache.sampleContext) 7 None
            (Cache.run [Cache.OAdvance true 1500]
               (Cache.set Cache.sampleContext 7 (Some 1000) (Cache.empty 0)))
  = (None, Cache.run [Cache.OAdvance true 1500]
             (Cache.set Cache.sampleContext 7 (Some 1000) (Cache.empty 0)))
  /\ Cache.cache (Cache.run [Cache.OAdvance true 1500]
                    (Cache.set Cache.sampleContext 7 (Some 1000) (Cache.empty 0)))
       !! Cache.getCacheKey (url Cache.sampleContext) 7 = None.
Proof.
  apply (C2_get_after_ttl_returns_null (Cache.empty 0) Cache.sampleContext 7 1000
           [Cache.OAdvance true 1500]).
  - lia.
  - repeat constructor.
  - vm_compute. reflexivity.
Defined.



(* ===================================================================== *)
(** ** Properties of the retry loop of the model gateway *)
(* ===================================================================== *)

Section StringFacts.

Lemma append_nil_l s : "" +:+ s = s.
Proof. reflexivity. Qed.

Lemma append_cons x p s : String x p +:+ s = String x (p +:+ s).
Proof. reflexivity. Qed.




End StringFacts.

Section RetryFacts.
Import Gateway.
Context {T : Type}.



End RetryFacts.

Section ClassificationFacts.
Import Gateway.








End ClassificationFacts.

Example retry_stops_on_abort :
  Gateway.callAI "OpenAI" false (fun _ => Gateway.FetchRejected Gateway.AbortError)
  = (Gateway.Rejected (Gateway.Error "Request cancelled by user"), [Gateway.Call 0]).
Proof. reflexivity. Qed.

Example retry_until_success :
  Gateway.callAI "OpenAI" false
    (fun k => if k <? 2 then Gateway.FetchResponse 503 "busy" None
              else Gateway.FetchResponse 200 "" (Some "hello"))
  = (Gateway.Resolved "hello",
     [Gateway.Call 0; Gateway.Sleep 1000; Gateway.Call 1; Gateway.Sleep 2000; Gateway.Call 2]).
Proof. vm_compute. reflexivity. Qed.

(** The message that [callAI] builds for a 401 response does not contain the
    status code, so the guard, which looks for 401 and 403 in the message, does
    not take it for an authentication failure. *)
Example auth_message_passes_guard :
  Gateway.request "OpenAI" false (Gateway.FetchResponse 401 "" None)
  = Gateway.Rejected (Gateway.Error "Authentication failed: Invalid API key for OpenAI")
  /\ Gateway.final (Gateway.request "OpenAI" false (Gateway.FetchResponse 401 "" None)) = false.
Proof. split; reflexivity. Qed.



(* ===================================================================== *)
(** ** Properties of the element resolver *)
(* ===================================================================== *)

Section ResolverFacts.
Import Resolver.

Lemma Qeqb_false a b : Qeqb a b = false -> ~ (a == b)%Q.
Proof.
  unfold Qeqb. intros H Heq. apply Qeq_bool_iff in Heq. congruence.
Qed.

Lemma eqb_false_neq a b : String.eqb a b = false -> a <> b.
Proof. intros H. now apply String.eqb_neq. Qed.

(** What [isVisible] checks. *)
Lemma isVisible_true el :
  isVisible el = true ->
  ~ (width el == 0)%Q /\ ~ (height el == 0)%Q
  /\ display el <> "none" /\ visibility el <> "hidden" /\ opacity el <> "0"
  /\ (offsetParent el = true \/ tagName el = "BODY" \/ tagName el = "HTML").
Proof.
  unfold isVisible. intros H.
  destruct (negb (offsetParent el) && negb (tagName el =? "BODY")%string
            && negb (tagName el =? "HTML")%string) eqn:Hbox; [discriminate|].
  destruct ((display el =? "none")%string || (visibility el =? "hidden")%string
            || (opacity el =? "0")%string) eqn:Hstyle; [discriminate|].
  destruct (Qeqb (width el) 0 || Qeqb (height el) 0) eqn:Hrect; [discriminate|].
  apply orb_false_iff in Hrect as [Hw Hh].
  apply orb_false_iff in Hstyle as [Hstyle Ho].
  apply orb_false_iff in Hstyle as [Hd Hv].
  repeat split.
  - now apply Qeqb_false.
  - now apply Qeqb_false.
  - now apply eqb_false_neq.
  - now apply eqb_false_neq.
  - now apply eqb_false_neq.
  - destruct (offsetParent el); [now left|]. right. cbn in Hbox.
    destruct (String.eqb_spec (tagName el) "BODY") as [Hb|_]; [now left|].
    destruct (String.eqb_spec (tagName el) "HTML") as [Hh'|_]; [now right|].
    discriminate.
Qed.

(** The test at the end of the strategy loop. *)
Lemma firstAccepted_visible results el :
  firstAccepted true results = Some el -> isVisible el = true.
Proof.
  induction results as [|[e|] rest IH]; cbn; intros H; [discriminate| |now apply IH].
  destruct (isVisible e) eqn:Hv; [|now apply IH].
  now injection H as <-.
Qed.

(** *** The score *)




Lemma split_ws_aux_length s cur inws : (1 <= length (JS.split_ws_aux s cur inws))%nat.
Proof.
  revert cur inws. induction s as [|c s IH]; intros cur inws; cbn; [lia|].
  destruct (JS.isWhiteSpace c); [destruct inws|]; cbn; try apply IH.
  pose proof (IH [] true). lia.
Qed.

Lemma matchedWords_le sw tw : (matchedWords sw tw <= length sw)%nat.
Proof. unfold matchedWords. apply filter_length_le. Qed.




















(** *** The score is a number *)




(** *** The fuzzy search keeps the best candidate *)

Section Fuzzy.
Variable normalizedText : string.
Variable visible : bool.

Local Abbreviation S e := (calculateMatchScore normalizedText (elText e)).
Local Abbreviation candidate := (fuzzyCandidate normalizedText visible).

Lemma candidate_skip el :
  (visible && negb (isVisible el)) = true -> candidate el = false.
Proof. intros H. unfold fuzzyCandidate. now rewrite H. Qed.

Lemma candidate_seen el :
  (visible && negb (isVisible el)) = false ->
  candidate el
  = (JS.includes (elText el) normalizedText || JS.includes normalizedText (elText el)).
Proof. intros H. unfold fuzzyCandidate. now rewrite H. Qed.

(** The result is a candidate, or the best match the loop was entered with. *)
Lemma findByText_loop_found elements best el :
  findByText_loop elements normalizedText false visible best = Some el ->
  (In el elements /\ candidate el = true) \/ (exists b, best = Some b /\ element b = el).
Proof.
  revert best. induction elements as [|e rest IH]; intros best Hres.
  - cbn in Hres. destruct best as [b|]; [|discriminate].
    cbn in Hres. injection Hres as <-. right. now exists b.
  - cbn [findByText_loop] in Hres.
    assert (Hrest : forall best',
               findByText_loop rest normalizedText false visible best' = Some el ->
               best' = best \/ (exists sc, best' = Some (mkMatch e sc "text")
                                          /\ candidate e = true) ->
               (In el (e :: rest) /\ candidate el = true)
               \/ (exists b, best = Some b /\ element b = el)).
    { intros best' H Hfrom. destruct (IH best' H) as [[Hin Hc]|(b & Hb & Hel)].
      - left. split; [now right | exact Hc].
      - destruct Hfrom as [->|(sc & -> & Hc)]; [right; now exists b|].
        injection Hb as <-. cbn in Hel. subst el. left. split; [now left | exact Hc]. }
    destruct (visible && negb (isVisible e)) eqn:Hskip; [apply (Hrest best Hres); now left|].
    destruct (JS.includes (elText e) normalizedText
              || JS.includes normalizedText (elText e)) eqn:Hinc;
      [|apply (Hrest best Hres); now left].
    assert (Hcand : candidate e = true) by now rewrite (candidate_seen _ Hskip).
    destruct best as [b|].
    + destruct (lt (score b) (S e)).
      * apply (Hrest _ Hres). right. now eexists.
      * apply (Hrest _ Hres). now left.
    + apply (Hrest _ Hres). right. now eexists.
Qed.


Lemma findByText_loop_none elements best :
  findByText_loop elements normalizedText false visible best = None ->
  best = None /\ forall c, In c elements -> candidate c = false.
Proof.
  revert best. induction elements as [|e rest IH]; intros best Hres.
  - cbn in Hres. destruct best; [discriminate|]. split; [reflexivity | intros c []].
  - cbn [findByText_loop] in Hres.
    destruct (visible && negb (isVisible e)) eqn:Hskip.
    { destruct (IH best Hres) as [Hb Hall]. split; [exact Hb|].
      intros c [<-|Hin]; [now apply candidate_skip | now apply Hall]. }
    destruct (JS.includes (elText e) normalizedText
              || JS.includes normalizedText (elText e)) eqn:Hinc.
    2:{ destruct (IH best Hres) as [Hb Hall]. split; [exact Hb|].
        intros c [<-|Hin]; [|now apply Hall].
        now rewrite (candidate_seen _ Hskip). }
    exfalso. destruct best as [b|].
    + destruct (lt (score b) _); apply IH in Hres as [Hb _]; discriminate.
    + apply IH in Hres as [Hb _]. discriminate.
Qed.

End Fuzzy.

End ResolverFacts.

(** The scores as the numbers they are: 100, 90, the binary64 value next to
    205/3 (68.33333333333333, as JavaScript prints it) and the one next to
    100/3 (33.33333333333333).  A finite number [S754_finite false m e] is
    [m * 2^e]. *)
Example score_exact : Resolver.calculateMatchScore "submit" "submit" = Resolver.ofZ 100.
Proof. vm_compute. reflexivity. Qed.

Example score_target_contains :
  Resolver.calculateMatchScore "submit" "submit order" = Resolver.ofZ 90.
Proof. vm_compute. reflexivity. Qed.

Example score_search_contains :
  Resolver.calculateMatchScore "submit order" "order"
  = S754_finite false 4808530852140373 (-46)
  /\ 6833333333333332 * 2 ^ 46 < 4808530852140373 * 10 ^ 14 < 6833333333333334 * 2 ^ 46.
Proof. split; [vm_compute; reflexivity | lia]. Qed.

Example score_words :
  Resolver.calculateMatchScore "big red button" "red buttons"
  = S754_finite false 4691249611844266 (-47)
  /\ 3333333333333332 * 2 ^ 47 < 4691249611844266 * 10 ^ 14 < 3333333333333334 * 2 ^ 47.
Proof. split; [vm_compute; reflexivity | lia]. Qed.

Example split_ws_pieces :
  JS.split_ws "a  b" = ["a"; "b"] /\ JS.split_ws " a" = [""; "a"]
  /\ JS.split_ws "" = [""] /\ JS.split_ws "a " = ["a"; ""].
Proof. repeat split; reflexivity. Qed.

Example fuzzy_picks_best :
  option_map Resolver.node
    (Resolver.findByText (Resolver.sampleDocument Resolver.samplePage) "Submit" false true)
  = Some 4%nat.
Proof. vm_compute. reflexivity. Qed.



(** C8. With visibility filtering on (asked for, or by default), an element
    returned by [smartFind] passes [isVisible]: its box has non-zero width and
    height, its computed [display] is not [none], its [visibility] not
    [hidden], its [opacity] not 0 (and it has an offset parent unless it is the
    body or the root).  This holds for every document and every target,
    whichever strategy found the element. *)
Theorem C8_smartFind_visible
    (d : Resolver.Document) (selector : string) (visible : option bool)
    (el : Resolver.Element) :
  visible = None \/ visible = Some true ->
  Resolver.smartFind d selector visible = Some el ->
  Resolver.isVisible el = true
  /\ ~ (Resolver.width el == 0)%Q /\ ~ (Resolver.height el == 0)%Q
  /\ Resolver.display el <> "none"
  /\ Resolver.visibility el <> "hidden"
  /\ Resolver.opacity el <> "0".
Proof.
  intros Hv Hfound.
  assert (Hvis : Resolver.isVisible el = true).
  { unfold Resolver.smartFind in Hfound.
    destruct Hv as [-> | ->]; now apply firstAccepted_visible in Hfound. }
  split; [exact Hvis|].
  destruct (isVisible_true el Hvis) as (Hw & Hh & Hd & Hvy & Ho & _).
  repeat split; assumption.
Qed.

(** On the sample page "Submit order" resolves to the shown button with that
    text, not to the hidden one that comes first. *)
Lemma C8_witness :
  Resolver.smartFind (Resolver.sampleDocument Resolver.samplePage) "Submit order" None
  = Some (Resolver.shown 4 "BUTTON" [] "Submit order")
  /\ Resolver.isVisible (Resolver.shown 4 "BUTTON" [] "Submit order") = true.
Proof.
  assert (H : Resolver.smartFind (Resolver.sampleDocument Resolver.samplePage)
                "Submit order" None
              = Some (Resolver.shown 4 "BUTTON" [] "Submit order"))
    by (vm_compute; reflexivity).
  split; [exact H|].
  exact (proj1 (C8_smartFind_visible _ _ None _ (or_introl eq_refl) H)).
Defined.
(* ===================================================================== *)
(** ** Properties of the run loop *)
(* ===================================================================== *)

Section ControllerFacts.
Import Controller.



(** One pass through the body: how it leaves the loop, what it records, how
    often it asks the model, and that it keeps the shown state in step. *)
Lemma body_spec task r run :
  let '(run', exit) := body task r run in
  exit = match roundError r with
         | Some message => Some (Errored message)
         | None => if decidesDone r then Some Done else None
         end
  /\ length (currentSteps run')
     = (if recordsStep r then S (length (currentSteps run)) else length (currentSteps run))
  /\ (exists more, events run'
                   = events run
                     ++ RunAgentStep task (currentContext run) (currentSteps run) :: more
                   /\ modelCalls more = 0%nat)
  /\ (inStep run -> inStep run').
Proof.
  unfold body, roundError, refreshError, recordsStep, decidesDone, inStep, record.
  destruct (stepReply r) as [m|m|step|]; cbn.
  1,2,4: (repeat split; try tauto; eexists; split; [reflexivity | reflexivity]).
  destruct (action step); cbn.
  2-9: destruct (execReply r), (contextReply r); cbn;
    rewrite ?length_app; cbn;
    (repeat split; try tauto; try lia;
     try (eexists; rewrite <- ?app_assoc; cbn; split; [reflexivity | reflexivity])).
  - destruct (navReply r), (contextReply r); cbn; rewrite ?length_app; cbn;
      (repeat split; try tauto; try lia;
       try (eexists; rewrite <- ?app_assoc; cbn; split; [reflexivity | reflexivity])).
  - rewrite ?length_app; cbn.
    repeat split; try tauto; try lia.
    eexists; split; [reflexivity | reflexivity].
Qed.

(** An iteration that goes on, or ends with [done], has recorded a step. *)
Lemma roundError_none r : roundError r = None -> recordsStep r = true.
Proof.
  unfold roundError, recordsStep. destruct (stepReply r) as [m|m|step|]; try discriminate.
  destruct (action step); try reflexivity; destruct (execReply r); try discriminate;
    reflexivity.
Qed.



End ControllerFacts.

Example run_navigate_then_done :
  match Controller.runAgentLoop "go to example.com then finish"
          (Some Cache.sampleContext) 0
          (fun i => Controller.quietRound 0
                      (Controller.StepAgentStep
                         (Controller.sampleStep
                            (if Nat.eqb i 0 then ANavigate "example.com" else ADone "ok")))) with
  | Some (run, exit, k) =>
      exit = Controller.Done /\ k = 1%nat
      /\ map action (Controller.currentSteps run) = [ANavigate "example.com"; ADone "ok"]
      /\ Controller.events run
         = [Controller.RunAgentStep "go to example.com then finish" Cache.sampleContext [];
            Controller.TabsUpdate "https://example.com";
            Controller.Sleep 2000; Controller.Sleep 500; Controller.GetPageContext;
            Controller.RunAgentStep "go to example.com then finish" Cache.sampleContext
              [Controller.withResult (Controller.sampleStep (ANavigate "example.com")) okResult]]
  | None => False
  end.
Proof. vm_compute. repeat split; reflexivity. Qed.

(** The refresh of the page context after a click is not answered: the click
    is recorded, and the run ends with the error of reading the missing
    response. *)
Example run_lost_refresh :
  match Controller.runAgentLoop "press submit" (Some Cache.sampleContext) 0
          (fun _ => Controller.mkRound 0 false
                      (Controller.StepAgentStep (Controller.sampleStep (AClick "Submit" None)))
                      Controller.NavUpdated (Controller.ExecResult okResult)
                      Controller.ContextLost) with
  | Some (run, exit, k) =>
      exit = Controller.Errored Controller.lostReplyMessage /\ k = 0%nat
      /\ Controller.currentSteps run
         = [Controller.withResult (Controller.sampleStep (AClick "Submit" None)) okResult]
      /\ state_error (Controller.agentState run) = Some Controller.lostReplyMessage
      /\ Controller.events run
         = [Controller.RunAgentStep "press submit" Cache.sampleContext [];
            Controller.ExecuteAgentAction (AClick "Submit" None);
            Controller.Sleep 500; Controller.GetPageContext]
  | None => False
  end.
Proof. vm_compute. repeat split; reflexivity. Qed.




Section ClickFacts.
Import Controller.

Lemma firstFound_none selector docs :
  (forall d, In d docs -> Resolver.smartFind d selector None = None) ->
  Executor.firstFound selector docs = None.
Proof.
  induction docs as [|d docs IH]; intros H; [reflexivity|].
  cbn [Executor.firstFound]. rewrite (H d) by now left. apply IH. intros d' Hd'. apply H. now right.
Qed.

(** The loop only ever adds events. *)
Lemma loop_events_extend fuel task env i run :
  exists more, events (fst (fst (loop fuel task env i run))) = events run ++ more.
Proof.
  revert i run. induction fuel as [|fuel IH]; intros i run; cbn [loop].
  - exists []. cbn. now rewrite app_nil_r.
  - destruct (abortRequested (env i)); [exists []; cbn; now rewrite app_nil_r|].
    destruct (negb _); [exists []; cbn; now rewrite app_nil_r|].
    pose proof (body_spec task (env i) run) as Hbody.
    destruct (body task (env i) run) as [run' [exit|]];
      destruct Hbody as (_ & _ & (more & Hev & _) & _).
    + cbn. rewrite Hev. eauto.
    + destruct (IH (S i) run') as [more' Hmore']. rewrite Hmore', Hev.
      rewrite <- app_assoc. eauto.
Qed.

(** An iteration that is entered asks the model first, with the steps
    recorded so far. *)
Lemma loop_asks_first fuel task env i run :
  abortRequested (env i) = false ->
  (length (currentSteps run) < 20)%nat ->
  exists more,
    events (fst (fst (loop (S fuel) task env i run)))
    = events run ++ RunAgentStep task (currentContext run) (currentSteps run) :: more.
Proof.
  intros Habort Hlen. cbn [loop]. rewrite Habort.
  replace (Z.of_nat (length (currentSteps run)) <? cfg_maxSteps DEFAULT_AGENT_CONFIG)
    with true by (symmetry; apply Z.ltb_lt; cbn; lia).
  cbn [negb].
  pose proof (body_spec task (env i) run) as Hbody.
  destruct (body task (env i) run) as [run' [exit|]];
    destruct Hbody as (_ & _ & (more & Hev & _) & _).
  - cbn. eauto.
  - destruct (loop_events_extend fuel task env (S i) run') as [more' Hmore'].
    rewrite Hmore', Hev. rewrite <- app_assoc. cbn. eauto.
Qed.

End ClickFacts.

(** C5, as stated, fails on the error text: the executor puts the target in
    double quotes. *)
Lemma C5_counterexample :
  Executor.executeClick Executor.helpPage "Submit" None
  = (failResult ("Element not found: " +:+ JS.dq +:+ "Submit" +:+ JS.dq), [])
  /\ fst (Executor.executeClick Executor.helpPage "Submit" None)
     <> failResult "Element not found: Submit".
Proof.
  assert (H : Executor.executeClick Executor.helpPage "Submit" None
              = (failResult ("Element not found: " +:+ JS.dq +:+ "Submit" +:+ JS.dq), []))
    by (vm_compute; reflexivity).
  split; [exact H|]. rewrite H. vm_compute. discriminate.
Qed.

(** C5 (amended).  When [smartFind] finds no element for the target of a
    click, neither at once, nor in any document observed during the 3000 ms
    wait, nor when the wait times out, the executor touches nothing and
    returns [{success: false, error: 'Element not found: "<target>"'}], the
    target in double quotes.  An iteration of the run loop that receives this
    result records the step with it.  It does not leave the loop, unless the
    refresh of the page context that follows brings no response: then the run
    ends with that error.  Otherwise the running flag and the error fields
    stay as they were; and the next iteration, unless stop was requested or 20
    steps are recorded, asks the model again with that step among the previous
    steps. *)
Theorem C5_click_not_found
    (others : BrowserAction -> ActionResult) (page : Executor.Page) (target : string) :
  Resolver.smartFind (Executor.current page) target None = None ->
  (forall d, In d (Executor.duringWait page 3000) ->
             Resolver.smartFind d target None = None) ->
  Resolver.smartFind (Executor.atTimeout page 3000) target None = None ->
  let failed := failResult ("Element not found: " +:+ JS.dq +:+ target +:+ JS.dq) in
  Executor.executeClick page target None = (failed, [])
  /\ Executor.executeAction others page (AClick target None) = failed
  /\ forall task r run step,
      Controller.stepReply r = Controller.StepAgentStep step ->
      action step = AClick target None ->
      Controller.execReply r
      = Controller.relayAction true
          (Controller.ContentResult (Executor.executeAction others page (action step))) ->
      exists run' exit,
        Controller.body task r run = (run', exit)
        /\ Controller.currentSteps run'
           = Controller.currentSteps run ++ [Controller.withResult step failed]
        /\ (Controller.contextReply r = Controller.ContextLost ->
            exit = Some (Controller.Errored Controller.lostReplyMessage)
            /\ isRunning (Controller.agentState run') = false
            /\ state_error (Controller.agentState run') = Some Controller.lostReplyMessage)
        /\ (Controller.contextReply r <> Controller.ContextLost ->
            exit = None
            /\ isRunning (Controller.agentState run') = isRunning (Controller.agentState run)
            /\ state_error (Controller.agentState run')
               = state_error (Controller.agentState run)
            /\ Controller.errorShown run' = Controller.errorShown run
            /\ forall fuel env i,
                Controller.abortRequested (env i) = false ->
                (length (Controller.currentSteps run') < 20)%nat ->
                exists more,
                  Controller.events (fst (fst (Controller.loop (S fuel) task env i run')))
                  = Controller.events run'
                    ++ Controller.RunAgentStep task (Controller.currentContext run')
                         (Controller.currentSteps run') :: more).
Proof.
  intros Hnow Hwait Htimeout failed.
  assert (Hclick : Executor.executeClick page target None = (failed, [])).
  { unfold Executor.executeClick, Executor.waitForElement.
    now rewrite Hnow, (firstFound_none _ _ Hwait), Htimeout. }
  assert (Haction : Executor.executeAction others page (AClick target None) = failed).
  { cbn. now rewrite Hclick. }
  split; [exact Hclick|]. split; [exact Haction|].
  intros task r run step Hreply Hact Hexec.
  rewrite Hact, Haction in Hexec. cbn in Hexec.
  unfold Controller.body. rewrite Hreply, Hact, Hexec. unfold Controller.record.
  destruct (Controller.contextReply r) eqn:Hcontext;
    (eexists _, _; split; [reflexivity|]; split; [reflexivity|]; split;
     [intros E; try discriminate E | intros E; try (exfalso; now apply E)]).
  - cbn. repeat split.
    intros fuel env i Habort Hlen.
    apply (loop_asks_first fuel task env i); assumption.
  - cbn. repeat split.
    intros fuel env i Habort Hlen.
    apply (loop_asks_first fuel task env i); assumption.
  - cbn. repeat split.
Qed.

(** On a page that only has a help link, a click on "Submit" fails with the
    quoted target, and the iteration goes on. *)
Lemma C5_witness :
  Executor.executeAction (fun _ => okResult) Executor.helpPage (AClick "Submit" None)
  = failResult ("Element not found: " +:+ JS.dq +:+ "Submit" +:+ JS.dq)
  /\ exists run' exit,
      Controller.body "press submit"
        (Controller.mkRound 0 false
           (Controller.StepAgentStep (Controller.sampleStep (AClick "Submit" None)))
           Controller.NavUpdated
           (Controller.relayAction true
              (Controller.ContentResult
                 (Executor.executeAction (fun _ => okResult) Executor.helpPage
                    (AClick "Submit" None))))
           Controller.ContextOther)
        (Controller.mkRun (AgentService.createAgentState "press submit" None 0) None []
           Cache.sampleContext [])
      = (run', exit)
      /\ exit = None.
Proof.
  destruct (C5_click_not_found (fun _ => okResult) Executor.helpPage "Submit"
              ltac:(vm_compute; reflexivity)
              ltac:(intros d [])
              ltac:(vm_compute; reflexivity))
    as (_ & Haction & Hloop).
  split; [exact Haction|].
  destruct (Hloop "press submit"
              (Controller.mkRound 0 false
                 (Controller.StepAgentStep (Controller.sampleStep (AClick "Submit" None)))
                 Controller.NavUpdated
                 (Controller.relayAction true
                    (Controller.ContentResult
                       (Executor.executeAction (fun _ => okResult) Executor.helpPage
                          (AClick "Submit" None))))
                 Controller.ContextOther)
              (Controller.mkRun (AgentService.createAgentState "press submit" None 0) None []
                 Cache.sampleContext [])
              (Controller.sampleStep (AClick "Submit" None))
              eq_refl eq_refl eq_refl)
    as (run' & exit & Hbody & _ & _ & Hgoes).
  exists run', exit. split; [exact Hbody|].
  apply Hgoes. discriminate.
Defined.
(* ===================================================================== *)
(** ** Properties of the response parser *)
(* ===================================================================== *)

Section ParserFacts.
Import Parser.


Lemma occurs_cons c x r :
  JS.occurs c (String x r) = false -> Ascii.eqb x c = false /\ JS.occurs c r = false.
Proof.
  cbn. intros H. apply orb_false_iff in H as [Hx Hr].
  split; [now rewrite Ascii.eqb_sym | exact Hr].
Qed.

Lemma occurs_app c a b :
  JS.occurs c (a +:+ b) = JS.occurs c a || JS.occurs c b.
Proof.
  induction a as [|x a IH]; [reflexivity|].
  rewrite append_cons. cbn. now rewrite IH, orb_assoc.
Qed.

(** *** The object match *)






Lemma trimEnd_cons c r :
  JS.trimEnd (String c r)
  = match JS.trimEnd r with
    | EmptyString => if JS.isWhiteSpace c then EmptyString else String c EmptyString
    | String a r' => String c (String a r')
    end.
Proof. cbn [JS.trimEnd]. now destruct (JS.trimEnd r). Qed.




(** *** The fence match *)






Lemma untilFence_eq s :
  untilFence s
  = if String.prefix fence s then Some ""
    else match s with
         | EmptyString => None
         | String c r => option_map (String c) (untilFence r)
         end.
Proof. destruct s; reflexivity. Qed.






Lemma occurs_trimStart c s : JS.occurs c s = false -> JS.occurs c (JS.trimStart s) = false.
Proof.
  induction s as [|x s IH]; intros H; [reflexivity|].
  cbn [JS.trimStart]. destruct (JS.isWhiteSpace x); [|exact H].
  apply IH. cbn in H. now apply orb_false_iff in H as [_ H].
Qed.

Lemma occurs_drop c n s : JS.occurs c s = false -> JS.occurs c (JS.drop n s) = false.
Proof.
  revert s. induction n as [|n IH]; intros s H; [exact H|].
  destruct s as [|x s]; [reflexivity|].
  cbn [JS.drop]. apply IH. cbn in H. now apply orb_false_iff in H as [_ H].
Qed.

Lemma occurs_skipJson c s : JS.occurs c s = false -> JS.occurs c (skipJson s) = false.
Proof.
  intros H. unfold skipJson. destruct (String.prefix "json" s); [|exact H].
  now apply occurs_drop.
Qed.




(** *** What is handed to [JSON.parse] *)



(** *** The decision *)







(** *** A closing brace after the object *)














End ParserFacts.

Example parse_click_reply :
  Parser.parseAgentResponse Parser.clickReply
  = Some (Parser.mkResponse (Parser.JString (Parser.units "press it")) Parser.clickAction false).
Proof. vm_compute. reflexivity. Qed.

Example parse_reply_without_thought :
  Parser.parseAgentResponse ("{" +:+ Parser.q +:+ "action" +:+ Parser.q +:+ ":{}}") = None.
Proof. vm_compute. reflexivity. Qed.

Example parse_json_values :
  Parser.JSON_parse "[1, 2.5e3, -0, true, false, null, [], {}]"
  = Some (Parser.JArray
            [Parser.JNumber false 1 0; Parser.JNumber false 25 2; Parser.JNumber true 0 0;
             Parser.JBool true; Parser.JBool false; Parser.JNull;
             Parser.JArray []; Parser.JObject []])
  /\ Parser.JSON_parse "01" = None
  /\ Parser.JSON_parse "[1,]" = None
  /\ Parser.JSON_parse "{} {}" = None.
Proof. repeat split; vm_compute; reflexivity. Qed.


(** An opening brace after the object does no harm; a closing brace does. *)
Example parse_reply_with_brace_after :
  Parser.parseAgentResponse (Parser.clickReply +:+ " {")
  = Parser.parseAgentResponse Parser.clickReply
  /\ Parser.parseAgentResponse (Parser.clickReply +:+ " }") = None.
Proof. split; vm_compute; reflexivity. Qed.


(* ===================================================================== *)
(** ** More on the context cache: keys, round trips, tabs *)
(* ===================================================================== *)

Section CacheKeyFacts.
Import Cache CacheUse.

Lemma occurs_pretty_N_go c x s :
  (forall d, pretty_N_char d <> c) ->
  JS.occurs c s = false -> JS.occurs c (pretty_N_go x s) = false.
Proof.
  intros Hc. revert s. induction (N.lt_wf_0 x) as [x _ IH]; intros s Hs.
  destruct (N.eq_dec x 0%N) as [->|Hx]; [exact Hs|].
  rewrite pretty_N_go_step by lia. apply IH.
  - apply N.div_lt; lia.
  - cbn [JS.occurs]. rewrite Hs, orb_false_r.
    apply Ascii.eqb_neq. intros E. exact (Hc _ (eq_sym E)).
Qed.

Lemma pretty_N_char_not_colon d : pretty_N_char d <> ":"%char.
Proof. unfold pretty_N_char. repeat case_match; discriminate. Qed.

(** The decimal rendering of a tab id holds no colon. *)
Lemma occurs_colon_pretty (z : Z) : JS.occurs ":" (pretty z) = false.
Proof.
  assert (HN : forall p, JS.occurs ":" (pretty (N.pos p)) = false).
  { intros p. unfold pretty, pretty_N. case_decide; [discriminate|].
    apply occurs_pretty_N_go; [apply pretty_N_char_not_colon | reflexivity]. }
  destruct z as [|p|p]; [reflexivity | apply HN |].
  change (pretty (Z.neg p)) with ("-" +:+ pretty (N.pos p)).
  rewrite append_cons, append_nil_l. cbn [JS.occurs]. now rewrite HN.
Qed.

(** The text before the first colon and the text after it are determined. *)
Lemma colon_split a b u v :
  JS.occurs ":" a = false -> JS.occurs ":" b = false ->
  a +:+ ":" +:+ u = b +:+ ":" +:+ v -> a = b /\ u = v.
Proof.
  revert b. induction a as [|x a IH]; intros [|y b] Ha Hb E.
  - rewrite !append_nil_l in E. now inversion E.
  - rewrite append_nil_l, !append_cons, append_nil_l in E. inversion E; subst y.
    cbn in Hb. discriminate.
  - rewrite append_nil_l, !append_cons, append_nil_l in E. inversion E; subst x.
    cbn in Ha. discriminate.
  - rewrite !append_cons in E. inversion E; subst y.
    cbn [JS.occurs] in Ha, Hb. apply orb_false_iff in Ha as [_ Ha], Hb as [_ Hb].
    destruct (IH b Ha Hb H1) as [-> ->]. easy.
Qed.

Lemma getCacheKey_inj u1 t1 u2 t2 :
  getCacheKey u1 t1 = getCacheKey u2 t2 -> u1 = u2 /\ t1 = t2.
Proof.
  unfold getCacheKey. intros E.
  apply colon_split in E as [Ht Hu]; [|apply occurs_colon_pretty..].
  split; [exact Hu|]. now apply (inj pretty).
Qed.

End CacheKeyFacts.

Section CacheUseFacts.
Import Cache CacheUse.

(** What [get] returns depends on the entry under the key and on the clock. *)
Lemma get_fst_eq u t m s s' :
  cache s' !! getCacheKey u t = cache s !! getCacheKey u t -> clock s' = clock s ->
  fst (get u t m s') = fst (get u t m s).
Proof.
  intros Hc Hk. unfold get. rewrite Hc, Hk.
  destruct (cache s !! getCacheKey u t); [|reflexivity]. now destruct (_ <? _).
Qed.

Lemma key_ne u1 t1 u2 t2 : (u1, t1) <> (u2, t2) -> getCacheKey u1 t1 <> getCacheKey u2 t2.
Proof. intros Hne E. apply getCacheKey_inj in E as [-> ->]. now apply Hne. Qed.

Lemma isDue_pending onTime now dt wait u t :
  isDue onTime (now + dt) (mkTimer (now + wait) u t) = negb (pending onTime dt wait).
Proof.
  unfold isDue, pending. cbn [due]. destruct onTime.
  - destruct (Z.leb_spec (now + wait) (now + dt)), (Z.ltb_spec dt wait); try reflexivity; lia.
  - destruct (Z.ltb_spec (now + wait) (now + dt)), (Z.leb_spec dt wait); try reflexivity; lia.
Qed.

(** The timer of a [set] with a delay in range. *)
Lemma set_timers c t ttl s :
  inRange ttl ->
  timers (set c t ttl s) = timers s ++ [mkTimer (clock s + delay ttl) (url c) t].
Proof.
  intros H. unfold set. cbn [timers]. fold (delay ttl).
  rewrite timerDelay_in_range; [reflexivity|]. unfold inRange in H. lia.
Qed.

(** The entry stored by [set], read after [dt] milliseconds. *)
Lemma get_after_set c t ttl maxAge onTime dt s :
  noTimerFor (getCacheKey (url c) t) s -> 0 <= dt -> inRange ttl ->
  fst (get (url c) t maxAge (advance onTime dt (set c t ttl s)))
  = if pending onTime dt (delay ttl) && (dt <=? limit maxAge) then Some c else None.
Proof.
  intros Hfresh Hdt Hrange.
  set (key := getCacheKey (url c) t) in *.
  set (s1 := set c t ttl s).
  set (t0 := mkTimer (clock s + delay ttl) (url c) t).
  assert (Htimers : timers s1 = timers s ++ [t0]) by now apply set_timers.
  assert (Ht0 : In t0 (timers s1)) by (rewrite Htimers; apply in_or_app; right; now left).
  assert (Hclock : clock (advance onTime dt s1) = clock s + dt).
  { rewrite advance_clock. subst s1. cbn [set clock]. lia. }
  assert (Hdue : isDue onTime (clock s1 + Z.max 0 dt) t0 = negb (pending onTime dt (delay ttl))).
  { subst s1 t0. cbn [set clock]. rewrite Z.max_r by lia. apply isDue_pending. }
  destruct (pending onTime dt (delay ttl)); cbn [negb andb] in *.
  - assert (Hkept : cache (advance onTime dt s1) !! key
                    = Some (mkCached c (clock s) (url c) t)).
    { rewrite advance_other; [apply lookup_insert_eq|].
      intros x Hin Hkey. rewrite Htimers in Hin. apply in_app_or in Hin as [Hin|[<-|[]]].
      - exfalso. exact (proj1 (List.Forall_forall _ _) Hfresh x Hin Hkey).
      - exact Hdue. }
    unfold get. fold key. rewrite Hkept, Hclock. cbn [cached_timestamp context].
    fold (limit maxAge). replace (clock s + dt - clock s) with dt by lia.
    destruct (Z.leb_spec dt (limit maxAge)), (Z.ltb_spec (limit maxAge) dt);
      try reflexivity; lia.
  - assert (Hgone : cache (advance onTime dt s1) !! key = None).
    { change key with (timerKey t0). now apply advance_fires. }
    unfold get. fold key. now rewrite Hgone.
Qed.

Lemma hasChanged_fst u t h s :
  fst (hasChanged u t h s)
  = match fst (get u t None s) with
    | Some cached => negb (sameHash cached h)
    | None => true
    end.
Proof.
  unfold hasChanged, sameHash. destruct (get u t None s) as [[cached|] s']; [|reflexivity].
  cbn [fst]. destruct (hash cached) as [x|]; [|reflexivity].
  now destruct (JS.truthy x).
Qed.

Lemma fire_all_sub l st k c :
  cache (fold_left (fun st t => fire t st) l st) !! k = Some c -> cache st !! k = Some c.
Proof.
  revert st. induction l as [|t l IH]; intros st H; [exact H|].
  apply IH in H. cbn in H. apply lookup_delete_Some in H. tauto.
Qed.

Lemma get_sub u t m s k c :
  cache (snd (get u t m s)) !! k = Some c -> cache s !! k = Some c.
Proof.
  unfold get. destruct (cache s !! getCacheKey u t); [|easy].
  destruct (_ <? _); [|easy]. cbn. intros H. apply lookup_delete_Some in H. tauto.
Qed.

Lemma step_wellKeyed o s : wellKeyed s -> wellKeyed (step o s).
Proof.
  intros Hs k c. destruct o as [x t ttl|u t m|u t|t| |u t h|onTime dt]; cbn [step].
  - cbn. intros H. apply lookup_insert_Some in H as [[<- <-]|[_ H]]; [reflexivity|].
    now apply Hs.
  - intros H. apply get_sub in H. now apply Hs.
  - cbn. intros H. apply lookup_delete_Some in H. apply Hs. tauto.
  - cbn. intros H. apply map_lookup_filter_Some in H. apply Hs. tauto.
  - cbn. now rewrite lookup_empty.
  - rewrite hasChanged_snd. intros H. apply get_sub in H. now apply Hs.
  - unfold advance. intros H. apply fire_all_sub in H. now apply Hs.
Qed.

Lemma run_wellKeyed ops s : wellKeyed s -> wellKeyed (run ops s).
Proof.
  revert s. induction ops as [|o ops IH]; intros s Hs; [exact Hs|].
  cbn. apply IH. now apply step_wellKeyed.
Qed.

Lemma empty_wellKeyed now : wellKeyed (empty now).
Proof. intros k c. cbn. now rewrite lookup_empty. Qed.

End CacheUseFacts.

(** X1. [set] and [delete] touch one entry only: what [get] returns for any
    other (url, tab) pair is what it returned before.  Two pairs never share
    an entry, because the key [tabId:url] determines both the tab and the
    url. *)
Theorem cache_set_delete_touch_one_entry
    (c : PageContext) (t : Z) (ttl : option Z) (s : Cache.State)
    (u2 : string) (t2 : Z) (m : option Z) :
  (u2, t2) <> (url c, t) ->
  fst (Cache.get u2 t2 m (Cache.set c t ttl s)) = fst (Cache.get u2 t2 m s)
  /\ fst (Cache.get u2 t2 m (Cache.delete (url c) t s)) = fst (Cache.get u2 t2 m s).
Proof.
  intros Hne. apply key_ne in Hne. split; apply get_fst_eq; try reflexivity; cbn.
  - now apply lookup_insert_ne.
  - now apply lookup_delete_ne.
Qed.

(** The same url in another tab is another entry. *)
Lemma cache_set_delete_touch_one_entry_witness :
  fst (Cache.get "https://example.com/" 8 None
         (Cache.set Cache.sampleContext 7 None (Cache.empty 0)))
  = fst (Cache.get "https://example.com/" 8 None (Cache.empty 0))
  /\ fst (Cache.get "https://example.com/" 8 None
            (Cache.delete (url Cache.sampleContext) 7 (Cache.empty 0)))
     = fst (Cache.get "https://example.com/" 8 None (Cache.empty 0)).
Proof.
  apply (cache_set_delete_touch_one_entry Cache.sampleContext 7 None (Cache.empty 0)
           "https://example.com/" 8 None).
  discriminate.
Defined.

(** X2. Round trip, timers running when they are due.  In a cache with no
    older timer pending for the key, and for a timer delay [ttl || 30000] that
    [setTimeout] waits for as given (1 to 2^31 - 1 ms):
    [get(url, tabId, maxAge)] made [dt] milliseconds after
    [set(context, tabId, ttl)] returns the stored context exactly when the
    timer of the [set] has not run and [dt] is at most the limit
    [maxAge || 30000]; otherwise it returns null.  The timer has not run while
    [dt] is below the delay, and has run once [dt] is above it; when [dt]
    equals the delay, either the callback or the call comes first. *)
Theorem cache_set_get_round_trip
    (c : PageContext) (t : Z) (ttl maxAge : option Z) (onTime : bool) (dt : Z)
    (s : Cache.State) :
  CacheUse.noTimerFor (Cache.getCacheKey (url c) t) s -> 0 <= dt ->
  CacheUse.inRange ttl ->
  fst (Cache.get (url c) t maxAge (Cache.advance onTime dt (Cache.set c t ttl s)))
  = (if CacheUse.pending onTime dt (CacheUse.delay ttl) && (dt <=? CacheUse.limit maxAge)
     then Some c else None)
  /\ (dt < CacheUse.delay ttl -> CacheUse.pending onTime dt (CacheUse.delay ttl) = true)
  /\ (CacheUse.delay ttl < dt -> CacheUse.pending onTime dt (CacheUse.delay ttl) = false)
  /\ (dt = CacheUse.delay ttl ->
      CacheUse.pending onTime dt (CacheUse.delay ttl) = negb onTime).
Proof.
  intros Hfresh Hdt Hrange.
  split; [now apply get_after_set|].
  unfold CacheUse.pending.
  split; [|split]; intros H; destruct onTime; cbn [negb];
    first [apply Z.ltb_lt | apply Z.leb_le | apply Z.ltb_ge | apply Z.leb_gt]; lia.
Qed.

(** Stored with a TTL of 5 s: served after 2 s, but not to a reader that
    accepts an age of 1 s only; after exactly 5 s it is served when the call
    comes before the callback. *)
Lemma cache_set_get_round_trip_witness :
  fst (Cache.get (url Cache.sampleContext) 7 None
         (Cache.advance true 2000
            (Cache.set Cache.sampleContext 7 (Some 5000) (Cache.empty 0))))
  = Some Cache.sampleContext
  /\ fst (Cache.get (url Cache.sampleContext) 7 (Some 1000)
         (Cache.advance true 2000
            (Cache.set Cache.sampleContext 7 (Some 5000) (Cache.empty 0))))
     = None
  /\ fst (Cache.get (url Cache.sampleContext) 7 None
         (Cache.advance false 5000
            (Cache.set Cache.sampleContext 7 (Some 5000) (Cache.empty 0))))
     = Some Cache.sampleContext.
Proof.
  pose proof (fun maxAge onTime dt H =>
                proj1 (cache_set_get_round_trip Cache.sampleContext 7 (Some 5000) maxAge
                         onTime dt (Cache.empty 0) ltac:(constructor) H
                         ltac:(vm_compute; split; reflexivity))) as H.
  split; [exact (H None true 2000 ltac:(lia))|].
  split; [exact (H (Some 1000) true 2000 ltac:(lia))|].
  exact (H None false 5000 ltac:(lia)).
Defined.

(** X3. In every state the service can reach from the empty cache,
    [clearTab(tabId)] removes exactly the entries of that tab: afterwards
    [get] returns null for every url of the tab, and returns for every other
    tab what it returned before. *)
Theorem cache_clearTab_clears_that_tab (ops : list Cache.Op) (now t : Z) :
  let s := Cache.run ops (Cache.empty now) in
  (forall u m, fst (Cache.get u t m (Cache.clearTab t s)) = None)
  /\ (forall u t' m, t' <> t ->
        fst (Cache.get u t' m (Cache.clearTab t s)) = fst (Cache.get u t' m s)).
Proof.
  intros s.
  assert (Hs : CacheUse.wellKeyed s) by apply run_wellKeyed, empty_wellKeyed.
  split.
  - intros u m. unfold Cache.get.
    destruct (Cache.cache (Cache.clearTab t s) !! Cache.getCacheKey u t) as [c|] eqn:E;
      [|reflexivity].
    exfalso. cbn in E. apply map_lookup_filter_Some in E as [E Hkeep].
    apply Hs in E. apply getCacheKey_inj in E as [_ E]. cbn in Hkeep. congruence.
  - intros u t' m Hne. apply get_fst_eq; [|reflexivity]. cbn.
    destruct (Cache.cache s !! Cache.getCacheKey u t') as [c|] eqn:E.
    + apply map_lookup_filter_Some. split; [exact E|]. cbn.
      apply Hs in E. apply getCacheKey_inj in E as [_ E]. congruence.
    + apply map_lookup_filter_None. now left.
Qed.

(** X4. [hasChanged(url, tabId, newHash)] made [dt] milliseconds after the
    context was cached (no older timer pending for the key, a timer delay of 1
    to 2^31 - 1 ms) answers false exactly when the entry is still served (the
    timer of the [set] has not run and [dt] is at most 30000) and its hash is
    present, non-empty and equal to [newHash].  In particular it reports a
    change for every expired entry and for every context cached without a
    hash. *)
Theorem cache_hasChanged_after_set
    (c : PageContext) (t : Z) (ttl : option Z) (onTime : bool) (dt : Z) (newHash : string)
    (s : Cache.State) :
  CacheUse.noTimerFor (Cache.getCacheKey (url c) t) s -> 0 <= dt ->
  CacheUse.inRange ttl ->
  fst (Cache.hasChanged (url c) t newHash (Cache.advance onTime dt (Cache.set c t ttl s)))
  = negb (CacheUse.pending onTime dt (CacheUse.delay ttl) && (dt <=? Cache.defaultTTL)
          && CacheUse.sameHash c newHash).
Proof.
  intros Hfresh Hdt Hrange.
  rewrite hasChanged_fst, (get_after_set c t ttl None onTime dt s Hfresh Hdt Hrange).
  change (CacheUse.limit None) with Cache.defaultTTL.
  destruct (CacheUse.pending onTime dt (CacheUse.delay ttl) && (dt <=? Cache.defaultTTL));
    reflexivity.
Qed.

(** The sample context has hash "h1": one second after caching, "h1" is no
    change and "h2" is one. *)
Lemma cache_hasChanged_after_set_witness :
  fst (Cache.hasChanged (url Cache.sampleContext) 7 "h1"
         (Cache.advance true 1000 (Cache.set Cache.sampleContext 7 None (Cache.empty 0))))
  = false
  /\ fst (Cache.hasChanged (url Cache.sampleContext) 7 "h2"
         (Cache.advance true 1000 (Cache.set Cache.sampleContext 7 None (Cache.empty 0))))
     = true.
Proof.
  pose proof (fun h => cache_hasChanged_after_set Cache.sampleContext 7 None true 1000 h
                         (Cache.empty 0) ltac:(constructor) ltac:(lia)
                         ltac:(vm_compute; split; reflexivity)) as H.
  split; [exact (H "h1") | exact (H "h2")].
Defined.
(* ===================================================================== *)
(** ** More on the element resolver: exact text, normalisation, failure *)
(* ===================================================================== *)

Section ResolverUseFacts.
Import Resolver ResolverUse.

Lemma findByText_loop_exact elements n visible best :
  findByText_loop elements n true visible best
  = match List.find (exactMatch n visible) elements with
    | Some el => Some el
    | None => option_map element best
    end.
Proof.
  induction elements as [|e rest IH]; [reflexivity|].
  cbn [findByText_loop List.find]. unfold exactMatch at 1, considered.
  destruct (visible && negb (isVisible e)); cbn [negb andb]; [exact IH|].
  destruct (String.eqb (elText e) n); [reflexivity | exact IH].
Qed.

Lemma findByText_exact d text visible :
  findByText d text true visible
  = List.find (exactMatch (normalize text) visible) (querySelectorAll d textSelector).
Proof.
  unfold findByText. rewrite findByText_loop_exact. fold (normalize text).
  now destruct (List.find _ _).
Qed.

Lemma considered_visible el : considered true el = true -> isVisible el = true.
Proof. unfold considered. cbn. now destruct (isVisible el). Qed.

(** The strategy loop fails only when every strategy brought nothing it
    could accept. *)
Lemma firstAccepted_none results r :
  firstAccepted true results = None -> In r results ->
  r = None \/ exists el, r = Some el /\ isVisible el = false.
Proof.
  induction results as [|[e|] rest IH]; intros H Hin; [destruct Hin| |].
  - cbn in H. destruct (isVisible e) eqn:Hv; [discriminate|].
    destruct Hin as [<-|Hin]; [right; now exists e | now apply IH].
  - cbn in H. destruct Hin as [<-|Hin]; [now left | now apply IH].
Qed.

Lemma find_considered {p : Element -> bool} l el :
  (forall x, p x = true -> considered true x = true) ->
  List.find p l = Some el -> isVisible el = true.
Proof.
  intros Hp H. apply find_some in H as [_ H]. now apply considered_visible, Hp.
Qed.

End ResolverUseFacts.

(** X5. When the target does not resolve as a CSS selector and some element
    of the text candidates (visible, when filtering is on) has exactly the
    target as its text, letter case and surrounding whitespace ignored, then
    [smartFind] returns the first such element in document order, whatever
    the later strategies would find. *)
Theorem smartFind_returns_first_exact_text
    (d : Resolver.Document) (selector : string) (visible : option bool)
    (el : Resolver.Element) :
  Resolver.tryCSS d selector = None ->
  List.find (ResolverUse.exactMatch (ResolverUse.normalize selector)
               (match visible with Some v => v | None => true end))
            (Resolver.querySelectorAll d Resolver.textSelector) = Some el ->
  Resolver.smartFind d selector visible = Some el.
Proof.
  intros Hcss Hfind. unfold Resolver.smartFind, Resolver.strategies.
  rewrite Hcss, findByText_exact, Hfind. cbn [Resolver.firstAccepted].
  destruct (match visible with Some v => v | None => true end) eqn:Hv; [|reflexivity].
  apply find_some in Hfind as [_ Hok]. unfold ResolverUse.exactMatch in Hok.
  apply andb_true_iff in Hok as [Hok _]. apply considered_visible in Hok.
  now rewrite Hok.
Qed.

(** "submit ORDER" finds the shown button whose text is "Submit order", not
    the longer "Submit order now" that comes first. *)
Lemma smartFind_returns_first_exact_text_witness :
  Resolver.smartFind (Resolver.sampleDocument Resolver.samplePage) " submit ORDER " None
  = Some (Resolver.shown 4 "BUTTON" [] "Submit order").
Proof.
  apply (smartFind_returns_first_exact_text
           (Resolver.sampleDocument Resolver.samplePage) " submit ORDER " None);
    vm_compute; reflexivity.
Defined.

(** X6. For targets that do not resolve as CSS selectors, [smartFind] reads
    the target only through [target.toLowerCase().trim()]: two targets that
    differ in letter case or in surrounding whitespace resolve to the same
    element. *)
Theorem smartFind_ignores_case_and_padding
    (d : Resolver.Document) (s1 s2 : string) (visible : option bool) :
  Resolver.tryCSS d s1 = None -> Resolver.tryCSS d s2 = None ->
  ResolverUse.normalize s1 = ResolverUse.normalize s2 ->
  Resolver.smartFind d s1 visible = Resolver.smartFind d s2 visible.
Proof.
  intros H1 H2 Hn. unfold ResolverUse.normalize in Hn.
  unfold Resolver.smartFind, Resolver.strategies,
    Resolver.findByText, Resolver.findByAriaLabel, Resolver.findByPlaceholder,
    Resolver.findByTitle, Resolver.findByAttribute, Resolver.findByDataAttribute,
    Resolver.findByRoleAndText.
  cbv zeta. now rewrite H1, H2, Hn.
Qed.

Lemma smartFind_ignores_case_and_padding_witness :
  Resolver.smartFind (Resolver.sampleDocument Resolver.samplePage) "  HELP and support" None
  = Resolver.smartFind (Resolver.sampleDocument Resolver.samplePage) "Help And Support " None.
Proof.
  apply (smartFind_ignores_case_and_padding
           (Resolver.sampleDocument Resolver.samplePage)
           "  HELP and support" "Help And Support " None);
    vm_compute; reflexivity.
Defined.

(** X7. What a null from [smartFind] (visibility filtering on) rules out:
    no visible text candidate has a text that contains the normalised target or
    is contained in it, and no visible element carries the target inside its
    [aria-label], [placeholder] or [title], letter case ignored. *)
Theorem smartFind_null_rules_out
    (d : Resolver.Document) (selector : string) :
  Resolver.smartFind d selector None = None ->
  (forall el, In el (Resolver.querySelectorAll d Resolver.textSelector) ->
              Resolver.isVisible el = true ->
              JS.includes (Resolver.elText el) (ResolverUse.normalize selector) = false
              /\ JS.includes (ResolverUse.normalize selector) (Resolver.elText el) = false)
  /\ (forall attribute el,
        In attribute ["aria-label"; "placeholder"; "title"] ->
        In el (Resolver.querySelectorAll d ("[" +:+ attribute +:+ "]")) ->
        Resolver.isVisible el = true ->
        JS.includes (JS.toLowerCase (Resolver.orEmpty (Resolver.getAttribute el attribute)))
                    (ResolverUse.normalize selector) = false).
Proof.
  intros Hnull. unfold Resolver.smartFind in Hnull.
  pose proof (fun r => firstAccepted_none _ r Hnull) as Hall.
  unfold Resolver.strategies in Hall.
  split.
  - intros el Hin Hvis.
    destruct (Hall (Resolver.findByText d selector false true)) as [Hn|(e & He & Hinv)];
      [cbn; tauto | |].
    + unfold Resolver.findByText in Hn.
      apply findByText_loop_none in Hn as [_ Hn]. specialize (Hn el Hin).
      unfold Resolver.fuzzyCandidate in Hn. rewrite Hvis in Hn. cbn in Hn.
      now apply orb_false_iff in Hn.
    + exfalso. unfold Resolver.findByText in He.
      destruct (findByText_loop_found _ _ _ None e He) as [[_ Hc]|(b & Hb & _)];
        [|discriminate].
      unfold Resolver.fuzzyCandidate in Hc. rewrite Hinv in Hc. discriminate.
  - intros attribute el Hattr Hin Hvis.
    assert (Hstrategy : In (Resolver.findByAttribute d attribute selector true)
                           (Resolver.strategies d selector true)).
    { cbn in Hattr. destruct Hattr as [<-|[<-|[<-|[]]]]; cbn; tauto. }
    destruct (Hall _ Hstrategy) as [Hn|(e & He & Hinv)].
    + unfold Resolver.findByAttribute in Hn.
      pose proof (find_none _ _ Hn el Hin) as Hel. cbn beta in Hel.
      rewrite Hvis in Hel. exact Hel.
    + exfalso. unfold Resolver.findByAttribute in He.
      apply find_some in He as [_ He]. rewrite Hinv in He. discriminate.
Qed.

(** On the sample page nothing matches "checkout"; in particular the text
    of the shown link does not. *)
Lemma smartFind_null_rules_out_witness :
  JS.includes (Resolver.elText (Resolver.shown 2 "A" [("href", "/help")] "  Help and Support "))
              (ResolverUse.normalize "checkout") = false
  /\ JS.includes (ResolverUse.normalize "checkout")
                 (Resolver.elText
                    (Resolver.shown 2 "A" [("href", "/help")] "  Help and Support "))
     = false.
Proof.
  apply (proj1 (smartFind_null_rules_out
                  (Resolver.sampleDocument Resolver.samplePage) "checkout"
                  ltac:(vm_compute; reflexivity))).
  - vm_compute. tauto.
  - vm_compute. reflexivity.
Defined.
(* ===================================================================== *)
(** ** More on the run loop: the steps it records, the messages it sends *)
(* ===================================================================== *)

Section LoopInvariants.
Import Controller ControllerUse.

(** An invariant of the loop body holds whenever the loop is left. *)
Lemma loop_invariant (P : Run -> Prop) (Q : Run -> Exit -> Prop) task env :
  (forall run exit, P run -> exit = Aborted \/ exit = MaxSteps \/ exit = OutOfFuel ->
                    Q run exit) ->
  (forall r run run', P run -> body task r run = (run', None) -> P run') ->
  (forall r run run' exit, P run -> body task r run = (run', Some exit) -> Q run' exit) ->
  forall fuel i run, P run -> Q (fst (fst (loop fuel task env i run)))
                                (snd (fst (loop fuel task env i run))).
Proof.
  intros Hstop Hstep Hleave. induction fuel as [|fuel IH]; intros i run HP; cbn [loop].
  - apply Hstop; tauto.
  - destruct (abortRequested (env i)); [apply Hstop; tauto|].
    destruct (negb _); [apply Hstop; tauto|].
    destruct (body task (env i) run) as [run' [exit|]] eqn:Hbody.
    + cbn. now apply (Hleave (env i) run).
    + apply IH. now apply (Hstep (env i) run).
Qed.

Lemma runAgentLoop_loop task pageContext startNow env run exit k :
  runAgentLoop task (Some pageContext) startNow env = Some (run, exit, k) ->
  exists run0 fuel,
    currentSteps run0 = [] /\ events run0 = [] /\ currentContext run0 = pageContext
    /\ currentSteps run = currentSteps (fst (fst (loop fuel task env 0 run0)))
    /\ events run = events (fst (fst (loop fuel task env 0 run0)))
    /\ exit = snd (fst (loop fuel task env 0 run0)).
Proof.
  unfold runAgentLoop. destruct (negb _); [discriminate|].
  set (run0 := mkRun _ None [] pageContext []).
  set (fuel := S _).
  destruct (loop fuel task env 0 run0) as [[run' exit'] k'] eqn:Hloop.
  intros [= <- <- <-]. exists run0, fuel. rewrite Hloop. cbn. tauto.
Qed.

(** *** The recorded steps *)

Lemma record_recorded step actionResult r run :
  isDoneStep step = false -> recorded run ->
  recorded (fst (record step actionResult r run)).
Proof.
  intros Hd H. unfold ControllerUse.recorded, record.
  destruct (contextReply r); cbn [fst caught currentSteps];
    (apply Forall_app; split; [exact H|]; constructor; [|constructor]; now split).
Qed.

(** The body leaves the recorded steps in order: it adds a [done] step only
    when it ends the run with it. *)
Lemma body_recorded task r run run' exit :
  recorded run -> body task r run = (run', exit) ->
  match exit with
  | Some Done => exists last,
      currentSteps run' = currentSteps run ++ [last]
      /\ isDoneStep last = true /\ result last = Some okResult
  | _ => recorded run'
  end.
Proof.
  unfold body. intros H.
  assert (Hrec : forall step actionResult run0 run1 exit1,
             isDoneStep step = false -> recorded run0 ->
             record step actionResult r run0 = (run1, exit1) ->
             match exit1 with
             | Some Done => exists last,
                 currentSteps run1 = currentSteps run ++ [last]
                 /\ isDoneStep last = true /\ result last = Some okResult
             | _ => recorded run1
             end).
  { intros step actionResult run0 run1 exit1 Hd H0 E.
    pose proof (record_recorded step actionResult r run0 Hd H0) as Hr.
    rewrite E in Hr. cbn [fst] in Hr.
    unfold record in E. destruct (contextReply r); injection E as <- <-; exact Hr. }
  destruct (stepReply r) as [m|m|step|]; try (intros [= <- <-]; exact H).
  destruct (action step) eqn:Ha.
  2-9: (destruct (execReply r); [intros [= <- <-]; exact H|..];
        (apply Hrec; [unfold isDoneStep; now rewrite Ha | exact H])).
  - destruct (navReply r); (apply Hrec; [unfold isDoneStep; now rewrite Ha | exact H]).
  - intros [= <- <-]. eexists. split; [reflexivity|].
    unfold isDoneStep. cbn. now rewrite Ha.
Qed.

(** *** The messages *)

Lemma startsWith_http url :
  JS.startsWith (if JS.startsWith url "http" then url else "https://" +:+ url) "http" = true.
Proof.
  destruct (JS.startsWith url "http") eqn:H; [exact H|].
  unfold JS.startsWith. rewrite !append_cons. cbn. now destruct url.
Qed.

Lemma sentWell_emit es run :
  Forall wellFormed es -> sentWell run -> sentWell (emit es run).
Proof.
  intros Hes H. unfold sentWell, emit. cbn [events]. apply Forall_app. now split.
Qed.

Lemma sentWell_record step actionResult r run :
  sentWell run -> sentWell (fst (record step actionResult r run)).
Proof.
  intros H. unfold sentWell, record.
  destruct (contextReply r); cbn [fst caught events];
    (apply Forall_app; split; [exact H | repeat constructor]).
Qed.

Lemma body_sentWell task r run run' exit :
  sentWell run -> body task r run = (run', exit) -> sentWell run'.
Proof.
  unfold body. intros H.
  apply (sentWell_emit [RunAgentStep task (currentContext run) (currentSteps run)])
    in H; [|repeat constructor].
  set (first := emit _ run) in *.
  assert (Hrec : forall step actionResult run0 run1 exit1,
             sentWell run0 -> record step actionResult r run0 = (run1, exit1) ->
             sentWell run1).
  { intros step actionResult run0 run1 exit1 H0 E.
    pose proof (sentWell_record step actionResult r run0 H0) as Hr.
    now rewrite E in Hr. }
  destruct (stepReply r) as [m|m|step|]; try (intros [= <- <-]; exact H).
  destruct (action step) eqn:Ha.
  2-9: (destruct (execReply r); [intros [= <- <-]|apply Hrec..];
        (apply sentWell_emit; [repeat constructor | exact H])).
  - destruct (navReply r); apply Hrec; try exact H.
    apply sentWell_emit; [|exact H]. constructor; [|repeat constructor].
    cbn. apply startsWith_http.
  - intros [= <- <-]. exact H.
Qed.

(** *** The requests *)

Lemma requests_app a b : requests (a ++ b) = requests a ++ requests b.
Proof. apply List.filter_app. Qed.

Lemma requests_none es : modelCalls es = 0%nat -> requests es = [].
Proof. unfold modelCalls. intros H. now apply length_zero_iff_nil. Qed.

Lemma requests_length es : length (requests es) = modelCalls es.
Proof. reflexivity. Qed.

(** What the body does to the steps and to the page context. *)
Lemma body_steps task r run run' exit :
  body task r run = (run', exit) ->
  (exists extra, currentSteps run' = currentSteps run ++ extra)
  /\ (exit = None ->
      currentContext run' = match contextReply r with
                            | ContextPage payload => payload
                            | _ => currentContext run
                            end).
Proof.
  unfold body, record.
  destruct (stepReply r) as [m|m|step|];
    try (intros [= <- <-]; split; [exists []; cbn; now rewrite app_nil_r | discriminate]).
  destruct (action step).
  2-9: (destruct (execReply r), (contextReply r); intros [= <- <-]; cbn;
        (split; [first [now eexists | exists []; now rewrite app_nil_r]
                | first [discriminate | reflexivity]])).
  - destruct (navReply r), (contextReply r); intros [= <- <-]; cbn;
      (split; [now eexists | first [discriminate | reflexivity]]).
  - intros [= <- <-]. cbn. split; [now eexists | discriminate].
Qed.

(** The requests of the first [n] iterations do not change when more steps
    are recorded. *)
Lemma requestAt_stable task pageContext env steps extra n :
  (n <= S (length steps))%nat ->
  map (requestAt task pageContext env (steps ++ extra)) (seq 0 n)
  = map (requestAt task pageContext env steps) (seq 0 n).
Proof.
  intros Hn. apply map_ext_in. intros j Hj. apply in_seq in Hj.
  unfold requestAt. f_equal. rewrite firstn_app.
  destruct (Nat.eq_dec j (S (length steps))) as [->|Hne]; [lia|].
  replace (j - length steps)%nat with 0%nat by lia. cbn. now rewrite app_nil_r.
Qed.

Lemma asked_loop task pageContext env fuel : forall i run,
  length (currentSteps run) = i ->
  currentContext run = contextAt pageContext env i ->
  asked task pageContext env i run ->
  exists n, (n <= S (length (currentSteps (fst (fst (loop fuel task env i run)))))) %nat
            /\ asked task pageContext env n (fst (fst (loop fuel task env i run))).
Proof.
  induction fuel as [|fuel IH]; intros i run Hlen Hcontext Hasked; cbn [loop].
  - exists i. cbn. split; [lia | exact Hasked].
  - destruct (abortRequested (env i)); [exists i; cbn; split; [lia | exact Hasked]|].
    destruct (negb _); [exists i; cbn; split; [lia | exact Hasked]|].
    pose proof (body_spec task (env i) run) as Hspec.
    destruct (body task (env i) run) as [run' exit] eqn:Hbody.
    destruct Hspec as (Hexit & Hsteps & (more & Hev & Hmore) & _).
    destruct (body_steps _ _ _ _ _ Hbody) as [[extra Hextra] Hnext].
    assert (Hasked' : asked task pageContext env (S i) run').
    { unfold asked in *. rewrite Hev, requests_app, Hasked.
      change (requests (RunAgentStep task (currentContext run) (currentSteps run) :: more))
        with (RunAgentStep task (currentContext run) (currentSteps run) :: requests more).
      rewrite (requests_none _ Hmore), Hextra.
      rewrite seq_S, map_app, requestAt_stable by lia. cbn [map Nat.add].
      f_equal. f_equal.
      unfold requestAt. rewrite Hcontext, <- Hlen, firstn_app, firstn_all, Nat.sub_diag.
      cbn. now rewrite app_nil_r. }
    assert (Hgrow : (i <= length (currentSteps run'))%nat)
      by (rewrite Hextra, length_app; lia).
    destruct exit as [exit|].
    + exists (S i). cbn. split; [lia | exact Hasked'].
    + destruct (roundError (env i)) as [m|] eqn:Herr; [discriminate|].
      rewrite (roundError_none _ Herr) in Hsteps.
      apply IH; [lia | | exact Hasked'].
      rewrite (Hnext eq_refl), Hcontext. reflexivity.
Qed.

End LoopInvariants.

(** X8. The steps a run records.  Every recorded step carries a result.  A
    step whose action is [done] is recorded only as the last step of a run
    that ends with it, and its result is [{success: true}]; when the run ends
    any other way (stop button, step limit, error) no recorded step is a
    [done]. *)
Theorem run_records_results_and_done_last
    (task : string) (pageContext : PageContext) (startNow : Z)
    (env : nat -> Controller.Round) (run : Controller.Run) (exit : Controller.Exit)
    (k : nat) :
  Controller.runAgentLoop task (Some pageContext) startNow env = Some (run, exit, k) ->
  Forall (fun step => ControllerUse.hasResult step = true) (Controller.currentSteps run)
  /\ match exit with
     | Controller.Done =>
         exists earlier last,
           Controller.currentSteps run = earlier ++ [last]
           /\ Forall (fun step => ControllerUse.isDoneStep step = false) earlier
           /\ ControllerUse.isDoneStep last = true
           /\ result last = Some okResult
     | _ => Forall (fun step => ControllerUse.isDoneStep step = false)
                   (Controller.currentSteps run)
     end.
Proof.
  intros Hrun.
  destruct (runAgentLoop_loop _ _ _ _ _ _ _ Hrun)
    as (run0 & fuel & Hs0 & _ & _ & Hs & _ & He).
  rewrite Hs, He.
  apply (loop_invariant ControllerUse.recorded
           (fun run exit =>
              Forall (fun step => ControllerUse.hasResult step = true)
                     (Controller.currentSteps run)
              /\ match exit with
                 | Controller.Done =>
                     exists earlier last,
                       Controller.currentSteps run = earlier ++ [last]
                       /\ Forall (fun step => ControllerUse.isDoneStep step = false) earlier
                       /\ ControllerUse.isDoneStep last = true
                       /\ result last = Some okResult
                 | _ => Forall (fun step => ControllerUse.isDoneStep step = false)
                               (Controller.currentSteps run)
                 end)).
  - intros r e Hr He'. unfold ControllerUse.recorded in Hr.
    split; [eapply List.Forall_impl; [|exact Hr]; cbn; tauto|].
    assert (Hnot : Forall (fun step => ControllerUse.isDoneStep step = false)
                          (Controller.currentSteps r))
      by (eapply List.Forall_impl; [|exact Hr]; cbn; tauto).
    destruct He' as [->|[->| ->]]; exact Hnot.
  - intros r r0 r1 Hr Hbody. exact (body_recorded _ _ _ _ _ Hr Hbody).
  - intros r r0 r1 e Hr Hbody. pose proof (body_recorded _ _ _ _ _ Hr Hbody) as Hl.
    unfold ControllerUse.recorded in Hr.
    assert (Hres : Forall (fun step => ControllerUse.hasResult step = true)
                          (Controller.currentSteps r0))
      by (eapply List.Forall_impl; [|exact Hr]; cbn; tauto).
    assert (Hnot : Forall (fun step => ControllerUse.isDoneStep step = false)
                          (Controller.currentSteps r0))
      by (eapply List.Forall_impl; [|exact Hr]; cbn; tauto).
    destruct e;
      try (unfold ControllerUse.recorded in Hl;
           split; (eapply List.Forall_impl; [|exact Hl]; cbn; tauto)).
    destruct Hl as (last & Hl & Hd & Hok). rewrite Hl. split.
    + apply Forall_app. split; [exact Hres|]. constructor; [|constructor].
      unfold ControllerUse.hasResult. now rewrite Hok.
    + exists (Controller.currentSteps r0), last. tauto.
  - unfold ControllerUse.recorded. rewrite Hs0. constructor.
Qed.

(** A navigation followed by [done]: two steps, the second one the [done]. *)
Lemma run_records_results_and_done_last_witness :
  exists run exit k,
    Controller.runAgentLoop "go to example.com then finish" (Some Cache.sampleContext) 0
      ControllerUse.navigateThenDone
    = Some (run, exit, k)
    /\ length (Controller.currentSteps run) = 2%nat
    /\ Forall (fun step => ControllerUse.hasResult step = true) (Controller.currentSteps run).
Proof.
  destruct (Controller.runAgentLoop "go to example.com then finish"
              (Some Cache.sampleContext) 0 ControllerUse.navigateThenDone)
    as [[[run exit] k]|] eqn:E; [|vm_compute in E; discriminate].
  exists run, exit, k. split; [reflexivity|]. split.
  - vm_compute in E. injection E as <- _ _. reflexivity.
  - exact (proj1 (run_records_results_and_done_last _ _ _ _ run exit k E)).
Defined.

(** X9. The messages a run sends.  The request of iteration [j] to the model
    carries the task, the page context the loop holds then (the one it was
    started with, or the payload of the latest [PAGE_CONTEXT] answer to a
    refresh) and, as previous steps, exactly the steps recorded up to then:
    the first [j] of the steps recorded at the end, one per earlier
    iteration.  There are no other requests to the model.  A navigation is
    done by the controller itself with a url that starts with "http"
    ("https://" is put in front of any other); neither a navigation nor a
    [done] is ever dispatched to the content script. *)
Theorem run_sends_well_formed_messages
    (task : string) (pageContext : PageContext) (startNow : Z)
    (env : nat -> Controller.Round) (run : Controller.Run) (exit : Controller.Exit)
    (k : nat) :
  Controller.runAgentLoop task (Some pageContext) startNow env = Some (run, exit, k) ->
  ControllerUse.requests (Controller.events run)
  = map (fun j => Controller.RunAgentStep task
                    (ControllerUse.contextAt pageContext env j)
                    (firstn j (Controller.currentSteps run)))
        (seq 0 (Controller.modelCalls (Controller.events run)))
  /\ (Controller.modelCalls (Controller.events run)
      <= S (length (Controller.currentSteps run)))%nat
  /\ Forall ControllerUse.wellFormed (Controller.events run).
Proof.
  intros Hrun.
  destruct (runAgentLoop_loop _ _ _ _ _ _ _ Hrun)
    as (run0 & fuel & Hs0 & He0 & Hc0 & Hs & He & _).
  destruct (asked_loop task pageContext env fuel 0 run0) as (n & Hn & Hasked).
  { now rewrite Hs0. }
  { exact Hc0. }
  { unfold ControllerUse.asked. now rewrite He0. }
  unfold ControllerUse.asked in Hasked. rewrite <- He, <- Hs in Hasked. rewrite <- Hs in Hn.
  assert (Hcalls : Controller.modelCalls (Controller.events run) = n).
  { rewrite <- requests_length, Hasked, length_map, length_seq. reflexivity. }
  rewrite Hcalls. split; [exact Hasked|]. split; [exact Hn|].
  rewrite He.
  apply (loop_invariant ControllerUse.sentWell (fun run _ => ControllerUse.sentWell run)).
  - intros r e Hr _. exact Hr.
  - intros r r0 r1 Hr Hbody. exact (body_sentWell _ _ _ _ _ Hr Hbody).
  - intros r r0 r1 e Hr Hbody. exact (body_sentWell _ _ _ _ _ Hr Hbody).
  - unfold ControllerUse.sentWell. rewrite He0. constructor.
Qed.

(** A navigation followed by [done]: the second request carries the recorded
    navigation. *)
Lemma run_sends_well_formed_messages_witness :
  exists run exit k,
    Controller.runAgentLoop "go to example.com then finish" (Some Cache.sampleContext) 0
      ControllerUse.navigateThenDone
    = Some (run, exit, k)
    /\ In (Controller.TabsUpdate "https://example.com") (Controller.events run)
    /\ ControllerUse.requests (Controller.events run)
       = map (fun j => Controller.RunAgentStep "go to example.com then finish"
                         (ControllerUse.contextAt Cache.sampleContext
                            ControllerUse.navigateThenDone j)
                         (firstn j (Controller.currentSteps run)))
             (seq 0 (Controller.modelCalls (Controller.events run))).
Proof.
  destruct (Controller.runAgentLoop "go to example.com then finish"
              (Some Cache.sampleContext) 0 ControllerUse.navigateThenDone)
    as [[[run exit] k]|] eqn:E; [|vm_compute in E; discriminate].
  exists run, exit, k. split; [reflexivity|]. split.
  - vm_compute in E. injection E as <- _ _. cbn. tauto.
  - exact (proj1 (run_sends_well_formed_messages _ _ _ _ run exit k E)).
Defined.
(* ===================================================================== *)
(** ** Properties of the content hash *)
(* ===================================================================== *)

Section HashFacts.
Import Content.

Lemma toInt32_range x : - 2 ^ 31 <= toInt32 x < 2 ^ 31.
Proof.
  unfold toInt32. pose proof (Z.mod_pos_bound (x + 2 ^ 31) (2 ^ 32) ltac:(lia)). lia.
Qed.

Lemma toInt32_shift x : exists k, toInt32 x = x + k * 2 ^ 32.
Proof.
  exists (- ((x + 2 ^ 31) / 2 ^ 32)). unfold toInt32.
  rewrite Z.mod_eq by lia. lia.
Qed.

Lemma toInt32_congruent x y k : x = y + k * 2 ^ 32 -> toInt32 x = toInt32 y.
Proof.
  intros ->. unfold toInt32.
  replace (y + k * 2 ^ 32 + 2 ^ 31) with (y + 2 ^ 31 + k * 2 ^ 32) by lia.
  now rewrite Z_mod_plus_full.
Qed.

Lemma toInt32_equal x y : toInt32 x = toInt32 y -> exists k, x = y + k * 2 ^ 32.
Proof.
  intros H. destruct (toInt32_shift x) as [a Ha], (toInt32_shift y) as [b Hb].
  exists (b - a). lia.
Qed.

Lemma toInt32_small x : - 2 ^ 31 <= x < 2 ^ 31 -> toInt32 x = x.
Proof. intros H. unfold toInt32. rewrite Z.mod_small; lia. Qed.

Lemma hashStep_congruent hash char :
  exists k, hashStep hash char = 31 * hash + Z.of_N (JS.code char) + k * 2 ^ 32.
Proof.
  unfold hashStep, shiftLeft5.
  destruct (toInt32_shift hash) as [a Ha].
  destruct (toInt32_shift (toInt32 hash * 2 ^ 5)) as [b Hb].
  destruct (toInt32_shift (toInt32 (toInt32 hash * 2 ^ 5) - hash + Z.of_N (JS.code char)))
    as [c Hc].
  exists (a * 2 ^ 5 + b + c). lia.
Qed.

Lemma hashLoop_congruent str hash :
  exists k, hashLoop str hash
            = hash * 31 ^ Z.of_nat (String.length str) + polynomial31 str + k * 2 ^ 32.
Proof.
  revert hash. induction str as [|char rest IH]; intros hash.
  - exists 0. cbn. lia.
  - cbn [hashLoop polynomial31 String.length].
    destruct (IH (hashStep hash char)) as [a Ha].
    destruct (hashStep_congruent hash char) as [b Hb].
    exists (a + b * 31 ^ Z.of_nat (String.length rest)).
    rewrite Ha, Hb, Nat2Z.inj_succ, Z.pow_succ_r by lia. lia.
Qed.

Lemma hashLoop_range str hash :
  - 2 ^ 31 <= hash < 2 ^ 31 -> - 2 ^ 31 <= hashLoop str hash < 2 ^ 31.
Proof.
  revert hash. induction str as [|char rest IH]; intros hash H; [exact H|].
  cbn [hashLoop]. apply IH. apply toInt32_range.
Qed.

Lemma hashLoop_app a b hash : hashLoop (a +:+ b) hash = hashLoop b (hashLoop a hash).
Proof.
  revert hash. induction a as [|char rest IH]; intros hash.
  - now rewrite append_nil_l.
  - rewrite append_cons. cbn [hashLoop]. apply IH.
Qed.

Lemma hashLoop_determined str h1 h2 :
  - 2 ^ 31 <= h1 < 2 ^ 31 -> - 2 ^ 31 <= h2 < 2 ^ 31 ->
  (exists k, h1 * 31 ^ Z.of_nat (String.length str) = h2 * 31 ^ Z.of_nat (String.length str)
             + k * 2 ^ 32) ->
  hashLoop str h1 = hashLoop str h2.
Proof.
  intros R1 R2 [k Hk].
  pose proof (hashLoop_range str h1 R1) as Q1.
  pose proof (hashLoop_range str h2 R2) as Q2.
  destruct (hashLoop_congruent str h1) as [a Ha], (hashLoop_congruent str h2) as [b Hb].
  rewrite <- (toInt32_small _ Q1), <- (toInt32_small _ Q2).
  apply toInt32_congruent with (k + a - b). lia.
Qed.

End HashFacts.

Section HashMore.
Import Content.

(** Blocks of equal length and equal hash number act alike on every hash
    value. *)
Lemma hashLoop_equal_blocks a b hash :
  String.length a = String.length b -> hashNumber a = hashNumber b ->
  - 2 ^ 31 <= hash < 2 ^ 31 ->
  hashLoop a hash = hashLoop b hash.
Proof.
  unfold hashNumber. intros Hlen Hnum R.
  pose proof (hashLoop_range a hash R) as Qa.
  pose proof (hashLoop_range b hash R) as Qb.
  destruct (hashLoop_congruent a 0) as [a0 Ha0], (hashLoop_congruent b 0) as [b0 Hb0].
  destruct (hashLoop_congruent a hash) as [a1 Ha1], (hashLoop_congruent b hash) as [b1 Hb1].
  rewrite <- (toInt32_small _ Qa), <- (toInt32_small _ Qb).
  apply toInt32_congruent with (b0 - a0 + a1 - b1). rewrite Hlen in *. lia.
Qed.

(** The fuel of [toString36] is enough: more fuel gives the same digits. *)
Lemma digits36_fuel fuel extra n acc :
  0 <= n < 2 ^ Z.of_nat fuel ->
  digits36 (fuel + extra) n acc = digits36 fuel n acc.
Proof.
  revert n acc. induction fuel as [|fuel IH]; intros n acc Hn.
  - cbn in Hn. assert (n = 0) as -> by lia. now destruct extra.
  - cbn [Nat.add digits36]. destruct (Z.eqb_spec n 0) as [_|Hne]; [reflexivity|].
    apply IH. rewrite Nat2Z.inj_succ, Z.pow_succ_r in Hn by lia.
    split; [apply Z.div_pos; lia|].
    apply Z.div_lt_upper_bound; lia.
Qed.

End HashMore.

Example hash_of_hello : Content.simpleHash "hello" = "1n1e4y".
Proof. vm_compute. reflexivity. Qed.

Example hash_negative : Content.simpleHash "Page content" = "-dfngu0".
Proof. vm_compute. reflexivity. Qed.

(** X10. [simpleHash] is the polynomial hash in base 31 over the code units
    of the string, reduced to a signed 32-bit integer, written in base
    36: the number it renders is
    [ToInt32(c0*31^(n-1) + c1*31^(n-2) + ... + c(n-1))], always between
    [-2^31] and [2^31 - 1]. *)
Theorem simpleHash_is_base31_polynomial (str : string) :
  Content.hashNumber str = Content.toInt32 (Content.polynomial31 str)
  /\ - 2 ^ 31 <= Content.hashNumber str < 2 ^ 31
  /\ Content.simpleHash str = Content.toString36 (Content.toInt32 (Content.polynomial31 str)).
Proof.
  assert (R : - 2 ^ 31 <= Content.hashNumber str < 2 ^ 31)
    by (apply hashLoop_range; lia).
  assert (E : Content.hashNumber str = Content.toInt32 (Content.polynomial31 str)).
  { rewrite <- (toInt32_small _ R). unfold Content.hashNumber.
    destruct (hashLoop_congruent str 0) as [k Hk].
    apply toInt32_congruent with k. lia. }
  split; [exact E|]. split; [exact R|].
  unfold Content.simpleHash. now rewrite E.
Qed.

(** X11. The hash does not tell apart two texts that differ in a block of the
    same length and the same hash: if [a] and [b] have equal length and equal
    hash numbers, then [simpleHash(p + a + q) = simpleHash(p + b + q)] for all
    [p] and [q].  "Aa" and "BB" are such blocks, so change detection by hash
    misses some changes. *)
Theorem simpleHash_equal_blocks_collide (a b p q : string) :
  String.length a = String.length b ->
  Content.hashNumber a = Content.hashNumber b ->
  Content.simpleHash (p +:+ a +:+ q) = Content.simpleHash (p +:+ b +:+ q).
Proof.
  intros Hlen Hnum. unfold Content.simpleHash, Content.hashNumber.
  rewrite !hashLoop_app. f_equal. f_equal.
  apply hashLoop_equal_blocks; [exact Hlen | exact Hnum |].
  apply hashLoop_range. lia.
Qed.

Lemma simpleHash_equal_blocks_collide_witness :
  "Aa" <> "BB"
  /\ Content.simpleHash ("price: " +:+ "Aa" +:+ " euros")
     = Content.simpleHash ("price: " +:+ "BB" +:+ " euros").
Proof.
  split; [discriminate|].
  apply (simpleHash_equal_blocks_collide "Aa" "BB" "price: " " euros");
    vm_compute; reflexivity.
Defined.
(* ===================================================================== *)
(** ** Properties of the chunk extraction *)
(* ===================================================================== *)

Example chunks_of_sample :
  option_map (map (fun c => (Extractor.priority c, Extractor.text c)))
             (Content.extractContentChunks Content.sampleDoc None)
  = Some [ (80, "Getting started");
           (75, "npm install sidescope");
           (70, "Install");
           (70, "This guide walks through the installation step by step.") ].
Proof. vm_compute. reflexivity. Qed.

Section TrimFacts.

Lemma trimEnd_idempotent s : JS.trimEnd (JS.trimEnd s) = JS.trimEnd s.
Proof.
  induction s as [|c r IH]; [reflexivity|].
  cbn [JS.trimEnd]. destruct (JS.trimEnd r) as [|c' r'] eqn:E.
  - destruct (JS.isWhiteSpace c) eqn:W; [reflexivity|]. cbn. now rewrite W.
  - cbn [JS.trimEnd]. cbn [JS.trimEnd] in IH. now rewrite IH.
Qed.

(** A string that does not start with whitespace keeps its first character
    under [trimEnd]. *)
Lemma trimEnd_head c r :
  JS.isWhiteSpace c = false -> exists r', JS.trimEnd (String c r) = String c r'.
Proof.
  intros W. cbn [JS.trimEnd]. destruct (JS.trimEnd r); [rewrite W|]; eauto.
Qed.

Lemma trimStart_head s :
  JS.trimStart s = "" \/ exists c r, JS.trimStart s = String c r /\ JS.isWhiteSpace c = false.
Proof.
  induction s as [|c r IH]; [now left|].
  cbn. destruct (JS.isWhiteSpace c) eqn:W; [exact IH|]. right. now exists c, r.
Qed.

Lemma trim_idempotent s : JS.trim (JS.trim s) = JS.trim s.
Proof.
  unfold JS.trim. destruct (trimStart_head s) as [->|(c & r & -> & W)]; [reflexivity|].
  destruct (trimEnd_head c r W) as [r' E]. rewrite E. cbn [JS.trimStart]. rewrite W.
  rewrite <- E. apply trimEnd_idempotent.
Qed.

End TrimFacts.

Section SortFacts.
Import Extractor Content.

Lemma insertByPriority_perm c l : Permutation (insertByPriority c l) (c :: l).
Proof.
  induction l as [|x l IH]; cbn; [reflexivity|].
  destruct (priority x <=? priority c); [reflexivity|].
  rewrite IH. apply perm_swap.
Qed.

Lemma sortByPriority_perm l : Permutation (sortByPriority l) l.
Proof.
  induction l as [|c l IH]; cbn; [reflexivity|].
  rewrite insertByPriority_perm. now constructor.
Qed.

Lemma descending_cons c l :
  descending (c :: l) <-> Forall (fun later => priority later <= priority c) l /\ descending l.
Proof. reflexivity. Qed.

Lemma insertByPriority_descending c l : descending l -> descending (insertByPriority c l).
Proof.
  induction l as [|x l IH]; intros H.
  - cbn. split; [constructor | exact I].
  - cbn [insertByPriority]. destruct (Z.leb_spec (priority x) (priority c)) as [Hle|Hgt].
    + apply descending_cons. split; [|exact H].
      apply descending_cons in H as [Hx _]. constructor; [exact Hle|].
      eapply List.Forall_impl; [|exact Hx]. cbn. intros; lia.
    + apply descending_cons in H as [Hx Hl]. apply descending_cons. split; [|now apply IH].
      apply List.Forall_forall. intros y Hy.
      apply (Permutation_in _ (insertByPriority_perm c l)) in Hy as [<-|Hy]; [lia|].
      now apply (proj1 (List.Forall_forall _ _) Hx).
Qed.

Lemma sortByPriority_descending l : descending (sortByPriority l).
Proof.
  induction l as [|c l IH]; [exact I|]. cbn. now apply insertByPriority_descending.
Qed.

(** The sort is stable. *)
Lemma insertByPriority_stable p c l :
  ofPriority p (insertByPriority c l) = ofPriority p (c :: l).
Proof.
  induction l as [|x l IH]; [reflexivity|].
  cbn [insertByPriority]. destruct (Z.leb_spec (priority x) (priority c)) as [Hle|Hgt];
    [reflexivity|].
  unfold ofPriority in *. cbn [List.filter] in *. rewrite IH.
  destruct (Z.eqb_spec (priority c) p), (Z.eqb_spec (priority x) p); try reflexivity. lia.
Qed.

Lemma sortByPriority_stable p l : ofPriority p (sortByPriority l) = ofPriority p l.
Proof.
  induction l as [|c l IH]; [reflexivity|].
  cbn [sortByPriority fold_right]. rewrite insertByPriority_stable.
  unfold ofPriority in *. cbn [List.filter]. fold (sortByPriority l). now rewrite IH.
Qed.

Lemma descending_split n l :
  descending l ->
  descending (firstn n l)
  /\ forall kept left, In kept (firstn n l) -> In left (skipn n l) ->
                       priority left <= priority kept.
Proof.
  revert n. induction l as [|c l IH]; intros n H.
  - rewrite firstn_nil, skipn_nil. split; [exact I | intros ? ? []].
  - destruct n as [|n]; [split; [exact I | intros ? ? []]|].
    apply descending_cons in H as [Hc Hl]. destruct (IH n Hl) as [Hd Hcut].
    cbn [firstn skipn]. split.
    + apply descending_cons. split; [|exact Hd].
      apply List.Forall_forall. intros y Hy.
      apply (proj1 (List.Forall_forall _ _) Hc). rewrite <- (firstn_skipn n l).
      apply in_or_app. now left.
    + intros kept left [<-|Hk] Hleft; [|now apply Hcut].
      apply (proj1 (List.Forall_forall _ _) Hc). rewrite <- (firstn_skipn n l).
      apply in_or_app. now right.
Qed.

Lemma descending_app_cut a b :
  descending (a ++ b) ->
  forall kept left, In kept a -> In left b -> priority left <= priority kept.
Proof.
  intros Hd. pose proof (descending_split (length a) (a ++ b) Hd) as [_ Hcut].
  rewrite firstn_app, Nat.sub_diag, firstn_all, firstn_O, app_nil_r in Hcut.
  rewrite skipn_app, Nat.sub_diag, skipn_all, skipn_O in Hcut.
  exact Hcut.
Qed.

Lemma sliceFromStart_firstn {A} (l : list A) e :
  exists n, sliceFromStart l e = firstn n l
            /\ (0 <= e -> n = Z.to_nat e).
Proof.
  unfold sliceFromStart. destruct (Z.ltb_spec e 0); eexists; (split; [reflexivity|]); lia.
Qed.

(** *** Every pushed chunk is well made *)

Lemma estimateTokens_pos s : 0 < JS.len s -> 1 <= estimateTokens s.
Proof. intros H. unfold estimateTokens. apply Z.div_le_lower_bound; lia. Qed.

Lemma longerThan_spec n s : 0 <= n -> longerThan n s = true -> n < JS.len s.
Proof.
  unfold longerThan. intros Hn H. apply andb_true_iff in H as [_ H]. now apply Z.ltb_lt.
Qed.

Lemma trimmedText_trimmed el : trimmedText el = JS.trim (trimmedText el).
Proof. unfold trimmedText. now rewrite trim_idempotent. Qed.

Lemma headingLevel_digit el l : headingLevel el = Some l -> 0 <= l <= 9.
Proof.
  unfold headingLevel. destruct (Resolver.tagName el) as [|? [|c ?]]; try discriminate.
  unfold Parser.digit.
  destruct (((48 <=? JS.code c) && (JS.code c <=? 57))%N) eqn:E; [|discriminate].
  intros [= <-]. apply andb_true_iff in E as [E1 E2].
  apply N.leb_le in E1, E2. lia.
Qed.

Lemma headingChunks_wellMade els chunks :
  headingChunks els = Some chunks -> Forall wellMade chunks.
Proof.
  revert chunks. induction els as [|el els IH]; intros chunks H.
  - injection H as <-. constructor.
  - cbn [headingChunks] in H. destruct (longerThan 2 (trimmedText el)) eqn:L; [|now apply IH].
    destruct (headingLevel el) as [l|] eqn:Hl; [|discriminate].
    destruct (headingChunks els) as [more|]; [|discriminate].
    injection H as <-. constructor; [|now apply IH].
    apply longerThan_spec in L; [|lia].
    unfold wellMade. cbn. split; [symmetry; apply trim_idempotent|]. split; [reflexivity|].
    split; [apply estimateTokens_pos; lia|]. split; [exact L|].
    exists l. split; [reflexivity|]. split; [exact (headingLevel_digit el l Hl) | reflexivity].
Qed.

Lemma paragraphChunks_wellMade els index :
  0 <= index -> Forall wellMade (paragraphChunks els index).
Proof.
  revert index. induction els as [|el els IH]; intros index Hi; [constructor|].
  cbn [paragraphChunks]. destruct (longerThan 30 (trimmedText el)) eqn:L;
    [|apply IH; lia].
  constructor; [|apply IH; lia].
  apply longerThan_spec in L; [|lia].
  unfold wellMade. cbn. split; [symmetry; apply trim_idempotent|]. split; [reflexivity|].
  split; [apply estimateTokens_pos; lia|]. split; [exact L|]. split; [reflexivity|].
  pose proof (Z.div_pos index 3 Hi ltac:(lia)). lia.
Qed.

Lemma plainChunks_wellMade type p n els :
  0 <= n ->
  (forall text, n < JS.len text ->
     match type with
     | Heading => False
     | Paragraph => False
     | Code => 10 < JS.len text /\ p = 75
     | ListChunk => 20 < JS.len text /\ p = 60
     | Quote => 20 < JS.len text /\ p = 55
     end) ->
  Forall wellMade (plainChunks type p n els).
Proof.
  intros Hn Htype. induction els as [|el els IH]; [constructor|].
  cbn [plainChunks]. destruct (longerThan n (trimmedText el)) eqn:L; [|exact IH].
  constructor; [|exact IH].
  apply longerThan_spec in L; [|exact Hn]. specialize (Htype _ L).
  unfold wellMade. cbn. split; [symmetry; apply trim_idempotent|]. split; [reflexivity|].
  split; [apply estimateTokens_pos; lia|].
  destruct type; tauto.
Qed.

Lemma pushedChunks_wellMade doc pushed :
  pushedChunks doc = Some pushed -> Forall wellMade pushed.
Proof.
  unfold pushedChunks. destruct (headingChunks _) as [hs|] eqn:H; [|discriminate].
  intros [= <-]. repeat (apply Forall_app; split).
  - now apply headingChunks_wellMade in H.
  - apply paragraphChunks_wellMade. lia.
  - apply plainChunks_wellMade; [lia | intros; lia].
  - apply plainChunks_wellMade; [lia | intros; lia].
  - apply plainChunks_wellMade; [lia | intros; lia].
Qed.

(** What [extractContentChunks] returns, against what was pushed. *)
Lemma extractContentChunks_spec doc maxChunks pushed :
  pushedChunks doc = Some pushed ->
  exists n,
    extractContentChunks doc maxChunks = Some (firstn n (sortByPriority pushed))
    /\ (0 <= match maxChunks with Some m => m | None => 50 end ->
        n = Z.to_nat (match maxChunks with Some m => m | None => 50 end)).
Proof.
  intros H. unfold extractContentChunks. rewrite H.
  destruct (sliceFromStart_firstn (sortByPriority pushed)
              (match maxChunks with Some m => m | None => 50 end)) as (n & -> & Hn).
  now exists n.
Qed.

Lemma ofPriority_firstn p n l :
  exists later, ofPriority p l = ofPriority p (firstn n l) ++ later.
Proof.
  exists (ofPriority p (skipn n l)). unfold ofPriority.
  now rewrite <- List.filter_app, firstn_skipn.
Qed.

End SortFacts.

(** X12. [extractContentChunks(maxChunks)] returns the chunks of highest
    priority: what it returns and what it drops make up the pushed chunks;
    the returned chunks are in order of decreasing priority and no dropped
    chunk has a higher priority than a returned one; chunks of equal priority
    keep the order in which they were pushed (headings, paragraphs, code,
    lists, quotes, each in document order); and for [maxChunks >= 0] at most
    [maxChunks] chunks are returned, 50 when it is not given. *)
Theorem extractContentChunks_top_by_priority
    (doc : Resolver.Document) (maxChunks : option Z) (pushed : list Extractor.ContentChunk) :
  Content.pushedChunks doc = Some pushed ->
  exists chunks dropped,
    Content.extractContentChunks doc maxChunks = Some chunks
    /\ Permutation pushed (chunks ++ dropped)
    /\ Content.descending chunks
    /\ (forall kept left, In kept chunks -> In left dropped ->
                          Extractor.priority left <= Extractor.priority kept)
    /\ (forall p, exists later,
           Content.ofPriority p pushed = Content.ofPriority p chunks ++ later)
    /\ (forall limit, maxChunks = Some limit -> 0 <= limit ->
                      Z.of_nat (length chunks) <= limit)
    /\ (maxChunks = None -> (length chunks <= 50)%nat).
Proof.
  intros H. destruct (extractContentChunks_spec doc maxChunks pushed H) as (n & He & Hn).
  exists (firstn n (Content.sortByPriority pushed)), (skipn n (Content.sortByPriority pushed)).
  destruct (descending_split n _ (sortByPriority_descending pushed)) as [Hd Hcut].
  split; [exact He|]. split; [now rewrite firstn_skipn, sortByPriority_perm|].
  split; [exact Hd|]. split; [exact Hcut|]. split; [|split].
  - intros p. rewrite <- (sortByPriority_stable p pushed). apply ofPriority_firstn.
  - intros limit -> Hl. rewrite (Hn Hl), length_firstn. lia.
  - intros ->. rewrite (Hn ltac:(lia)), length_firstn. lia.
Qed.

(** On the sample page with room for two chunks: the first heading and the
    code block stay, two chunks are dropped. *)
Lemma extractContentChunks_top_by_priority_witness :
  exists (chunks dropped : list Extractor.ContentChunk),
    Content.extractContentChunks Content.sampleDoc (Some 2) = Some chunks
    /\ map Extractor.priority chunks = [80; 75]
    /\ length dropped = 2%nat.
Proof.
  destruct (Content.pushedChunks Content.sampleDoc) as [pushed|] eqn:E;
    [|vm_compute in E; discriminate].
  destruct (extractContentChunks_top_by_priority Content.sampleDoc (Some 2) pushed E)
    as (chunks & dropped & He & Hperm & _).
  exists chunks, dropped. split; [exact He|].
  vm_compute in E. injection E as <-.
  vm_compute in He. injection He as <-.
  split; [reflexivity|].
  apply Permutation_length in Hperm. cbn in Hperm. lia.
Defined.

Section ChunkMore.
Import Extractor Content.

Lemma headingChunks_total els :
  Forall (fun heading => headingLevel heading <> None) els ->
  exists chunks, headingChunks els = Some chunks.
Proof.
  induction 1 as [|el els Hel _ IH]; [now exists []|].
  destruct IH as [more Hmore]. cbn [headingChunks]. rewrite Hmore.
  destruct (longerThan 2 (trimmedText el)); [|now exists more].
  destruct (headingLevel el) as [l|]; [|congruence]. eauto.
Qed.

Lemma extractContentChunks_from_pushed doc maxChunks chunks :
  extractContentChunks doc maxChunks = Some chunks ->
  exists pushed, pushedChunks doc = Some pushed /\ forall c, In c chunks -> In c pushed.
Proof.
  unfold extractContentChunks. destruct (pushedChunks doc) as [pushed|]; [|discriminate].
  intros [= <-]. exists pushed. split; [reflexivity|]. intros c Hc.
  destruct (sliceFromStart_firstn (sortByPriority pushed)
              (match maxChunks with Some m => m | None => 50 end)) as (n & Hn & _).
  rewrite Hn in Hc.
  apply (Permutation_in _ (sortByPriority_perm pushed)).
  rewrite <- (firstn_skipn n (sortByPriority pushed)). apply in_or_app. now left.
Qed.

End ChunkMore.

(** X13. Every chunk [extractContentChunks] returns is well made: its text is
    trimmed and longer than the threshold of its type (2 for headings, 30 for
    paragraphs, 10 for code, 20 for lists and quotes), its token count is
    [estimateTokens(text)] and at least 1, only headings have a level, and its
    priority is 90 - 10 * level for a heading, between 40 and 70 for a
    paragraph, 75 for code, 60 for a list, 55 for a quote.  The extraction
    yields such a list whenever every heading has a digit in second place of
    its tag name (as h1..h6 have). *)
Theorem extractContentChunks_chunks_well_made
    (doc : Resolver.Document) (maxChunks : option Z) :
  (Forall (fun heading => Content.headingLevel heading <> None)
          (Resolver.querySelectorAll doc "h1, h2, h3, h4, h5, h6") ->
   exists chunks, Content.extractContentChunks doc maxChunks = Some chunks)
  /\ (forall chunks,
        Content.extractContentChunks doc maxChunks = Some chunks ->
        Forall Content.wellMade chunks).
Proof.
  split.
  - intros Hh. apply headingChunks_total in Hh as [hs Hhs].
    unfold Content.extractContentChunks, Content.pushedChunks. rewrite Hhs. eauto.
  - intros chunks H.
    destruct (extractContentChunks_from_pushed _ _ _ H) as (pushed & Hp & Hsub).
    apply pushedChunks_wellMade in Hp.
    apply List.Forall_forall. intros c Hc.
    exact (proj1 (List.Forall_forall _ _) Hp c (Hsub c Hc)).
Qed.

(** X14. The page text of the balanced and thorough modes,
    [buildOptimizedContent(extractContentChunks(n), budget)], is built from the
    chunks of highest priority: the chunks it renders come first among the
    extracted ones, and no extracted chunk that is left out has a higher
    priority than a rendered one. *)
Theorem snippet_renders_highest_priorities
    (doc : Resolver.Document) (maxChunks : option Z) (maxTokens : Z)
    (chunks : list Extractor.ContentChunk) :
  Content.extractContentChunks doc maxChunks = Some chunks ->
  exists rendered rest,
    chunks = rendered ++ rest
    /\ Extractor.buildOptimizedContent chunks maxTokens
       = JS.trim (Extractor.renderChunks rendered None "")
    /\ forall kept left, In kept rendered -> In left rest ->
                         Extractor.priority left <= Extractor.priority kept.
Proof.
  intros H.
  destruct (selectChunks_prefix chunks maxTokens 0) as [rest [Heq _]].
  exists (Extractor.selectChunks chunks maxTokens 0), rest.
  split; [exact Heq|]. split; [reflexivity|].
  assert (Hd : Content.descending chunks).
  { unfold Content.extractContentChunks in H.
    destruct (Content.pushedChunks doc) as [pushed|]; [|discriminate].
    injection H as <-.
    destruct (sliceFromStart_firstn (Content.sortByPriority pushed)
                (match maxChunks with Some m => m | None => 50 end)) as (n & -> & _).
    apply descending_split, sortByPriority_descending. }
  apply descending_app_cut. rewrite <- Heq. exact Hd.
Qed.

(** With a budget of 12 tokens the sample page is rendered from its first
    heading and its code block. *)
Lemma snippet_renders_highest_priorities_witness :
  exists chunks,
    Content.extractContentChunks Content.sampleDoc (Some 30) = Some chunks
    /\ exists rendered rest,
        chunks = rendered ++ rest
        /\ Extractor.buildOptimizedContent chunks 12
           = JS.trim (Extractor.renderChunks rendered None "")
        /\ forall kept left, In kept rendered -> In left rest ->
                             Extractor.priority left <= Extractor.priority kept.
Proof.
  destruct (Content.extractContentChunks Content.sampleDoc (Some 30)) as [chunks|] eqn:E;
    [|vm_compute in E; discriminate].
  exists chunks. split; [reflexivity|].
  exact (snippet_renders_highest_priorities Content.sampleDoc (Some 30) 12 chunks E).
Defined.
(* ===================================================================== *)
(** ** Properties of quality scoring, metadata and plain text extraction *)
(* ===================================================================== *)

Example metadata_of_sample :
  Content.keywords (Content.extractMetadata Content.samplePage)
  = Some ["rocq"; "proofs"; "agents"]
  /\ Content.contentType (Content.extractMetadata Content.samplePage) = Content.Article
  /\ Content.author (Content.extractMetadata Content.samplePage) = None
  /\ Content.language (Content.extractMetadata Content.samplePage) = Some "en"
  /\ Content.readingTime (Content.extractMetadata Content.samplePage) = 1
  /\ Content.extractSimpleText Content.samplePage = "A short page about proofs".
Proof. vm_compute. repeat split; reflexivity. Qed.

Section QualityFacts.
Import Content.

Lemma score_sum m a n :
  clamp (addIf n 5 (addIf (negb a) 15 (addIf m 20 50)))
  = 50 + (if m then 20 else 0) + (if a then 0 else 15) + (if n then 5 else 0).
Proof. destruct m, a, n; reflexivity. Qed.

Lemma readability_range p h l :
  50 <= clamp (addIf l 10 (addIf h 15 (addIf p 20 50))) <= 95.
Proof. destruct p, h, l; unfold clamp, addIf; lia. Qed.

Lemma density_range w c k :
  50 <= clamp (addIf k 15 (addIf c 15 (addIf w 20 50))) <= 100.
Proof. destruct w, c, k; unfold clamp, addIf; lia. Qed.

Lemma qualityWith_scores selectors page :
  let q := qualityWith selectors page in
  score q = 50 + (if hasMainContent q then 20 else 0) + (if hasAds q then 0 else 15)
            + (if hasNavigation q then 5 else 0)
  /\ 50 <= score q <= 90
  /\ 50 <= readability q <= 95
  /\ 50 <= density q <= 100.
Proof.
  unfold qualityWith. cbn [score readability density hasMainContent hasAds hasNavigation].
  split; [apply score_sum|].
  split; [rewrite score_sum; repeat destruct (_ : bool); lia|].
  split; [apply readability_range | apply density_range].
Qed.

End QualityFacts.

(** X15. [calculateContentQuality] never changes a score by its clamping to
    0..100, and never rates a page below 50: the overall score is
    50 + 20 (main content found) + 15 (no ads) + 5 (navigation found), so
    between 50 and 90; readability is between 50 and 95 and density between 50
    and 100.  This holds for the content script's version and for the one of
    the extraction utilities. *)
Theorem content_quality_scores_in_range (page : Content.Page) :
  let ofScript := Content.calculateContentQuality page in
  let ofUtilities := Content.calculateContentQualityOfUtilities page in
  (Content.score ofScript
   = 50 + (if Content.hasMainContent ofScript then 20 else 0)
     + (if Content.hasAds ofScript then 0 else 15)
     + (if Content.hasNavigation ofScript then 5 else 0)
   /\ 50 <= Content.score ofScript <= 90
   /\ 50 <= Content.readability ofScript <= 95
   /\ 50 <= Content.density ofScript <= 100)
  /\ (Content.score ofUtilities
      = 50 + (if Content.hasMainContent ofUtilities then 20 else 0)
        + (if Content.hasAds ofUtilities then 0 else 15)
        + (if Content.hasNavigation ofUtilities then 5 else 0)
      /\ 50 <= Content.score ofUtilities <= 90
      /\ 50 <= Content.readability ofUtilities <= 95
      /\ 50 <= Content.density ofUtilities <= 100).
Proof.
  intros ofScript ofUtilities. split; apply qualityWith_scores.
Qed.

Section MetadataFacts.
Import Content.

Lemma nonEmpty_filled x : nonEmpty x <> Some "".
Proof.
  unfold nonEmpty. destruct x as [[|c s]|]; cbn; congruence.
Qed.

Lemma orElse_filled a b : b <> Some "" -> orElse a b <> Some "".
Proof.
  intros Hb. unfold orElse. pose proof (nonEmpty_filled a) as Ha.
  destruct (nonEmpty a); congruence.
Qed.

Lemma getMetaContent_filled doc name : getMetaContent doc name <> Some "".
Proof.
  unfold getMetaContent. destruct (first doc (metaSelector name)); [|discriminate].
  apply nonEmpty_filled.
Qed.

Lemma occurs_trimEnd c s : JS.occurs c s = false -> JS.occurs c (JS.trimEnd s) = false.
Proof.
  induction s as [|x s IH]; intros H; [reflexivity|].
  cbn [JS.occurs] in H. apply orb_false_iff in H as [Hx Hs].
  rewrite trimEnd_cons. specialize (IH Hs).
  destruct (JS.trimEnd s) as [|a r].
  - destruct (JS.isWhiteSpace x); [reflexivity|]. cbn. now rewrite Hx.
  - cbn [JS.occurs] in *. now rewrite Hx, IH.
Qed.

Lemma occurs_trim c s : JS.occurs c s = false -> JS.occurs c (JS.trim s) = false.
Proof. intros H. unfold JS.trim. now apply occurs_trimEnd, occurs_trimStart. Qed.

Lemma occurs_of_list c l :
  ~ In c l -> JS.occurs c (string_of_list_ascii l) = false.
Proof.
  induction l as [|x l IH]; intros H; [reflexivity|].
  cbn. apply orb_false_iff. split.
  - apply Ascii.eqb_neq. intros ->. apply H. now left.
  - apply IH. intros Hin. apply H. now right.
Qed.

(** No piece of a split holds the separator. *)
Lemma splitOn_pieces sep s cur piece :
  ~ In sep cur -> In piece (splitOn sep s cur) -> JS.occurs sep piece = false.
Proof.
  revert cur. induction s as [|c r IH]; intros cur Hcur Hin.
  - cbn in Hin. destruct Hin as [<-|[]]. apply occurs_of_list.
    intros H. apply Hcur. now apply in_rev.
  - cbn [splitOn] in Hin. destruct (Ascii.eqb_spec c sep) as [->|Hne].
    + destruct Hin as [<-|Hin].
      * apply occurs_of_list. intros H. apply Hcur. now apply in_rev.
      * apply (IH []); [intros [] | exact Hin].
    + apply (IH (c :: cur)); [|exact Hin]. intros [E|H]; [congruence | now apply Hcur].
Qed.

Lemma parseKeywords_clean keywordsStr k :
  In k (parseKeywords keywordsStr) ->
  k <> "" /\ JS.trim k = k /\ JS.occurs "," k = false.
Proof.
  unfold parseKeywords. intros H. apply filter_In in H as [H Hk].
  apply in_map_iff in H as (piece & <- & Hpiece).
  split; [intros E; rewrite E in Hk; discriminate|].
  split; [apply trim_idempotent|].
  apply occurs_trim. apply (splitOn_pieces _ _ [] _ ltac:(intros []) Hpiece).
Qed.

Lemma detectType_article doc :
  detectType doc = Article <-> getMetaContent doc "og:type" = Some "article".
Proof.
  unfold detectType. destruct (getMetaContent doc "og:type") as [t|].
  - destruct (String.eqb_spec t "article") as [->|Hne]; [tauto|].
    split; [|congruence].
    repeat match goal with |- context [if ?b then _ else _] => destruct b end; discriminate.
  - split; [|discriminate].
    repeat match goal with |- context [if ?b then _ else _] => destruct b end; discriminate.
Qed.

End MetadataFacts.

(** X16. What [extractMetadata] never returns: an empty author, description,
    publish date or language (an empty attribute counts as absent, and the
    fallback tag is read instead); an empty keyword, a keyword with
    surrounding whitespace or a comma; a reading time below one minute, even
    for an empty page.  The type is [article] exactly when the page declares
    [og:type] "article", whatever else it contains. *)
Theorem extractMetadata_fields_are_clean (page : Content.Page) :
  let metadata := Content.extractMetadata page in
  1 <= Content.readingTime metadata
  /\ Content.author metadata <> Some ""
  /\ Content.description metadata <> Some ""
  /\ Content.publishDate metadata <> Some ""
  /\ Content.language metadata <> Some ""
  /\ (forall keywords keyword,
        Content.keywords metadata = Some keywords -> In keyword keywords ->
        keyword <> "" /\ JS.trim keyword = keyword /\ JS.occurs "," keyword = false)
  /\ (Content.contentType metadata = Content.Article
      <-> Content.getMetaContent (Content.document page) "og:type" = Some "article").
Proof.
  intros metadata. subst metadata. unfold Content.extractMetadata.
  cbn [Content.readingTime Content.author Content.description Content.publishDate
       Content.language Content.keywords Content.contentType].
  split.
  { pose proof (split_ws_aux_length (Content.bodyTextContent page) [] false) as Hw.
    unfold JS.split_ws. apply Z.div_le_lower_bound; lia. }
  repeat (split; [apply orElse_filled, getMetaContent_filled|]).
  split; [|apply detectType_article].
  intros keywords keyword Hk Hin.
  destruct (Content.getMetaContent (Content.document page) "keywords") as [keywordsStr|];
    [|discriminate].
  injection Hk as <-. now apply parseKeywords_clean in Hin.
Qed.

Section PlainTextFacts.
Import Content.

Lemma substring_length m s :
  String.length (String.substring 0 m s) = Nat.min m (String.length s).
Proof.
  revert s. induction m as [|m IH]; intros s; destruct s as [|c s]; cbn; try reflexivity.
  now rewrite IH.
Qed.

Lemma textUpTo_bounds limit page :
  18 <= limit ->
  textUpTo limit page <> "" /\ JS.len (textUpTo limit page) <= limit.
Proof.
  intros Hl. unfold textUpTo.
  set (fallback := match bodyInnerText page with
                   | Some innerText => _
                   | None => _
                   end).
  assert (Hf : fallback <> "" /\ JS.len fallback <= limit).
  { subst fallback. destruct (bodyInnerText page) as [t|]; [|split; [discriminate | unfold JS.len; cbn [String.length]; lia]].
    cbv zeta.
    destruct (String.substring 0 (Z.to_nat limit) (JS.trim t)) as [|c s] eqn:E;
      [cbn [JS.truthy]; split; [discriminate | unfold JS.len; cbn [String.length]; lia]|].
    cbn [JS.truthy]. split; [discriminate|]. rewrite <- E. unfold JS.len.
    rewrite substring_length. lia. }
  destruct (first (document page) mainSelector) as [mainContent|]; [|exact Hf].
  destruct (JS.truthy (Resolver.textContent mainContent)
            && (200 <? JS.len (JS.trim (Resolver.textContent mainContent)))) eqn:E;
    [|exact Hf].
  apply andb_true_iff in E as [_ E]. apply Z.ltb_lt in E. unfold JS.len in *.
  split.
  - intros Hempty. apply (f_equal String.length) in Hempty.
    rewrite substring_length in Hempty. cbn in Hempty. lia.
  - rewrite substring_length. lia.
Qed.

End PlainTextFacts.

(** X17. The plain text of a page is never empty and never longer than its
    cut: [extractSimpleText] (the fast mode of the content script) returns
    between 1 and 8000 characters; the function injected by
    [extractContentDirectly] returns between 1 and 8000 characters in thorough
    mode and between 1 and 6000 otherwise.  A page without usable text gives
    the placeholder "(No content found)". *)
Theorem plain_text_is_non_empty_and_cut (page : Content.Page) (qual : Content.Quality) :
  (Content.extractSimpleText page <> ""
   /\ JS.len (Content.extractSimpleText page) <= 8000)
  /\ (Content.injectedExtraction qual page <> ""
      /\ JS.len (Content.injectedExtraction qual page)
         <= match qual with Content.Thorough => 8000 | _ => 6000 end)
  /\ (Content.first (Content.document page) Content.mainSelector = None ->
      Content.bodyInnerText page = None ->
      Content.extractSimpleText page = "(No content found)").
Proof.
  split; [apply textUpTo_bounds; lia|].
  split; [apply textUpTo_bounds; destruct qual; lia|].
  intros Hmain Hbody. unfold Content.extractSimpleText, Content.textUpTo.
  now rewrite Hmain, Hbody.
Qed.
(* ===================================================================== *)
(** ** Properties of the settings store *)
(* ===================================================================== *)

Section SettingsFacts.
Import SettingsStore.

(** The provider loop, entry by entry. *)
Lemma merge_lookup (defaults saved : gmap string ProviderConfig) pid :
  map_fold mergeProvider defaults saved !! pid
  = match saved !! pid with
    | Some config =>
        Some (match defaults !! pid with
              | Some base => spread base config
              | None => config
              end)
    | None => defaults !! pid
    end.
Proof.
  apply (map_fold_weak_ind
           (fun r m => r !! pid
                       = match m !! pid with
                         | Some config =>
                             Some (match defaults !! pid with
                                   | Some base => spread base config
                                   | None => config
                                   end)
                         | None => defaults !! pid
                         end)).
  - now rewrite lookup_empty.
  - intros i x m r Hi IH. unfold mergeProvider.
    destruct (decide (i = pid)) as [->|Hne].
    + rewrite lookup_insert_eq, Hi in *. rewrite IH.
      destruct (defaults !! pid); now rewrite lookup_insert_eq.
    + rewrite (lookup_insert_ne m) by exact Hne.
      destruct (r !! i); now rewrite lookup_insert_ne.
Qed.

Lemma default_config_plain pid base :
  DEFAULT_PROVIDER_CONFIGS !! pid = Some base -> base = mkConfig "" None.
Proof.
  unfold DEFAULT_PROVIDER_CONFIGS. intros H.
  repeat (apply lookup_insert_Some in H as [[_ <-]|[_ H]]; [reflexivity|]).
  now rewrite lookup_empty in H.
Qed.

Lemma spread_plain config : spread (mkConfig "" None) config = config.
Proof. destruct config as [k [u|]]; reflexivity. Qed.

Lemma saveSettings_keys settings stored :
  exists saved, saveSettings settings stored = Some saved /\ keyCount saved <> 0%nat.
Proof. eexists. split; [reflexivity|]. cbn. lia. Qed.

End SettingsFacts.

Example load_after_save_sample :
  let loaded := SettingsStore.loadSettings
                  (SettingsStore.saveSettings SettingsStore.sampleSettings None) in
  SettingsStore.activeModelId loaded = "openai-gpt4o"
  /\ SettingsStore.providers loaded !! "openai" = Some (SettingsStore.mkConfig "sk-test" None)
  /\ SettingsStore.providers loaded !! "gemini" = Some (SettingsStore.mkConfig "" None)
  /\ SettingsStore.customSystemPrompt loaded = None.
Proof. vm_compute. repeat split; reflexivity. Qed.

(** X18. [loadSettings] never returns the saved custom system prompt or the
    saved context preferences: whatever [saveSettings] stored, the loaded
    settings have neither field.  Only when nothing (or an empty object) is
    stored does it return the defaults, whose custom prompt is the empty
    string; so the loaded custom prompt is never a non-empty string. *)
Theorem loadSettings_loses_prompt_and_preferences :
  (forall settings stored,
      let loaded := SettingsStore.loadSettings (SettingsStore.saveSettings settings stored) in
      SettingsStore.customSystemPrompt loaded = None
      /\ SettingsStore.contextPreferences loaded = None)
  /\ (forall stored,
        SettingsStore.customSystemPrompt (SettingsStore.loadSettings stored) = None
        \/ SettingsStore.loadSettings stored = SettingsStore.getDefaultSettings).
Proof.
  split.
  - intros settings stored. cbn. split; reflexivity.
  - intros [saved|]; [|now right]. unfold SettingsStore.loadSettings.
    destruct (Nat.eqb (SettingsStore.keyCount saved) 0); [now right | now left].
Qed.

(** X19. Round trip of the rest.  After [saveSettings(settings)] with a
    non-empty model list that holds the active model, [loadSettings] returns
    the saved models and active model, the saved theme (or "system" when none
    was saved), and for every provider id the saved configuration, or the
    default one where nothing was saved for that id. *)
Theorem loadSettings_after_saveSettings
    (settings : SettingsStore.ExtensionSettings) (stored : SettingsStore.Storage) :
  SettingsStore.models settings <> [] ->
  SettingsStore.activeModelId settings <> "" ->
  In (SettingsStore.activeModelId settings)
     (map SettingsStore.model_id (SettingsStore.models settings)) ->
  let loaded := SettingsStore.loadSettings (SettingsStore.saveSettings settings stored) in
  SettingsStore.models loaded = SettingsStore.models settings
  /\ SettingsStore.activeModelId loaded = SettingsStore.activeModelId settings
  /\ SettingsStore.theme loaded
     = match SettingsStore.theme settings with
       | Some t => Some t
       | None => Some SettingsStore.System
       end
  /\ forall pid,
      SettingsStore.providers loaded !! pid
      = match SettingsStore.providers settings !! pid with
        | Some config => Some config
        | None => SettingsStore.DEFAULT_PROVIDER_CONFIGS !! pid
        end.
Proof.
  intros Hmodels Hid Hin loaded. subst loaded.
  unfold SettingsStore.loadSettings, SettingsStore.saveSettings.
  cbn [SettingsStore.keyCount SettingsStore.present SettingsStore.saved_providers
       SettingsStore.saved_models SettingsStore.saved_activeModelId
       SettingsStore.saved_theme Nat.add Nat.eqb
       SettingsStore.models SettingsStore.activeModelId SettingsStore.theme
       SettingsStore.providers SettingsStore.getDefaultSettings].
  assert (Hlen : (0 <? length (SettingsStore.models settings))%nat = true).
  { apply Nat.ltb_lt. destruct (SettingsStore.models settings); [congruence | cbn; lia]. }
  rewrite Hlen.
  assert (Hfound : existsb (fun m => String.eqb (SettingsStore.model_id m)
                                                (SettingsStore.activeModelId settings))
                           (SettingsStore.models settings) = true).
  { apply existsb_exists. apply in_map_iff in Hin as (m & Hm & Hin).
    exists m. split; [exact Hin|]. now apply String.eqb_eq. }
  assert (Htruthy : JS.truthy (SettingsStore.activeModelId settings) = true)
    by (destruct (SettingsStore.activeModelId settings); [congruence | reflexivity]).
  rewrite Hfound, Htruthy. cbn [andb].
  split; [reflexivity|]. split; [reflexivity|]. split; [reflexivity|].
  intros pid. rewrite merge_lookup.
  destruct (SettingsStore.providers settings !! pid) as [config|]; [|reflexivity].
  destruct (SettingsStore.DEFAULT_PROVIDER_CONFIGS !! pid) as [base|] eqn:E; [|reflexivity].
  apply default_config_plain in E as ->. now rewrite spread_plain.
Qed.

Lemma loadSettings_after_saveSettings_witness :
  SettingsStore.models
    (SettingsStore.loadSettings (SettingsStore.saveSettings SettingsStore.sampleSettings None))
  = SettingsStore.models SettingsStore.sampleSettings
  /\ SettingsStore.activeModelId
       (SettingsStore.loadSettings
          (SettingsStore.saveSettings SettingsStore.sampleSettings None))
     = "openai-gpt4o".
Proof.
  destruct (loadSettings_after_saveSettings SettingsStore.sampleSettings None
              ltac:(discriminate) ltac:(discriminate) ltac:(cbn; tauto))
    as (Hm & Ha & _).
  split; [exact Hm | exact Ha].
Defined.
(* ===================================================================== *)
(** ** Properties of the AI request and of the key validation *)
(* ===================================================================== *)

Section ApiClientFacts.
Import SettingsStore ApiClient.

(** The loaded custom prompt is never usable. *)
Lemma loaded_prompt_unusable stored :
  usablePrompt (customSystemPrompt (loadSettings stored)) = None.
Proof.
  destruct stored as [saved|]; [|reflexivity]. unfold loadSettings.
  now destruct (Nat.eqb (keyCount saved) 0).
Qed.

Lemma buildContextPrompt_custom mathNote context preferences custom :
  usablePrompt custom = None ->
  buildContextPrompt mathNote context preferences custom
  = buildContextPrompt mathNote context preferences None.
Proof. intros H. unfold buildContextPrompt. now rewrite H. Qed.

Lemma systemMessage_loaded mathNote request stored :
  systemMessage mathNote request (loadSettings stored)
  = match pageContext request with
    | Some context =>
        [mkApiMessage SystemRole
           (Plain (buildContextPrompt mathNote context
                     (match requestPreferences request with
                      | Some preferences => preferences
                      | None => defaultPreferences
                      end) None))]
    | None => []
    end.
Proof.
  unfold systemMessage. pose proof (loaded_prompt_unusable stored) as H.
  destruct (pageContext request) as [context|].
  - destruct (requestPreferences request);
      now rewrite (buildContextPrompt_custom _ _ _ _ H).
  - now rewrite H.
Qed.

Lemma orString_key (config : ProviderConfig) :
  orString (option_map apiKey (Some config)) "" = apiKey config.
Proof. cbn. now destruct (apiKey config). Qed.

Lemma prepare_spec mathNote offline stored request provider prepared :
  prepare mathNote offline stored request = inr (provider, prepared) ->
  offline = false
  /\ exists activeModel config,
      let settings := loadSettings stored in
      In activeModel (models settings)
      /\ model_id activeModel = activeModelId settings
      /\ enabled activeModel = true
      /\ In provider Gateway.DEFAULT_PROVIDERS
      /\ Gateway.provider_id provider = providerId activeModel
      /\ providers settings !! Gateway.provider_id provider = Some config
      /\ apiKey config <> ""
      /\ target prepared = orString (customBaseUrl config) (Gateway.baseUrl provider)
      /\ headers prepared = [("Content-Type", "application/json");
                             ("Authorization", "Bearer " +:+ apiKey config)]
      /\ body_model (body prepared) = backendName activeModel
      /\ body_messages (body prepared)
         = systemMessage mathNote request settings ++ map toApi (messages request).
Proof.
  unfold prepare. destruct offline; [discriminate|].
  destruct (List.find _ (models (loadSettings stored))) as [activeModel|] eqn:Hm;
    [|discriminate].
  destruct (enabled activeModel) eqn:He; [|discriminate]. cbn [negb].
  destruct (List.find _ Gateway.DEFAULT_PROVIDERS) as [p|] eqn:Hp; [|discriminate].
  assert (Hreq : Gateway.requiresApiKey p = true).
  { apply find_some in Hp as [Hin _]. cbn in Hin.
    repeat (destruct Hin as [<-|Hin]; [reflexivity|]). destruct Hin. }
  rewrite Hreq. cbn [andb].
  destruct (providers (loadSettings stored) !! Gateway.provider_id p) as [config|] eqn:Hc;
    [|discriminate].
  rewrite orString_key.
  destruct (JS.truthy (apiKey config)) eqn:Hk; [|discriminate]. cbn [negb].
  intros [= <- <-]. split; [reflexivity|].
  exists activeModel, config. cbv zeta.
  apply find_some in Hm as [Hmin Hmid], Hp as [Hpin Hpid].
  apply String.eqb_eq in Hmid, Hpid.
  repeat split; try assumption; try reflexivity.
  intros E. rewrite E in Hk. discriminate.
Qed.



End ApiClientFacts.

Example callAI_with_sample_settings :
  let '(outcome, prepared, trace) :=
    ApiClient.callAI "" false
      (SettingsStore.saveSettings SettingsStore.sampleSettings None) ApiClient.hello
      (fun _ => Gateway.FetchResponse 200 "" (Some "hello")) in
  outcome = Gateway.Resolved "hello"
  /\ option_map ApiClient.target prepared = Some "https://api.openai.com/v1/chat/completions"
  /\ trace = [Gateway.Call 0].
Proof. vm_compute. repeat split; reflexivity. Qed.


(** X21. The custom system prompt the user saved never reaches the model.
    [callAI] reads it from [loadSettings], which does not return it: the
    messages of every request are the messages of the caller, converted one by
    one, after at most one system message; that system message is there
    exactly when the request has a page context, and it is the context prompt
    built without any custom prompt. *)
Theorem callAI_never_sends_saved_prompt
    (mathNote : string) (offline : bool) (stored : SettingsStore.Storage)
    (request : ApiClient.AIRequestPayload) (fetches : Z -> Gateway.FetchResult)
    (prepared : ApiClient.Prepared) :
  snd (fst (ApiClient.callAI mathNote offline stored request fetches)) = Some prepared ->
  ApiClient.body_messages (ApiClient.body prepared)
  = match ApiClient.pageContext request with
    | Some context =>
        [ApiClient.mkApiMessage ApiClient.SystemRole
           (ApiClient.Plain
              (ApiClient.buildContextPrompt mathNote context
                 (match ApiClient.requestPreferences request with
                  | Some preferences => preferences
                  | None => SettingsStore.defaultPreferences
                  end) None))]
    | None => []
    end ++ map ApiClient.toApi (ApiClient.messages request).
Proof.
  unfold ApiClient.callAI.
  destruct (ApiClient.prepare mathNote offline stored request) as [error|[provider p]]
    eqn:Hprep; [discriminate|].
  destruct (Gateway.callAI _ _ _) as [outcome trace]. cbn. intros [= <-].
  destruct (prepare_spec _ _ _ _ _ _ Hprep) as (_ & activeModel & config & H).
  cbv zeta in H. destruct H as (_ & _ & _ & _ & _ & _ & _ & _ & _ & _ & Hm).
  now rewrite Hm, systemMessage_loaded.
Qed.

(** The sample settings hold the custom prompt "Answer in French."; the
    request that goes out has the caller's message only. *)
Lemma callAI_never_sends_saved_prompt_witness :
  exists prepared,
    snd (fst (ApiClient.callAI "" false
                (SettingsStore.saveSettings SettingsStore.sampleSettings None)
                ApiClient.hello (fun _ => Gateway.FetchResponse 200 "" (Some "hello"))))
    = Some prepared
    /\ ApiClient.body_messages (ApiClient.body prepared)
       = [ApiClient.mkApiMessage ApiClient.User (ApiClient.Plain "hi")].
Proof.
  destruct (snd (fst (ApiClient.callAI "" false
                        (SettingsStore.saveSettings SettingsStore.sampleSettings None)
                        ApiClient.hello
                        (fun _ => Gateway.FetchResponse 200 "" (Some "hello")))))
    as [prepared|] eqn:E; [|vm_compute in E; discriminate].
  exists prepared. split; [reflexivity|].
  exact (callAI_never_sends_saved_prompt "" false _ ApiClient.hello _ prepared E).
Defined.

(** X22. The verdict of [validateApiKey]: the key is reported valid exactly
    when the provider is known, the key is not blank, and the test request is
    answered with a 2xx status or with 400; an answer of 401 or 403, any other
    status and a failed request all give [valid: false] with an error text.
    No test request is made for an unknown provider or a blank key, and the
    request carries the key as given (untrimmed) as bearer token. *)
Theorem validateApiKey_verdict
    (providerId apiKey : string) (response : Gateway.FetchResult) :
  let '(verdict, sent) := ApiClient.validateApiKey providerId apiKey response in
  (ApiClient.valid verdict = true
   <-> (exists provider, In provider Gateway.DEFAULT_PROVIDERS
                         /\ Gateway.provider_id provider = providerId)
       /\ JS.trim apiKey <> ""
       /\ exists status text choice,
           response = Gateway.FetchResponse status text choice
           /\ (200 <= status <= 299 \/ status = 400))
  /\ (ApiClient.valid verdict = false -> ApiClient.validation_error verdict <> None)
  /\ (sent = None
      <-> (forall provider, In provider Gateway.DEFAULT_PROVIDERS ->
                            Gateway.provider_id provider <> providerId)
          \/ JS.trim apiKey = "")
  /\ (forall request, sent = Some request ->
        ApiClient.test_authorization request = "Bearer " +:+ apiKey
        /\ ApiClient.test_model request = ApiClient.testModel providerId).
Proof.
  unfold ApiClient.validateApiKey.
  destruct (List.find _ Gateway.DEFAULT_PROVIDERS) as [provider|] eqn:Hp.
  2:{ assert (Hnone : forall p, In p Gateway.DEFAULT_PROVIDERS ->
                                Gateway.provider_id p <> providerId).
      { intros p Hin E. pose proof (find_none _ _ Hp p Hin) as H. cbn beta in H.
        apply String.eqb_neq in H. contradiction. }
      cbn. split; [|split; [|split]].
      - split; [discriminate|]. intros ((p & Hin & E) & _). exfalso. exact (Hnone p Hin E).
      - discriminate.
      - split; [intros _; now left | reflexivity].
      - discriminate. }
  apply find_some in Hp as [Hin Hid]. apply String.eqb_eq in Hid.
  assert (Hknown : exists p, In p Gateway.DEFAULT_PROVIDERS
                             /\ Gateway.provider_id p = providerId) by eauto.
  assert (Hblank : (negb (JS.truthy apiKey) || (JS.len (JS.trim apiKey) =? 0)) = true
                   <-> JS.trim apiKey = "").
  { unfold JS.len. destruct apiKey as [|c s]; [cbn; tauto|]. cbn [JS.truthy negb orb].
    destruct (JS.trim (String c s)) as [|c' s'].
    - split; reflexivity.
    - split; [|discriminate]. intros H. apply Z.eqb_eq in H.
      cbn [String.length] in H. lia. }
  destruct (negb (JS.truthy apiKey) || (JS.len (JS.trim apiKey) =? 0)) eqn:Hb.
  { assert (Ht : JS.trim apiKey = "") by now apply Hblank.
    cbn. split; [|split; [|split]].
    - split; [discriminate|]. intros (_ & Hne & _). contradiction.
    - discriminate.
    - split; [intros _; now right | reflexivity].
    - discriminate. }
  assert (Ht : JS.trim apiKey <> "").
  { intros E. apply Hblank in E. congruence. }
  assert (Hsent : forall (v : ApiClient.Validation) r,
             (Some r = (None : option ApiClient.TestRequest)
              <-> (forall p, In p Gateway.DEFAULT_PROVIDERS ->
                             Gateway.provider_id p <> providerId)
                  \/ JS.trim apiKey = "")).
  { intros _ r. split; [discriminate|]. intros [Hn|E]; [|contradiction].
    exfalso. exact (Hn provider Hin Hid). }
  destruct response as [error|status text choice].
  - cbn. split; [|split; [|split]].
    + split; [discriminate|]. intros (_ & _ & s & t & c & E & _). discriminate.
    + discriminate.
    + now apply (Hsent (ApiClient.mkValidation false None)).
    + intros r [= <-]. split; reflexivity.
  - destruct ((status =? 401) || (status =? 403)) eqn:Hauth.
    { cbn. split; [|split; [|split]].
      - split; [discriminate|]. intros (_ & _ & s & t & c & [= <- _ _] & Hs).
        apply orb_true_iff in Hauth as [E|E]; apply Z.eqb_eq in E; lia.
      - discriminate.
      - now apply (Hsent (ApiClient.mkValidation false None)).
      - intros r [= <-]. split; reflexivity. }
    destruct (Gateway.ok status || (status =? 400)) eqn:Hok.
    + cbn. split; [|split; [|split]].
      * split; [intros _|reflexivity]. split; [exact Hknown|]. split; [exact Ht|].
        exists status, text, choice. split; [reflexivity|].
        apply orb_true_iff in Hok as [E|E].
        -- unfold Gateway.ok in E. apply andb_true_iff in E as [E1 E2].
           apply Z.leb_le in E1, E2. left; lia.
        -- apply Z.eqb_eq in E. now right.
      * discriminate.
      * now apply (Hsent (ApiClient.mkValidation false None)).
      * intros r [= <-]. split; reflexivity.
    + cbn. split; [|split; [|split]].
      * split; [discriminate|]. intros (_ & _ & s & t & c & [= <- _ _] & Hs).
        apply orb_false_iff in Hok as [E1 E2]. apply Z.eqb_neq in E2.
        unfold Gateway.ok in E1. apply andb_false_iff in E1 as [E1|E1];
          apply Z.leb_gt in E1; lia.
      * discriminate.
      * now apply (Hsent (ApiClient.mkValidation false None)).
      * intros r [= <-]. split; reflexivity.
Qed.

(** X23. How much of a page the context prompt holds.  A page text of at most
    100 characters is left out altogether, as if the page had none.  A longer
    text enters through its first 8000 characters only: two texts longer than
    8000 characters that agree on their first 8000 give the same prompt.  The
    same holds for the HTML source with 100 and 6000. *)
Theorem buildContextPrompt_cuts_the_page
    (mathNote : string) (address heading : string) (hash : option string)
    (selection : option string)
    (preferences : SettingsStore.ContextPreferences) (custom : option string) :
  let prompt text html :=
    ApiClient.buildContextPrompt mathNote
      (ApiClient.mkRequestContext (mkContext address heading text hash) selection html)
      preferences custom in
  (forall text html, JS.len text <= 100 -> prompt (Some text) html = prompt None html)
  /\ (forall text html, JS.len html <= 100 -> prompt text (Some html) = prompt text None)
  /\ (forall text1 text2 html,
        8000 < JS.len text1 -> 8000 < JS.len text2 ->
        String.substring 0 (Z.to_nat 8000) text1 = String.substring 0 (Z.to_nat 8000) text2 ->
        prompt (Some text1) html = prompt (Some text2) html)
  /\ (forall text html1 html2,
        6000 < JS.len html1 -> 6000 < JS.len html2 ->
        String.substring 0 (Z.to_nat 6000) html1 = String.substring 0 (Z.to_nat 6000) html2 ->
        prompt text (Some html1) = prompt text (Some html2)).
Proof.
  intros prompt. subst prompt. cbv beta.
  assert (Hshort : forall s, JS.len s <= 100 -> ApiClient.longerThan 100 (Some s) = false).
  { intros s H. unfold ApiClient.longerThan. apply andb_false_iff. right.
    now apply Z.ltb_ge. }
  assert (Hlong : forall n s, 100 <= n -> n < JS.len s ->
                              ApiClient.longerThan 100 (Some s) = true).
  { intros n s Hn H. unfold ApiClient.longerThan. apply andb_true_iff. split.
    - destruct s; [unfold JS.len in H; cbn [String.length] in H; lia | reflexivity].
    - apply Z.ltb_lt. lia. }
  assert (Hcut : forall n s1 s2, n < JS.len s1 -> n < JS.len s2 ->
                   String.substring 0 (Z.to_nat n) s1 = String.substring 0 (Z.to_nat n) s2 ->
                   ApiClient.truncated n s1 = ApiClient.truncated n s2).
  { intros n s1 s2 H1 H2 E. unfold ApiClient.truncated. rewrite E.
    apply Z.ltb_lt in H1, H2. now rewrite H1, H2. }
  unfold ApiClient.buildContextPrompt.
  cbn [ApiClient.page ApiClient.selectionText ApiClient.htmlSource mainContentSnippet].
  split; [|split; [|split]].
  - intros text html H. rewrite (Hshort text H). now rewrite andb_false_r.
  - intros text html H. rewrite (Hshort html H). now rewrite andb_false_r.
  - intros text1 text2 html H1 H2 E.
    rewrite (Hlong 8000 text1), (Hlong 8000 text2) by lia.
    now rewrite (Hcut 8000 text1 text2 H1 H2 E).
  - intros text html1 html2 H1 H2 E.
    rewrite (Hlong 6000 html1), (Hlong 6000 html2) by lia.
    now rewrite (Hcut 6000 html1 html2 H1 H2 E).
Qed.
(* ===================================================================== *)
(** ** Properties of the action handlers *)
(* ===================================================================== *)

Section ActionFacts.
Import Actions.

Lemma waitForElement_nowhere p selector timeout :
  nowhere p selector -> Executor.waitForElement p selector timeout = None.
Proof.
  intros [Hnow Hlater]. destruct (Hlater timeout) as [Htimeout Hwait].
  unfold Executor.waitForElement.
  now rewrite Hnow, (firstFound_none _ _ Hwait), Htimeout.
Qed.

Lemma findOrWait_nowhere p selector : nowhere p selector -> findOrWait p selector = None.
Proof.
  intros H. unfold findOrWait. rewrite (proj1 H). now apply waitForElement_nowhere.
Qed.

Lemma executeClick_nowhere p selector text searchTerm :
  searchTerm = match text with
               | Some t => if JS.truthy t then t else selector
               | None => selector
               end ->
  nowhere p searchTerm ->
  Executor.executeClick p selector text = (notFound "Element not found: " searchTerm, []).
Proof.
  intros -> H. unfold Executor.executeClick.
  rewrite (proj1 H), (waitForElement_nowhere _ _ 3000 H). reflexivity.
Qed.

End ActionFacts.

Example extract_from_help_page :
  Actions.executeAction Actions.bare Executor.helpPage (AExtract "help" None)
  = (mkResult true None (Some (DataText "Help and Support")),
     [Actions.Highlight (Resolver.shown 2 "A" [("href", "/help")] "  Help and Support ")]).
Proof. vm_compute. reflexivity. Qed.

(** X24. An action whose target is nowhere on the page fails with a message
    that quotes the target and leaves the page alone: "Element not found" for
    click (the text hint is the target, if given), scroll, extract, hover and
    select, "Input not found" for type, "Element did not appear" for wait. *)
Theorem action_without_target_on_page_fails
    (c : Actions.Controls) (p : Executor.Page) (action : BrowserAction)
    (what selector : string) :
  Actions.target action = Some (what, selector) ->
  Actions.nowhere p selector ->
  Actions.executeAction c p action
  = (failResult (what +:+ JS.dq +:+ selector +:+ JS.dq), []).
Proof.
  intros Ht Hn. destruct action; cbn [Actions.target] in Ht; try discriminate;
    cbn [Actions.executeAction].
  - injection Ht as <- <-. now rewrite (executeClick_nowhere p _ _ _ eq_refl Hn).
  - injection Ht as <- <-. unfold Actions.executeType.
    now rewrite (findOrWait_nowhere _ _ Hn).
  - destruct selector0 as [s|]; [|discriminate].
    destruct (JS.truthy s) eqn:E; [|discriminate]. injection Ht as <- <-.
    unfold Actions.executeScroll. now rewrite E, (proj1 Hn).
  - destruct selector0 as [s|]; [|discriminate].
    destruct (JS.truthy s) eqn:E; [|discriminate]. injection Ht as <- <-.
    unfold Actions.executeWait. now rewrite E, (waitForElement_nowhere _ _ _ Hn).
  - injection Ht as <- <-. unfold Actions.executeExtract. now rewrite (proj1 Hn).
  - injection Ht as <- <-. unfold Actions.executeHover. now rewrite (proj1 Hn).
  - injection Ht as <- <-. unfold Actions.executeSelect. now rewrite (proj1 Hn).
Qed.

(** Typing into "Search" on the page that only has a help link. *)
Lemma action_without_target_on_page_fails_witness :
  Actions.executeAction Actions.bare Executor.helpPage (AType "Search" "rocq" None)
  = (failResult ("Input not found: " +:+ JS.dq +:+ "Search" +:+ JS.dq), []).
Proof.
  apply (action_without_target_on_page_fails Actions.bare Executor.helpPage
           (AType "Search" "rocq" None) "Input not found: " "Search").
  - reflexivity.
  - split; [vm_compute; reflexivity|]. intros timeout.
    split; [vm_compute; reflexivity | intros d []].
Defined.

(** X25. A failed action has clicked nothing, typed nothing, scrolled nothing
    and dispatched no event.  Most failures leave the page alone altogether.
    Two leave a trace: a select element in which no option matched has been
    highlighted; and a file input asked to take a non-empty text has been
    highlighted and focused (and emptied first, if clearing was asked for)
    before setting its value threw. *)
Theorem failed_action_leaves_page_alone
    (c : Actions.Controls) (p : Executor.Page) (action : BrowserAction) :
  success (fst (Actions.executeAction c p action)) = false ->
  snd (Actions.executeAction c p action) = []
  \/ (exists selector value element,
      action = ASelect selector value
      /\ snd (Actions.executeAction c p action) = [Actions.Highlight element]
      /\ error (fst (Actions.executeAction c p action))
         = Some ("Option not found: " +:+ JS.dq +:+ value +:+ JS.dq))
  \/ (exists selector text clearFirst element,
      action = AType selector text clearFirst
      /\ Actions.isFileInput c element = true
      /\ JS.truthy text = true
      /\ snd (Actions.executeAction c p action)
         = [Actions.Highlight element; Actions.Focus element]
           ++ (match clearFirst with
               | Some true => [Actions.SetValue element ""]
               | _ => []
               end)
      /\ error (fst (Actions.executeAction c p action)) = Some Actions.fileInputMessage).
Proof.
  destruct action; cbn [Actions.executeAction].
  - discriminate.
  - unfold Executor.executeClick.
    destruct (match Resolver.smartFind _ _ None with Some el => Some el | None => _ end);
      [discriminate | now left].
  - unfold Actions.executeType. destruct (Actions.findOrWait p selector); [|now left].
    destruct (if Actions.isInputField c _ then _ else _) as [element|]; [|now left].
    destruct (Actions.isFileInput c element) eqn:Hfile; cbn [andb]; [|discriminate].
    destruct (JS.truthy text) eqn:Htext; [|discriminate].
    intros _. right. right. exists selector, text, clearFirst, element.
    cbn [fst snd Actions.settle]. easy.
  - unfold Actions.executeScroll. destruct selector as [s|]; [|discriminate].
    destruct (JS.truthy s); [|discriminate].
    destruct (Resolver.smartFind _ _ None); [discriminate | now left].
  - unfold Actions.executeWait. destruct selector as [s|]; [|discriminate].
    destruct (JS.truthy s); [|discriminate].
    destruct (Executor.waitForElement _ _ _); [discriminate | now left].
  - unfold Actions.executeExtract.
    destruct (Resolver.smartFind _ _ None); [discriminate | now left].
  - unfold Actions.executeHover.
    destruct (Resolver.smartFind _ _ None); [discriminate | now left].
  - unfold Actions.executeSelect.
    destruct (Resolver.smartFind _ _ None) as [element|]; [|now left].
    destruct (Actions.selectOptions c element) as [options|]; [|now left].
    destruct (List.find _ options); [discriminate|].
    intros _. right. left. now exists selector, value, element.
  - discriminate.
  - discriminate.
Qed.

(** Typing a file name into the upload field fails, and leaves the field
    highlighted, focused and emptied. *)
Example type_into_file_input :
  Actions.executeAction Actions.uploadControls Actions.uploadPage
    (AType "Attachment" "report.pdf" (Some true))
  = (failResult Actions.fileInputMessage,
     [Actions.Highlight Actions.uploadField; Actions.Focus Actions.uploadField;
      Actions.SetValue Actions.uploadField ""]).
Proof. vm_compute. reflexivity. Qed.

Lemma failed_action_leaves_page_alone_witness :
  exists element,
    snd (Actions.executeAction Actions.uploadControls Actions.uploadPage
           (AType "Attachment" "report.pdf" None))
    = [Actions.Highlight element; Actions.Focus element].
Proof.
  destruct (failed_action_leaves_page_alone Actions.uploadControls Actions.uploadPage
              (AType "Attachment" "report.pdf" None) ltac:(vm_compute; reflexivity))
    as [H|[(selector & value & element & H & _)|
           (selector & text & clearFirst & element & H & _ & _ & Heffects & _)]].
  - vm_compute in H. discriminate H.
  - discriminate H.
  - injection H as <- <- <-. exists element. exact Heffects.
Defined.

(** X26. Which actions wait.  Scroll, extract, hover, select, key presses and
    a wait without a target look at the document as it is when the action
    starts: whatever the page turns into later, their result and their effects
    are the same.  Only click, type and wait for a target observe the page over
    time. *)
Theorem actions_that_never_wait
    (c : Actions.Controls) (p p' : Executor.Page) (action : BrowserAction) :
  Actions.looksOnce action = true ->
  Executor.current p = Executor.current p' ->
  Actions.executeAction c p action = Actions.executeAction c p' action.
Proof.
  intros Hl Hc. destruct action; cbn [Actions.looksOnce] in Hl; try discriminate;
    cbn [Actions.executeAction]; try reflexivity.
  - unfold Actions.executeScroll. now rewrite Hc.
  - unfold Actions.executeWait. destruct selector as [s|]; [|reflexivity].
    apply negb_true_iff in Hl. now rewrite Hl.
  - unfold Actions.executeExtract. now rewrite Hc.
  - unfold Actions.executeHover. now rewrite Hc.
  - unfold Actions.executeSelect. now rewrite Hc.
Qed.

(** The help link shows up only later: hovering it fails either way. *)
Lemma actions_that_never_wait_witness :
  Actions.executeAction Actions.bare
    (Executor.mkPage (Resolver.sampleDocument []) (fun _ => [])
                     (fun _ => Executor.current Executor.helpPage))
    (AHover "Help")
  = Actions.executeAction Actions.bare (Executor.still (Resolver.sampleDocument []))
      (AHover "Help").
Proof.
  apply (actions_that_never_wait Actions.bare
           (Executor.mkPage (Resolver.sampleDocument []) (fun _ => [])
                            (fun _ => Executor.current Executor.helpPage))
           (Executor.still (Resolver.sampleDocument [])) (AHover "Help"));
    reflexivity.
Defined.

(** X27. Actions that name no target always succeed: navigate (which only
    returns the url, with "https://" in front unless it starts with "http"),
    done, a key press, a scroll of the page (400 pixels down, or up only when
    the direction is "up") and a plain wait, which sleeps [timeout || 2000]
    milliseconds, so 2000 also for a timeout of 0. *)
Theorem actions_without_target_succeed
    (c : Actions.Controls) (p : Executor.Page) (action : BrowserAction) :
  Actions.target action = None ->
  success (fst (Actions.executeAction c p action)) = true
  /\ match action with
     | ANavigate url =>
         exists target,
           Actions.executeAction c p action
           = (mkResult true None (Some (DataNavigation target)), [])
           /\ JS.startsWith target "http" = true
           /\ (target = url \/ target = "https://" +:+ url)
     | AScroll direction _ =>
         snd (Actions.executeAction c p action)
         = [Actions.ScrollBy (match direction with Some Up => -400 | _ => 400 end)]
     | AWait _ timeout =>
         snd (Actions.executeAction c p action)
         = [Actions.Pause (match timeout with
                           | Some 0 | None => 2000
                           | Some ms => ms
                           end)]
     | _ => True
     end.
Proof.
  intros Ht.
  destruct action as [address|sel txt|sel txt cf|direction selector|selector timeout
                     |sel attr|sel|sel val|key|summary];
    cbn [Actions.target] in Ht; try discriminate; cbn [Actions.executeAction].
  - split; [reflexivity|]. unfold Executor.executeNavigate.
    eexists. split; [reflexivity|]. split; [apply startsWith_http|].
    destruct (JS.startsWith address "http"); tauto.
  - unfold Actions.executeScroll. destruct selector as [s|]; [|split; reflexivity].
    destruct (JS.truthy s); [discriminate | split; reflexivity].
  - unfold Actions.executeWait.
    assert (Hw : Cache.orDefault timeout 2000
                 = match timeout with Some 0 | None => 2000 | Some ms => ms end).
    { destruct timeout as [[| |]|]; reflexivity. }
    rewrite Hw. destruct selector as [s|]; [|split; reflexivity].
    destruct (JS.truthy s); [discriminate | split; reflexivity].
  - split; [reflexivity | exact I].
  - split; [reflexivity | exact I].
Qed.

Lemma actions_without_target_succeed_witness :
  success (fst (Actions.executeAction Actions.bare Executor.helpPage (AWait None (Some 0))))
  = true
  /\ snd (Actions.executeAction Actions.bare Executor.helpPage (AWait None (Some 0)))
     = [Actions.Pause 2000].
Proof.
  exact (actions_without_target_succeed Actions.bare Executor.helpPage (AWait None (Some 0))
           eq_refl).
Defined.
(* ===================================================================== *)
(** ** Properties of the page context bridge *)
(* ===================================================================== *)

Section BridgeFacts.
Import Bridge.

Lemma orEmpty_some a : orEmpty (Some a) = a.
Proof. unfold orEmpty, ApiClient.orString. now destruct a. Qed.

(** A hit leaves the cache as it is. *)
Lemma get_hit u t m s c : fst (Cache.get u t m s) = Some c -> snd (Cache.get u t m s) = s.
Proof.
  unfold Cache.get. destruct (Cache.cache s !! Cache.getCacheKey u t); [|discriminate].
  destruct (_ <? _); [discriminate | reflexivity].
Qed.

Lemma get_noTimerFor key u t m s :
  CacheUse.noTimerFor key s -> CacheUse.noTimerFor key (snd (Cache.get u t m s)).
Proof. unfold CacheUse.noTimerFor. now rewrite (proj1 (get_frame u t m s)). Qed.

Lemma fetchContext_asks b tabId quality includeHtml :
  snd (fetchContext b tabId quality includeHtml) <> [].
Proof.
  unfold fetchContext.
  destruct (match scriptReply b with Replied (Some r) => _ | _ => None end) as [c|];
    [destruct (tooShort c)|]; discriminate.
Qed.

End BridgeFacts.

Example bridge_first_request :
  let '(context, s, events) :=
    Bridge.requestPageContextFromActiveTab false Content.Balanced false
      Bridge.sampleBrowser (Cache.empty 0) in
  context = Some Bridge.sampleReply
  /\ events = [Bridge.SendMessage 7 Content.Balanced false]
  /\ Cache.cache s !! Cache.getCacheKey "https://example.com/" 7
     = Some (Cache.mkCached Bridge.sampleReply 0 "https://example.com/" 7).
Proof. vm_compute. repeat split; reflexivity. Qed.

(** X28. The bridge serves a page context from the cache for 30 seconds.  When
    a request for a tab misses the cache (or is forced) and gets a context from
    the page whose url is the url of the tab, that context is returned and
    cached; a request for the same tab and url made less than 30000 ms later
    (in a cache with no older timer for the key) returns the same context
    without asking the tab anything and without changing the cache, whatever
    quality it asks for; a request made more than 30000 ms later asks the tab
    again.  A request made exactly 30000 ms later is served from the cache if
    it comes before the callback of the timer, and asks the tab again if the
    callback has run. *)
Theorem bridge_serves_repeat_from_cache
    (b b' : Bridge.Browser) (s : Cache.State) (forceRefresh : bool)
    (quality quality' : Content.Quality) (includeHtml includeHtml' : bool)
    (tabId : Z) (address : string) (heading : option string)
    (context : PageContext) (events : list Bridge.Event) (onTime : bool) (dt : Z) :
  Bridge.activeTab b = Some (Bridge.mkTab (Some tabId) (Some address) heading) ->
  Bridge.activeTab b' = Bridge.activeTab b ->
  tabId <> 0 ->
  Bridge.isInternal address = false ->
  forceRefresh = true \/ fst (Cache.get address tabId (Some 30000) s) = None ->
  Bridge.fetchContext b tabId quality includeHtml = (Some context, events) ->
  url context = address ->
  CacheUse.noTimerFor (Cache.getCacheKey address tabId) s ->
  0 <= dt ->
  exists s1,
    Bridge.requestPageContextFromActiveTab forceRefresh quality includeHtml b s
    = (Some context, s1, events)
    /\ (dt < 30000 \/ (dt = 30000 /\ onTime = false) ->
        Bridge.requestPageContextFromActiveTab false quality' includeHtml' b'
          (Cache.advance onTime dt s1)
        = (Some context, Cache.advance onTime dt s1, []))
    /\ (30000 < dt \/ (dt = 30000 /\ onTime = true) ->
        snd (Bridge.requestPageContextFromActiveTab false quality' includeHtml' b'
               (Cache.advance onTime dt s1)) <> []).
Proof.
  intros Htab Htab' Hid Hext Hmiss Hfetch Hurl Hfresh Hdt.
  apply Z.eqb_neq in Hid.
  set (s0 := if forceRefresh then s else snd (Cache.get address tabId (Some 30000) s)).
  assert (Hfresh0 : CacheUse.noTimerFor (Cache.getCacheKey address tabId) s0).
  { subst s0. destruct forceRefresh; [exact Hfresh | now apply get_noTimerFor]. }
  exists (Cache.set context tabId (Some 30000) s0).
  assert (Hget : fst (Cache.get address tabId (Some 30000)
                        (Cache.advance onTime dt (Cache.set context tabId (Some 30000) s0)))
                 = if CacheUse.pending onTime dt 30000 && (dt <=? 30000)
                   then Some context else None).
  { rewrite <- Hurl in *.
    apply (get_after_set context tabId (Some 30000) (Some 30000) onTime dt s0 Hfresh0 Hdt).
    unfold CacheUse.inRange. cbn. lia. }
  split; [|split].
  - unfold Bridge.requestPageContextFromActiveTab.
    rewrite Htab. cbn [Bridge.tab_id Bridge.tab_url Bridge.tab_title].
    rewrite Hid, orEmpty_some, Hext. subst s0.
    destruct forceRefresh.
    + now rewrite Hfetch.
    + destruct Hmiss as [?|Hmiss]; [discriminate|].
      destruct (Cache.get address tabId (Some 30000) s) as [[c|] s'] eqn:E;
        [cbn [fst] in Hmiss; discriminate|].
      cbn [snd]. now rewrite Hfetch.
  - intros Hlt.
    replace (CacheUse.pending onTime dt 30000 && (dt <=? 30000)) with true in Hget.
    2:{ symmetry. apply andb_true_iff. unfold CacheUse.pending.
        split; [|apply Z.leb_le; lia].
        destruct Hlt as [Hlt|[-> ->]]; [|reflexivity].
        destruct onTime; [apply Z.ltb_lt | apply Z.leb_le]; lia. }
    pose proof (get_hit _ _ _ _ _ Hget) as Hsame.
    unfold Bridge.requestPageContextFromActiveTab.
    rewrite Htab', Htab. cbn [Bridge.tab_id Bridge.tab_url Bridge.tab_title].
    rewrite Hid, orEmpty_some, Hext.
    destruct (Cache.get address tabId (Some 30000) (Cache.advance onTime dt _))
      as [c s'] eqn:E.
    cbn [fst snd] in Hget, Hsame. now subst c s'.
  - intros Hge.
    replace (CacheUse.pending onTime dt 30000 && (dt <=? 30000)) with false in Hget.
    2:{ symmetry. unfold CacheUse.pending.
        destruct Hge as [Hgt|[-> ->]]; [|reflexivity].
        apply andb_false_iff. right. apply Z.leb_gt. lia. }
    unfold Bridge.requestPageContextFromActiveTab.
    rewrite Htab', Htab. cbn [Bridge.tab_id Bridge.tab_url Bridge.tab_title].
    rewrite Hid, orEmpty_some, Hext.
    destruct (Cache.get address tabId (Some 30000) (Cache.advance onTime dt _))
      as [c s'] eqn:E.
    cbn [fst] in Hget. subst c.
    pose proof (fetchContext_asks b' tabId quality' includeHtml') as Hasks.
    destruct (Bridge.fetchContext b' tabId quality' includeHtml') as [[c|] ev]; exact Hasks.
Qed.

(** The sample browser: asked at time 0, served from the cache 10 seconds
    later. *)
Lemma bridge_serves_repeat_from_cache_witness :
  exists s1,
    Bridge.requestPageContextFromActiveTab false Content.Balanced false
      Bridge.sampleBrowser (Cache.empty 0)
    = (Some Bridge.sampleReply, s1, [Bridge.SendMessage 7 Content.Balanced false])
    /\ Bridge.requestPageContextFromActiveTab false Content.Fast true
         Bridge.sampleBrowser (Cache.advance true 10000 s1)
       = (Some Bridge.sampleReply, Cache.advance true 10000 s1, []).
Proof.
  destruct (bridge_serves_repeat_from_cache Bridge.sampleBrowser Bridge.sampleBrowser
              (Cache.empty 0) false Content.Balanced Content.Fast false true
              7 "https://example.com/" (Some "Example") Bridge.sampleReply
              [Bridge.SendMessage 7 Content.Balanced false] true 10000
              eq_refl eq_refl ltac:(lia) eq_refl ltac:(now right)
              ltac:(vm_compute; reflexivity) eq_refl ltac:(constructor) ltac:(lia))
    as (s1 & H1 & H2 & _).
  exists s1. split; [exact H1 | apply H2; left; lia].
Defined.

(** X29. What the bridge leaves alone.  Without an active tab, or for a tab
    without an id, nothing is returned; for an internal page ([chrome://],
    [chrome-extension://]) a placeholder context with the tab's url is
    returned.  In all three cases the tab is not asked anything (no message,
    no injected script) and the cache is neither read nor written. *)
Theorem bridge_leaves_internal_pages_alone
    (forceRefresh : bool) (quality : Content.Quality) (includeHtml : bool)
    (b : Bridge.Browser) (s : Cache.State) :
  match Bridge.activeTab b with
  | Some (Bridge.mkTab (Some tabId) address heading) =>
      tabId <> 0 ->
      Bridge.isInternal (Bridge.orEmpty address) = true ->
      Bridge.requestPageContextFromActiveTab forceRefresh quality includeHtml b s
      = (Some (Bridge.plain (Bridge.orEmpty address)
                 (ApiClient.orString heading "Chrome Internal Page")
                 "(Cannot access content from chrome internal pages)"),
         s, [])
  | _ =>
      Bridge.requestPageContextFromActiveTab forceRefresh quality includeHtml b s
      = (None, s, [])
  end.
Proof.
  unfold Bridge.requestPageContextFromActiveTab.
  destruct (Bridge.activeTab b) as [[[tabId|] address heading]|]; try reflexivity.
  intros Hid Hint. apply Z.eqb_neq in Hid. cbn [Bridge.tab_id Bridge.tab_url Bridge.tab_title].
  now rewrite Hid, Hint.
Qed.
(* ===================================================================== *)
(** ** Replies without an object *)
(* ===================================================================== *)

Section ParserUseFacts.
Import Parser ParserUse.

Lemma occurs_untilFence c s t :
  JS.occurs c s = false -> untilFence s = Some t -> JS.occurs c t = false.
Proof.
  revert t. induction s as [|x s IH]; intros t H; rewrite untilFence_eq.
  - destruct (String.prefix fence ""); [now intros [= <-] | discriminate].
  - destruct (String.prefix fence (String x s)); [now intros [= <-]|].
    apply occurs_cons in H as [Hx Hs].
    destruct (untilFence s) as [t'|]; [|discriminate].
    intros [= <-]. cbn. rewrite Ascii.eqb_sym, Hx. now apply IH.
Qed.

Lemma occurs_matchFence c s group :
  JS.occurs c s = false -> matchFence s = Some group -> JS.occurs c group = false.
Proof.
  induction s as [|x s IH]; intros H.
  - cbn. discriminate.
  - cbn [matchFence]. destruct (fencedAtStart (String x s)) as [g|] eqn:E.
    + intros [= <-]. unfold fencedAtStart in E.
      destruct (String.prefix fence (String x s)); [|discriminate].
      eapply occurs_untilFence; [|exact E].
      now apply occurs_trimStart, occurs_skipJson, occurs_drop.
    + apply occurs_cons in H as [_ Hs]. now apply IH.
Qed.

Lemma fromFirstBrace_without s : JS.occurs "{" s = false -> fromFirstBrace s = None.
Proof.
  induction s as [|x s IH]; intros H; [reflexivity|].
  apply occurs_cons in H as [Hx Hs]. cbn [fromFirstBrace]. now rewrite Hx, IH.
Qed.

(** What goes to [JSON.parse] holds no opening brace when the reply holds
    none. *)
Lemma jsonStr_without response :
  JS.occurs "{" response = false -> JS.occurs "{" (jsonStr response) = false.
Proof.
  intros H. unfold jsonStr.
  assert (Hin : JS.occurs "{"
                  match matchFence response with
                  | Some group => JS.trim group
                  | None => JS.trim response
                  end = false).
  { destruct (matchFence response) as [group|] eqn:E.
    - apply occurs_trim. eapply occurs_matchFence; eassumption.
    - now apply occurs_trim. }
  unfold matchObject. now rewrite (fromFirstBrace_without _ Hin).
Qed.

Lemma between_braceFree c out mode out' :
  Ascii.eqb c "{" = false ->
  forallb braceFree out = true ->
  between c out = Some (mode, out') ->
  wordFree mode = true /\ forallb braceFree out' = true.
Proof.
  intros Hc Hout. unfold between. rewrite Hc.
  repeat match goal with
         | |- context [if ?b then _ else _] => destruct b
         end;
    try (intros [= <- <-]; split; [reflexivity | cbn; exact Hout]).
  destruct (digit c); [|discriminate].
  intros [= <- <-]. now split.
Qed.

Lemma lexStep_braceFree mode c out mode' out' :
  Ascii.eqb c "{" = false ->
  wordFree mode = true ->
  forallb braceFree out = true ->
  lexStep mode c out = Some (mode', out') ->
  wordFree mode' = true /\ forallb braceFree out' = true.
Proof.
  intros Hc Hmode Hout.
  assert (Hnum : forall neg m e, forallb braceFree (number neg m e :: out) = true)
    by (intros; cbn; exact Hout).
  destruct mode; cbn [lexStep].
  - now apply between_braceFree.
  - repeat match goal with
           | |- context [if ?b then _ else _] => destruct b
           end; try discriminate; intros [= <- <-]; now split.
  - repeat match goal with
           | |- context [if ?b then _ else _] => destruct b
           end; try discriminate; intros [= <- <-]; now split.
  - destruct (hexDigit c); [|discriminate].
    destruct remaining as [|[|k]]; try discriminate; intros [= <- <-]; now split.
  - destruct (Ascii.eqb c "0"); [intros [= <- <-]; now split|].
    destruct (digit c); [|discriminate]. intros [= <- <-]; now split.
  - destruct (Ascii.eqb c "."); [intros [= <- <-]; now split|].
    destruct (isE c); [intros [= <- <-]; now split|].
    now apply between_braceFree.
  - destruct (digit c); [intros [= <- <-]; now split|].
    destruct (Ascii.eqb c "."); [intros [= <- <-]; now split|].
    destruct (isE c); [intros [= <- <-]; now split|].
    now apply between_braceFree.
  - destruct (digit c); [|discriminate]. intros [= <- <-]; now split.
  - destruct (digit c); [intros [= <- <-]; now split|].
    destruct (isE c); [intros [= <- <-]; now split|].
    now apply between_braceFree.
  - destruct (Ascii.eqb c "+"); [intros [= <- <-]; now split|].
    destruct (Ascii.eqb c "-"); [intros [= <- <-]; now split|].
    destruct (digit c); [|discriminate]. intros [= <- <-]; now split.
  - destruct (digit c); [|discriminate]. intros [= <- <-]; now split.
  - destruct (digit c); [intros [= <- <-]; now split|].
    now apply between_braceFree.
  - cbn [wordFree] in Hmode.
    destruct rest as [|x [|y rest]]; [discriminate| |];
      (destruct (Ascii.eqb c x); [|discriminate]); intros [= <- <-].
    + split; [reflexivity|]. cbn. now rewrite Hmode.
    + now split.
Qed.

Lemma lexEnd_braceFree mode out ts :
  forallb braceFree out = true -> lexEnd mode out = Some ts ->
  forallb braceFree ts = true.
Proof.
  intros Hout. destruct mode; cbn; try discriminate; intros [= <-]; exact Hout.
Qed.

Lemma lexFrom_braceFree s : forall mode out ts,
  JS.occurs "{" s = false ->
  wordFree mode = true ->
  forallb braceFree out = true ->
  lexFrom mode out s = Some ts ->
  forallb braceFree ts = true.
Proof.
  induction s as [|c s IH]; intros mode out ts H Hmode Hout; cbn [lexFrom].
  - now apply lexEnd_braceFree.
  - apply occurs_cons in H as [Hc Hs].
    destruct (lexStep mode c out) as [[mode' out']|] eqn:E; [|discriminate].
    destruct (lexStep_braceFree _ _ _ _ _ Hc Hmode Hout E) as [Hmode' Hout'].
    now apply IH.
Qed.

Lemma lex_braceFree s ts :
  JS.occurs "{" s = false -> lex s = Some ts -> forallb braceFree ts = true.
Proof.
  intros H. unfold lex.
  destruct (lexFrom Between [] s) as [out|] eqn:E; [|discriminate].
  intros [= <-].
  pose proof (lexFrom_braceFree s Between [] out H eq_refl eq_refl E) as Hout.
  apply forallb_forall. intros t Ht. apply (proj1 (forallb_forall _ _) Hout).
  now apply in_rev.
Qed.

Lemma reduce_objectFree v stack :
  isObjectValue v = false -> inArrays stack = true -> objectFree (reduce v stack) = true.
Proof.
  intros Hv Hstack. destruct stack as [|[items|members key] rest]; cbn in *.
  - now rewrite Hv.
  - exact Hstack.
  - discriminate.
Qed.

Lemma startValue_objectFree t stack st :
  braceFree t = true -> inArrays stack = true ->
  startValue t stack = Some st -> objectFree st = true.
Proof.
  intros Ht Hstack. destruct t; cbn; try discriminate.
  - intros [= <-]. exact Hstack.
  - intros [= <-]. apply reduce_objectFree; [|exact Hstack].
    cbn in Ht. now apply negb_true_iff.
Qed.

Lemma parseStep_objectFree st t st' :
  objectFree st = true -> braceFree t = true ->
  parseStep st t = Some st' -> objectFree st' = true.
Proof.
  intros Hst Ht. destruct st; cbn [objectFree] in Hst; try discriminate; cbn [parseStep].
  - now apply startValue_objectFree.
  - destruct t; try (now apply startValue_objectFree);
      intros [= <-]; now apply reduce_objectFree.
  - destruct t; try discriminate; intros [= <-];
      [now apply reduce_objectFree | exact Hst].
Qed.

Lemma parseFrom_objectFree ts : forall st v,
  objectFree st = true -> forallb braceFree ts = true ->
  parseFrom st ts = Some v -> isObjectValue v = false.
Proof.
  induction ts as [|t ts IH]; intros st v Hst Hts; cbn [parseFrom].
  - destruct st; try discriminate. intros [= <-]. now apply negb_true_iff.
  - cbn in Hts. apply andb_true_iff in Hts as [Ht Hts].
    destruct (parseStep st t) as [st'|] eqn:E; [|discriminate].
    apply IH; [|exact Hts]. eapply parseStep_objectFree; eassumption.
Qed.

(** A text without an opening brace is not read as an object. *)
Lemma JSON_parse_without text v :
  JS.occurs "{" text = false -> JSON_parse text = Some v -> isObjectValue v = false.
Proof.
  intros H. unfold JSON_parse. destruct (lex text) as [ts|] eqn:E; [|discriminate].
  apply parseFrom_objectFree; [reflexivity|]. now apply (lex_braceFree text).
Qed.

(** Only an object makes a decision. *)
Lemma decide_object parsed : isObjectValue parsed = false -> decide parsed = None.
Proof. destruct parsed; try reflexivity. discriminate. Qed.

End ParserUseFacts.

Example parse_array_reply :
  Parser.JSON_parse "[1, 2]"
  = Some (Parser.JArray [Parser.JNumber false 1 0; Parser.JNumber false 2 0])
  /\ Parser.parseAgentResponse "[1, 2]" = None.
Proof. split; reflexivity. Qed.

(** X30. A reply without an opening brace is never taken for a decision.
    Whatever else the reply holds (prose, a fenced block, text that is valid
    JSON such as a string, a number or an array), [parseAgentResponse] returns
    null. *)
Theorem parseAgentResponse_needs_an_object (response : string) :
  JS.occurs "{" response = false -> Parser.parseAgentResponse response = None.
Proof.
  intros H. unfold Parser.parseAgentResponse.
  destruct (Parser.JSON_parse (Parser.jsonStr response)) as [parsed|] eqn:E; [|reflexivity].
  apply decide_object.
  apply (JSON_parse_without (Parser.jsonStr response)); [|exact E].
  now apply jsonStr_without.
Qed.

(** An array of scalars is valid JSON, and no decision. *)
Lemma parseAgentResponse_needs_an_object_witness :
  Parser.parseAgentResponse "[true, null, 12]" = None.
Proof.
  apply parseAgentResponse_needs_an_object. reflexivity.
Defined.
